(** * osm_to_lanelet2: centreline ways to Lanelet2 boundary lanelets

    A shallow embedding of [osm_to_lanelet2.py] and the properties of its
    junction sharing, lanelet construction, tagging, projection and
    perpendicular estimation.

    Conventions of the embedding.
    - The input document is taken after XML parsing: a node carries its id
      and its latitude and longitude as numbers, a way its id, its [nd]
      references and its [tag] children in document order.
    - Python floats are an abstract number type with the operations the
      script uses ([FloatOps]).  Everything about ids, counts, ordering and
      tags is proved for every interpretation of these operations; the
      geometric statements are proved for the interpretation in the real
      numbers ([RealOps]), that is, in exact arithmetic.  The interpretation
      in binary64 ([Binary64Ops]) evaluates the arithmetic as the script
      does, with [math.cos] and [math.hypot] left as parameters.
    - Tag text is ASCII, so that [str.isdigit] is the test for '0'..'9'.
    - A Python exception is [None]. *)

From Stdlib Require Import ZArith QArith Reals Lra Lia String Ascii.
From Stdlib Require Floats Uint63.
From stdpp Require Import base option list gmap strings.

Local Open Scope string_scope.
Local Open Scope list_scope.
Local Open Scope Z_scope.

(** ** Numbers *)

Class FloatOps (num : Type) : Type := {
  lit : Q -> num;             (* a decimal literal of the source *)
  of_nat : nat -> num;        (* an int used in float arithmetic *)
  add : num -> num -> num;
  sub : num -> num -> num;
  mul : num -> num -> num;
  div : num -> num -> num;
  neg : num -> num;
  gtb : num -> num -> bool;
  hypot : num -> num -> num;  (* math.hypot *)
  cos : num -> num;           (* math.cos *)
  radians : num -> num;       (* math.radians *)
  pi : num                    (* math.pi *)
}.

Declare Scope num_scope.
Delimit Scope num_scope with num.
Infix "+" := add : num_scope.
Infix "-" := sub : num_scope.
Infix "*" := mul : num_scope.
Infix "/" := div : num_scope.
Notation "- x" := (neg x) : num_scope.

(** ** Category tables *)

Definition HALF_WIDTHS : gmap string Q := list_to_map [
  ("motorway", 3.75%Q);    ("motorway_link", 3.5%Q);
  ("trunk", 3.5%Q);        ("trunk_link", 3.25%Q);
  ("primary", 3.25%Q);     ("primary_link", 3.0%Q);
  ("secondary", 3.0%Q);    ("secondary_link", 2.75%Q);
  ("tertiary", 3.0%Q);     ("tertiary_link", 2.75%Q);
  ("residential", 2.75%Q); ("living_street", 2.5%Q);
  ("service", 2.5%Q);      ("unclassified", 3.0%Q);
  ("road", 3.0%Q);
  ("footway", 1.5%Q);      ("cycleway", 1.5%Q);
  ("path", 1.5%Q);         ("pedestrian", 2.0%Q);
  ("steps", 1.0%Q) ].

Definition DEFAULT_SPEED : gmap string string := list_to_map [
  ("motorway", "130");   ("trunk", "100");
  ("primary", "90");     ("secondary", "70");
  ("tertiary", "50");    ("residential", "30");
  ("service", "20");     ("living_street", "10");
  ("unclassified", "50"); ("road", "50") ].

Definition VEHICLE_ROADS : gset string := list_to_set [
  "motorway"; "motorway_link"; "trunk"; "trunk_link";
  "primary"; "primary_link"; "secondary"; "secondary_link";
  "tertiary"; "tertiary_link"; "residential"; "living_street";
  "service"; "unclassified"; "road" ].

(** [DEFAULT_SPEED.get(hw, '50')] *)
Definition default_speed (hw : string) : string :=
  default "50" (DEFAULT_SPEED !! hw).

(** ** Text helpers *)

(** [s.rstrip(chars)]: drop the longest suffix made of characters of [chars]. *)
Fixpoint lstrip_list (chars : list ascii) (l : list ascii) : list ascii :=
  match l with
  | [] => []
  | c :: l' => if bool_decide (c ∈ chars) then lstrip_list chars l' else l
  end.

Definition rstrip (chars s : string) : string :=
  string_of_list_ascii
    (rev (lstrip_list (list_ascii_of_string chars) (rev (list_ascii_of_string s)))).

Definition is_digit_char (c : ascii) : bool :=
  let n := nat_of_ascii c in ((48 <=? n) && (n <=? 57))%nat.

(** [s.isdigit()]: at least one character and all of them digits. *)
Definition isdigit (s : string) : bool :=
  match list_ascii_of_string s with
  | [] => false
  | l => forallb is_digit_char l
  end.

(** [{t.get('k'): t.get('v') for t in elem.findall('tag')}]: a later tag
    with the same key replaces an earlier one. *)
Definition get_tags (tags : list (string * string)) : gmap string string :=
  foldl (fun m kv => <[kv.1 := kv.2]> m) ∅ tags.

(** ** Output entities *)

Inductive side := Left | Centre | Right.

#[global] Instance side_eq_dec : EqDecision side.
Proof. solve_decision. Defined.

Record triple := { t_left : Z; t_centre : Z; t_right : Z }.

(** [shared[osm_ref][side]] *)
Definition triple_get (t : triple) (s : side) : Z :=
  match s with Left => t_left t | Centre => t_centre t | Right => t_right t end.

Definition tags := list (string * string).
Definition member := (string * Z * string)%type.

(** The two dictionaries of the script that are only looked up: the index
    of the source nodes, [osm_nodes[id] = (lat, lon, x, y)], and the
    registry of the junction triples, [shared[osm_ref]]. *)
Abbreviation node_index num := (gmap string (num * num * num * num)) (only parsing).
Abbreviation shared_map := (gmap string triple) (only parsing).

Section Convert.

Context {num : Type} `{FloatOps num}.

Local Open Scope num_scope.

(** *** Input document *)

Record osm_bounds := { minlat : num; minlon : num; maxlat : num; maxlon : num }.
Record osm_node := { node_id : string; node_lat : num; node_lon : num }.
Record osm_way := { way_id : string; way_nds : list string; way_tags : tags }.
Record osm_doc := {
  doc_bounds : option osm_bounds;
  doc_nodes : list osm_node;
  doc_ways : list osm_way
}.

(** *** Output document: the children of the [osm] root, in order *)

Inductive element :=
| EBounds (b : osm_bounds)
| ENode (id : Z) (lat lon : num)
| EWay (id : Z) (nds : list Z) (t : tags)
| ERelation (id : Z) (members : list member) (t : tags).

(** *** Local projection *)

Definition latlon_to_xy (lat lon origin_lat origin_lon : num) : num * num :=
  let R := lit 6371000.0 in
  let x := (lon - origin_lon) * pi / lit 180.0 * R * cos (radians origin_lat) in
  let y := (lat - origin_lat) * pi / lit 180.0 * R in
  (x, y).

Definition xy_to_latlon (x y origin_lat origin_lon : num) : num * num :=
  let R := lit 6371000.0 in
  let lat := origin_lat + (y / R) * (lit 180.0 / pi) in
  let lon := origin_lon + (x / (R * cos (radians origin_lat))) * (lit 180.0 / pi) in
  (lat, lon).

(** *** Perpendicular field *)

Definition normalize (dx dy : num) : num * num :=
  let d := hypot dx dy in
  if gtb d (lit 1e-10) then (dx / d, dy / d) else (lit 0.0, lit 1.0).

Definition left_perp (dx dy : num) : num * num :=
  normalize (- dy) dx.

(** [sum(...)]: Python's [sum] starts from the int 0. *)
Definition fsum (l : list num) : num := foldl add (of_nat 0) l.

(** The body of the loop of [compute_perps] at index [i]; the division by
    [len(dirs)] raises when no segment touches the position. *)
Definition perp_at (xy_coords : list (num * num)) (n i : nat) : option (num * num) :=
  dirs1 ← (if (0 <? i)%nat then
             p ← xy_coords !! i; q ← xy_coords !! (i - 1)%nat;
             Some [normalize (p.1 - q.1) (p.2 - q.2)]
           else Some []);
  dirs2 ← (if (i <? n - 1)%nat then
             p ← xy_coords !! (i + 1)%nat; q ← xy_coords !! i;
             Some [normalize (p.1 - q.1) (p.2 - q.2)]
           else Some []);
  let dirs := dirs1 ++ dirs2 in
  match length dirs with
  | O => None
  | _ =>
    let avg_dx := fsum (dirs.*1) / of_nat (length dirs) in
    let avg_dy := fsum (dirs.*2) / of_nat (length dirs) in
    let a := normalize avg_dx avg_dy in
    Some (left_perp a.1 a.2)
  end.

Definition compute_perps (xy_coords : list (num * num)) : option (list (num * num)) :=
  let n := length xy_coords in
  mapM (perp_at xy_coords n) (seq 0 n).

(** *** Collecting the ways *)

Record highway_way := {
  hw_id : string;
  hw_highway : string;
  hw_refs : list string;
  hw_oneway : bool;
  hw_speed : string;
  hw_name : string
}.

(** The way after phase 1, with its derived geometry. *)
Record way_geom := {
  g_way : highway_way;
  g_xy : list (num * num);
  g_perps : list (num * num);
  g_half_w : num
}.

Definition origin_of (d : osm_doc) : option (num * num) :=
  match doc_bounds d with
  | Some b => Some ((minlat b + maxlat b) / of_nat 2, (minlon b + maxlon b) / of_nat 2)
  | None =>
    match doc_nodes d with
    | first :: _ => Some (node_lat first, node_lon first)
    | [] => None
    end
  end.

Definition index_nodes (origin : num * num) (nodes : list osm_node) : node_index num :=
  foldl (fun m nd =>
           let xy := latlon_to_xy (node_lat nd) (node_lon nd) origin.1 origin.2 in
           <[node_id nd := (node_lat nd, node_lon nd, xy.1, xy.2)]> m) ∅ nodes.

(** One iteration of the loop over [root.findall('way')]: [None] is
    [continue]. *)
Definition collect_way (osm_nodes : node_index num) (w : osm_way) : option highway_way :=
  let tags := get_tags (way_tags w) in
  let hw := default "" (tags !! "highway") in
  if bool_decide (is_Some (HALF_WIDTHS !! hw)) then
    let refs := filter (fun r => is_Some (osm_nodes !! r)) (way_nds w) in
    if (length refs <? 2)%nat then None
    else Some {|
      hw_id := way_id w;
      hw_highway := hw;
      hw_refs := refs;
      hw_oneway := bool_decide (default "no" (tags !! "oneway") ∈ ["yes"; "1"; "true"]);
      hw_speed := default (default_speed hw) (tags !! "maxspeed");
      hw_name := default "" (tags !! "name")
    |}
  else None.

Definition collect_ways (osm_nodes : node_index num) (ways : list osm_way) : list highway_way :=
  omap (collect_way osm_nodes) ways.

(** Phase 1 for one way. *)
Definition way_geometry (osm_nodes : node_index num) (hw : highway_way) : option way_geom :=
  xy ← mapM (fun r => n ← osm_nodes !! r; Some (n.1.2, n.2)) (hw_refs hw);
  perps ← compute_perps xy;
  half_w ← HALF_WIDTHS !! hw_highway hw;
  Some {| g_way := hw; g_xy := xy; g_perps := perps; g_half_w := lit half_w |}.

(** *** Phase 2: endpoint contributions, in insertion order *)

Definition info := (num * num * num)%type.
Definition endpoint_map := list (string * list info).

(** [endpoint_info[key].append(i)] on a [defaultdict(list)] *)
Fixpoint ep_append (key : string) (i : info) (ep : endpoint_map) : endpoint_map :=
  match ep with
  | [] => [(key, [i])]
  | (k, l) :: rest =>
    if bool_decide (k = key) then (k, l ++ [i]) :: rest
    else (k, l) :: ep_append key i rest
  end.

(** [endpoint_info[key]], empty for a key never appended to *)
Fixpoint ep_get (key : string) (ep : endpoint_map) : list info :=
  match ep with
  | [] => []
  | (k, l) :: rest => if bool_decide (k = key) then l else ep_get key rest
  end.

Definition add_endpoint (g : way_geom) (pos : nat) (ep : endpoint_map) : option endpoint_map :=
  p ← g_perps g !! pos;
  r ← hw_refs (g_way g) !! pos;
  Some (ep_append r (p.1, p.2, g_half_w g) ep).

Definition add_endpoints (ep : endpoint_map) (g : way_geom) : option endpoint_map :=
  let refs := hw_refs (g_way g) in
  ep1 ← add_endpoint g 0 ep;
  add_endpoint g (length refs - 1) ep1.

Fixpoint endpoint_info_from (ways : list way_geom) (ep : endpoint_map) : option endpoint_map :=
  match ways with
  | [] => Some ep
  | g :: rest => ep' ← add_endpoints ep g; endpoint_info_from rest ep'
  end.

(** *** Phase 3: the output builder *)

Record builder := {
  nid : Z;
  wid : Z;
  rid : Z;
  out : list element
}.

Definition Build (A : Type) : Type := builder -> option (A * builder).

Definition ret {A} (a : A) : Build A := fun b => Some (a, b).
Definition bind {A B} (m : Build A) (k : A -> Build B) : Build B :=
  fun b => match m b with Some (a, b') => k a b' | None => None end.
Definition lift {A} (o : option A) : Build A :=
  fun b => match o with Some a => Some (a, b) | None => None end.

Notation "'let*' x ':=' c 'in' k" := (bind c (fun x => k))
  (at level 10, x name, c at level 100, k at level 200).

Definition add_node (latlon : num * num) : Build Z :=
  fun b => Some (nid b, {| nid := nid b - 1; wid := wid b; rid := rid b;
                           out := out b ++ [ENode (nid b) latlon.1 latlon.2] |}).

Definition add_way (node_ids : list Z) (t : tags) : Build Z :=
  fun b => Some (wid b, {| nid := nid b; wid := wid b - 1; rid := rid b;
                           out := out b ++ [EWay (wid b) node_ids t] |}).

Definition add_relation (members : list member) (t : tags) : Build Z :=
  fun b => Some (rid b, {| nid := nid b; wid := wid b; rid := rid b - 1;
                           out := out b ++ [ERelation (rid b) members t] |}).

Definition init_builder (bounds : option osm_bounds) : builder :=
  {| nid := -1; wid := -1; rid := -1;
     out := match bounds with Some b => [EBounds b] | None => [] end |}.

(** *** Phase 4: shared boundary nodes at junction endpoints *)

(** The averaged perpendicular of a junction. *)
Definition merged_direction (infos : list info) : num * num :=
  let avg_px := fsum ((fun i => i.1.1) <$> infos) / of_nat (length infos) in
  let avg_py := fsum ((fun i => i.1.2) <$> infos) / of_nat (length infos) in
  normalize avg_px avg_py.

Definition merged_half_width (infos : list info) : num :=
  fsum ((fun i => i.2) <$> infos) / of_nat (length infos).

(** One iteration of the loop over [endpoint_info.items()]. *)
Definition merge_junction (origin : num * num) (osm_nodes : node_index num)
    (shared : shared_map) (item : string * list info) : Build shared_map :=
  let '(osm_ref, infos) := item in
  if (length infos <? 2)%nat then ret shared
  else
    let avg := merged_direction infos in
    let avg_hw := merged_half_width infos in
    let* n := lift (osm_nodes !! osm_ref) in
    let x := n.1.2 in
    let y := n.2 in
    let* l := add_node (xy_to_latlon (x + avg.1 * avg_hw) (y + avg.2 * avg_hw)
                                     origin.1 origin.2) in
    let* c := add_node (xy_to_latlon x y origin.1 origin.2) in
    let* r := add_node (xy_to_latlon (x - avg.1 * avg_hw) (y - avg.2 * avg_hw)
                                     origin.1 origin.2) in
    ret (<[osm_ref := {| t_left := l; t_centre := c; t_right := r |}]> shared).

Fixpoint merge_junctions (origin : num * num) (osm_nodes : node_index num)
    (shared : shared_map) (items : endpoint_map) : Build shared_map :=
  match items with
  | [] => ret shared
  | item :: rest =>
    let* shared' := merge_junction origin osm_nodes shared item in
    merge_junctions origin osm_nodes shared' rest
  end.

(** *** Phase 5: boundary nodes and lanelets of one way *)

(** [(i == 0 or i == n - 1) and osm_ref in shared], with the entry found *)
Definition shared_hit (shared : shared_map) (n i : nat) (osm_ref : string) : option triple :=
  if bool_decide (i = 0%nat \/ i = (n - 1)%nat) then shared !! osm_ref else None.

Definition boundary_node (origin : num * num) (shared : shared_map) (g : way_geom)
    (i : nat) (s : side) : Build Z :=
  let refs := hw_refs (g_way g) in
  let n := length refs in
  let* osm_ref := lift (refs !! i) in
  match shared_hit shared n i osm_ref with
  | Some t => ret (triple_get t s)
  | None =>
    let* p := lift (g_xy g !! i) in
    let* q := lift (g_perps g !! i) in
    let half_w := g_half_w g in
    match s with
    | Left => add_node (xy_to_latlon (p.1 + q.1 * half_w) (p.2 + q.2 * half_w)
                                     origin.1 origin.2)
    | Right => add_node (xy_to_latlon (p.1 - q.1 * half_w) (p.2 - q.2 * half_w)
                                      origin.1 origin.2)
    | Centre => add_node (xy_to_latlon p.1 p.2 origin.1 origin.2)
    end
  end.

(** [[boundary_node(i, side) for i in positions]] *)
Fixpoint boundary_nodes (origin : num * num) (shared : shared_map) (g : way_geom)
    (positions : list nat) (s : side) : Build (list Z) :=
  match positions with
  | [] => ret []
  | i :: rest =>
    let* id := boundary_node origin shared g i s in
    let* ids := boundary_nodes origin shared g rest s in
    ret (id :: ids)
  end.

Definition boundary_ids (origin : num * num) (shared : shared_map) (g : way_geom)
    (s : side) : Build (list Z) :=
  boundary_nodes origin shared g (seq 0 (length (hw_refs (g_way g)))) s.

Definition is_vehicle (hw_type : string) : bool := bool_decide (hw_type ∈ VEHICLE_ROADS).

Definition solid_tags (hw_type : string) : tags :=
  [("type", "line_thin"); ("subtype", if is_vehicle hw_type then "solid" else "dashed")].

Definition dashed_tags : tags := [("type", "line_thin"); ("subtype", "dashed")].

(** The speed that ends up in the relation tags. *)
Definition speed_limit (hw : highway_way) : string :=
  if negb (isdigit (rstrip " mph km/h" (hw_speed hw)))
  then default_speed (hw_highway hw)
  else hw_speed hw.

Definition rel_tags (hw : highway_way) : tags :=
  let v := is_vehicle (hw_highway hw) in
  [ ("type", "lanelet");
    ("subtype", if v then "road" else "walkway");
    ("speed_limit", speed_limit hw);
    ("location", "urban");
    ("participant:vehicle", if v then "yes" else "no");
    ("participant:pedestrian", if negb v then "yes" else "no") ]
  ++ (if bool_decide (hw_name hw = "") then [] else [("name", hw_name hw)]).

(** The body of the loop over the ways in phase 5. *)
Definition build_way (origin : num * num) (shared : shared_map) (g : way_geom) : Build unit :=
  let hw := g_way g in
  let solid := solid_tags (hw_highway hw) in
  if hw_oneway hw then
    let* left_ids := boundary_ids origin shared g Left in
    let* right_ids := boundary_ids origin shared g Right in
    let* lw := add_way left_ids solid in
    let* rw := add_way right_ids solid in
    let* _ := add_relation [("way", lw, "left"); ("way", rw, "right")]
                           (rel_tags hw ++ [("one_way", "yes")]) in
    ret tt
  else
    let* left_ids := boundary_ids origin shared g Left in
    let* centre_ids := boundary_ids origin shared g Centre in
    let* right_ids := boundary_ids origin shared g Right in
    let* lw := add_way left_ids solid in
    let* cw := add_way centre_ids dashed_tags in
    let* _ := add_relation [("way", lw, "left"); ("way", cw, "right")] (rel_tags hw) in
    let* cr := add_way (reverse centre_ids) dashed_tags in
    let* rr := add_way (reverse right_ids) solid in
    let* _ := add_relation [("way", cr, "left"); ("way", rr, "right")] (rel_tags hw) in
    ret tt.

Fixpoint build_ways (origin : num * num) (shared : shared_map) (ways : list way_geom)
    : Build unit :=
  match ways with
  | [] => ret tt
  | g :: rest =>
    let* _ := build_way origin shared g in
    build_ways origin shared rest
  end.

(** *** The whole conversion *)

(** Everything computed before the output is built. *)
Record prepared := {
  p_origin : num * num;
  p_nodes : node_index num;
  p_ways : list way_geom;
  p_endpoints : endpoint_map
}.

Definition prepare (d : osm_doc) : option prepared :=
  origin ← origin_of d;
  let osm_nodes := index_nodes origin (doc_nodes d) in
  let highway_ways := collect_ways osm_nodes (doc_ways d) in
  ways ← mapM (way_geometry osm_nodes) highway_ways;
  ep ← endpoint_info_from ways [];
  Some {| p_origin := origin; p_nodes := osm_nodes; p_ways := ways; p_endpoints := ep |}.

Definition junctions (p : prepared) : Build shared_map :=
  merge_junctions (p_origin p) (p_nodes p) ∅ (p_endpoints p).

Definition lanelets (p : prepared) (shared : shared_map) : Build unit :=
  build_ways (p_origin p) shared (p_ways p).

Definition convert (d : osm_doc) : option (list element) :=
  p ← prepare d;
  r ← (let* shared := junctions p in lanelets p shared) (init_builder (doc_bounds d));
  Some (out r.2).

(** *** Observing a run *)

Definition node_ids (o : list element) : list Z :=
  omap (fun e => match e with ENode i _ _ => Some i | _ => None end) o.

Definition way_elems (o : list element) : list (Z * list Z * tags) :=
  omap (fun e => match e with EWay i nds t => Some (i, nds, t) | _ => None end) o.

Definition relation_elems (o : list element) : list (Z * list member * tags) :=
  omap (fun e => match e with ERelation i ms t => Some (i, ms, t) | _ => None end) o.

(** The number of node elements of the output that carry the id [i]. *)
Definition materialized (o : list element) (i : Z) : nat :=
  length (filter (fun j => j = i) (node_ids o)).

(** The state of the conversion when phase 5 has handled the first [k]
    ways: the prepared data, the junction registry and the builder. *)
Definition run_to (d : osm_doc) (k : nat) : option (prepared * shared_map * builder) :=
  p ← prepare d;
  r ← junctions p (init_builder (doc_bounds d));
  r' ← build_ways (p_origin p) r.1 (take k (p_ways p)) r.2;
  Some (p, r.1, r'.2).

(** The junction registry of a run. *)
Definition shared_of (d : osm_doc) : option shared_map :=
  s ← run_to d 0; Some s.1.2.

(** The ways that are converted, in order, and the [k]-th of them. *)
Definition highway_ways (d : osm_doc) : option (list highway_way) :=
  p ← prepare d; Some (g_way <$> p_ways p).

Definition way_at (d : osm_doc) (k : nat) : option highway_way :=
  hws ← highway_ways d; hws !! k.

(** The elements that the [k]-th iteration of phase 5 appends to the output. *)
Definition emitted (d : osm_doc) (k : nat) : option (list element) :=
  s ← run_to d k;
  g ← p_ways s.1.1 !! k;
  r ← build_way (p_origin s.1.1) s.1.2 g s.2;
  Some (drop (length (out s.2)) (out r.2)).

End Convert.

Arguments osm_bounds : clear implicits.
Arguments osm_node : clear implicits.
Arguments osm_doc : clear implicits.
Arguments element : clear implicits.
Arguments way_geom : clear implicits.
Arguments info : clear implicits.
Arguments endpoint_map : clear implicits.
Arguments builder : clear implicits.
Arguments Build : clear implicits.
Arguments prepared : clear implicits.

(** ** Exact arithmetic: the operations read in the real numbers *)

#[export] Instance RealOps : FloatOps R := {|
  lit := Q2R;
  of_nat := INR;
  add := Rplus;
  sub := Rminus;
  mul := Rmult;
  div := Rdiv;
  neg := Ropp;
  gtb x y := if Rlt_dec y x then true else false;
  hypot x y := sqrt (x * x + y * y);
  cos := Rtrigo_def.cos;
  radians x := (x * (PI / 180))%R;
  pi := PI
|}.

(** * Vocabulary of the statements *)

Section Scenarios.

Context {num : Type} `{FloatOps num}.

(** The [highway] value that decides whether a way is converted. *)
Definition category (w : osm_way) : string :=
  default "" (get_tags (way_tags w) !! "highway").

(** The references of a way that name a node of the document. *)
Definition resolvable (d : osm_doc num) (w : osm_way) : list string :=
  filter (fun r => r ∈ node_id <$> doc_nodes d) (way_nds w).

(** A way that the conversion leaves out. *)
Definition dropped (d : osm_doc num) (w : osm_way) : Prop :=
  HALF_WIDTHS !! category w = None \/ (length (resolvable d w) < 2)%nat.

(** The document with another list of ways. *)
Definition with_ways (d : osm_doc num) (ws : list osm_way) : osm_doc num :=
  {| doc_bounds := doc_bounds d; doc_nodes := doc_nodes d; doc_ways := ws |}.

Definition mk_node (id : string) (lat lon : Q) : osm_node num :=
  {| node_id := id; node_lat := lit lat; node_lon := lit lon |}.

Definition scenario_bounds : osm_bounds num :=
  {| minlat := lit 0; minlon := lit 0; maxlat := lit 0.001; maxlon := lit 0.001 |}.

(** One two-way residential way over the nodes A and B, anywhere. *)
Definition isolated_two_way (bounds : option (osm_bounds num)) (a b : num * num)
    : osm_doc num := {|
  doc_bounds := bounds;
  doc_nodes := [ {| node_id := "A"; node_lat := a.1; node_lon := a.2 |};
                 {| node_id := "B"; node_lat := b.1; node_lon := b.2 |} ];
  doc_ways := [ {| way_id := "1"; way_nds := ["A"; "B"];
                   way_tags := [("highway", "residential"); ("oneway", "no")] |} ]
|}.

(** Scenario A of the specification. *)
Definition scenario_A : osm_doc num :=
  isolated_two_way (Some scenario_bounds) (lit 0, lit 0) (lit 0.0005, lit 0.0005).

(** Scenario B of the specification, with coordinates chosen here. *)
Definition scenario_B : osm_doc num := {|
  doc_bounds := Some scenario_bounds;
  doc_nodes := [mk_node "A" 0 0; mk_node "B" 0.001 0; mk_node "C" 0.0005 0.0005];
  doc_ways := [
    {| way_id := "10"; way_nds := ["A"; "C"];
       way_tags := [("highway", "residential"); ("oneway", "yes")] |};
    {| way_id := "11"; way_nds := ["B"; "C"];
       way_tags := [("highway", "residential"); ("oneway", "yes")] |} ]
|}.

(** A closed two-way way A, B, C, A and nothing else. *)
Definition scenario_loop : osm_doc num := {|
  doc_bounds := Some scenario_bounds;
  doc_nodes := [mk_node "A" 0 0; mk_node "B" 0.001 0; mk_node "C" 0.0005 0.0005];
  doc_ways := [
    {| way_id := "20"; way_nds := ["A"; "B"; "C"; "A"];
       way_tags := [("highway", "service")] |} ]
|}.

(** A document whose only way has a category outside the table. *)
Definition scenario_unrecognized : osm_doc num := {|
  doc_bounds := Some scenario_bounds;
  doc_nodes := [mk_node "A" 0 0; mk_node "B" 0.001 0];
  doc_ways := [
    {| way_id := "30"; way_nds := ["A"; "B"];
       way_tags := [("highway", "construction")] |} ]
|}.


End Scenarios.

Definition way_B1 : highway_way :=
  {| hw_id := "10"; hw_highway := "residential"; hw_refs := ["A"; "C"];
     hw_oneway := true; hw_speed := "30"; hw_name := "" |}.

Definition way_B2 : highway_way :=
  {| hw_id := "11"; hw_highway := "residential"; hw_refs := ["B"; "C"];
     hw_oneway := true; hw_speed := "30"; hw_name := "" |}.

Definition way_loop : highway_way :=
  {| hw_id := "20"; hw_highway := "service"; hw_refs := ["A"; "B"; "C"; "A"];
     hw_oneway := false; hw_speed := "20"; hw_name := "" |}.

Definition way_A : highway_way :=
  {| hw_id := "1"; hw_highway := "residential"; hw_refs := ["A"; "B"];
     hw_oneway := false; hw_speed := "30"; hw_name := "" |}.


Section BuilderTerms.

Context {num : Type} `{FloatOps num}.
Implicit Types (b : builder num) (o : list (element num)).

(** The ids handed out by the node counter: -1, -2, ... *)
Definition neg_ids (n : nat) : list Z := (fun i : nat => -1 - Z.of_nat i) <$> seq 0 n.

(** The node counter and the node elements agree. *)
Definition counted b : Prop :=
  node_ids (out b) = neg_ids (length (node_ids (out b))) /\
  nid b = -1 - Z.of_nat (length (node_ids (out b))).

(** [b'] continues [b]: the output is extended by [new]. *)
Definition extends b (new : list (element num)) b' : Prop :=
  out b' = out b ++ new.

(** [l] is the run of ids handed out by a counter that stands at [start]. *)
Definition fresh_from (start : Z) (l : list Z) : Prop :=
  l = (fun i : nat => start - Z.of_nat i) <$> seq 0 (length l).

(** What an action of the builder does: it appends [new], and each of the
    three counters moves down by the number of elements of its kind, whose
    ids are the values the counter went through. *)
Record step b (new : list (element num)) b' : Prop := {
  step_out : out b' = out b ++ new;
  step_nid : nid b' = nid b - Z.of_nat (length (node_ids new));
  step_wid : wid b' = wid b - Z.of_nat (length (way_elems new));
  step_rid : rid b' = rid b - Z.of_nat (length (relation_elems new));
  step_nodes : fresh_from (nid b) (node_ids new);
  step_ways : fresh_from (wid b) ((fun w => w.1.1) <$> way_elems new);
  step_relations : fresh_from (rid b) ((fun r => r.1.1) <$> relation_elems new)
}.

(** Only node elements. *)
Definition only_nodes (l : list (element num)) : Prop :=
  Forall (fun e => match e with ENode _ _ _ => True | _ => False end) l.

End BuilderTerms.

Section BoundaryTerms.

Context {num : Type} `{FloatOps num}.
Implicit Types (b : builder num) (g : way_geom num) (shared : shared_map).

(** The junction entry that position [i] of a way resolves to, if any. *)
Definition hit_at shared (refs : list string) (i : nat) : option triple :=
  r ← refs !! i; shared_hit shared (length refs) i r.

(** The ids that [boundary_nodes] returns when the node counter stands at
    [start]: the shared id where a position hits the registry, the next
    fresh id elsewhere. *)
Fixpoint plan shared (refs : list string) (s : side) (positions : list nat) (start : Z)
    : list Z :=
  match positions with
  | [] => []
  | i :: rest =>
    match hit_at shared refs i with
    | Some t => triple_get t s :: plan shared refs s rest start
    | None => start :: plan shared refs s rest (start - 1)
    end
  end.

(** The number of positions that get a fresh node. *)
Fixpoint misses shared (refs : list string) (positions : list nat) : nat :=
  match positions with
  | [] => 0
  | i :: rest =>
    match hit_at shared refs i with
    | Some _ => misses shared refs rest
    | None => S (misses shared refs rest)
    end
  end.

End BoundaryTerms.

Section LaneletTerms.

Context {num : Type} `{FloatOps num}.
Implicit Types (b : builder num) (g : way_geom num) (hw : highway_way) (shared : shared_map).

Definition positions_of hw : list nat := seq 0 (length (hw_refs hw)).

(** The number of fresh nodes per boundary sequence of a way. *)
Definition fresh_per_side shared hw : nat :=
  misses shared (hw_refs hw) (positions_of hw).

(** The ways and relations that [build_way] appends after the fresh nodes,
    when the counters stand at [n0], [w0] and [r0]. *)
Definition lanelet_elems shared hw (n0 w0 r0 : Z) : list (element num) :=
  let refs := hw_refs hw in
  let m := Z.of_nat (fresh_per_side shared hw) in
  let solid := solid_tags (hw_highway hw) in
  if hw_oneway hw then
    [ EWay w0 (plan shared refs Left (positions_of hw) n0) solid;
      EWay (w0 - 1) (plan shared refs Right (positions_of hw) (n0 - m)) solid;
      ERelation r0 [("way", w0, "left"); ("way", w0 - 1, "right")]
                (rel_tags hw ++ [("one_way", "yes")]) ]
  else
    [ EWay w0 (plan shared refs Left (positions_of hw) n0) solid;
      EWay (w0 - 1) (plan shared refs Centre (positions_of hw) (n0 - m)) dashed_tags;
      ERelation r0 [("way", w0, "left"); ("way", w0 - 1, "right")] (rel_tags hw);
      EWay (w0 - 2) (reverse (plan shared refs Centre (positions_of hw) (n0 - m))) dashed_tags;
      EWay (w0 - 3) (reverse (plan shared refs Right (positions_of hw) (n0 - m - m))) solid;
      ERelation (r0 - 1) [("way", w0 - 2, "left"); ("way", w0 - 3, "right")] (rel_tags hw) ].

End LaneletTerms.

Section PrepareTerms.

Context {num : Type} `{FloatOps num}.
Implicit Types (g : way_geom num) (ep : endpoint_map num) (nodes : node_index num).

(** A way as phase 5 needs it. *)
Definition wf_way nodes g : Prop :=
  (2 <= length (hw_refs (g_way g)))%nat /\
  length (g_xy g) = length (hw_refs (g_way g)) /\
  length (g_perps g) = length (hw_refs (g_way g)) /\
  Forall (fun r => is_Some (nodes !! r)) (hw_refs (g_way g)).

(** The number of endpoint contributions of a way to the source node [r]. *)
Definition contributions (r : string) (hw : highway_way) : nat :=
  let refs := hw_refs hw in
  ((if bool_decide (refs !! 0%nat = Some r) then 1 else 0) +
   (if bool_decide (refs !! (length refs - 1)%nat = Some r) then 1 else 0))%nat.

End PrepareTerms.

Section JunctionTerms.

Context {num : Type} `{FloatOps num}.
Implicit Types (b : builder num) (g : way_geom num) (shared : shared_map)
  (nodes : node_index num) (items : endpoint_map num).
Local Open Scope num_scope.

(** The three nodes of a junction, numbered from [start]. *)
Definition junction_nodes (origin : num * num) (n : num * num * num * num)
    (infos : list (info num)) (start : Z) : list (element num) :=
  let avg := merged_direction infos in
  let avg_hw := merged_half_width infos in
  let x := n.1.2 in
  let y := n.2 in
  let l := xy_to_latlon (x + avg.1 * avg_hw) (y + avg.2 * avg_hw) origin.1 origin.2 in
  let c := xy_to_latlon x y origin.1 origin.2 in
  let r := xy_to_latlon (x - avg.1 * avg_hw) (y - avg.2 * avg_hw) origin.1 origin.2 in
  [ENode start l.1 l.2; ENode (start - 1)%Z c.1 c.2; ENode (start - 2)%Z r.1 r.2].

Definition triple_from (start : Z) : triple :=
  {| t_left := start; t_centre := (start - 1)%Z; t_right := (start - 2)%Z |}.

End JunctionTerms.

Section RunTerms.

Context {num : Type} `{FloatOps num}.
Implicit Types (d : osm_doc num) (p : prepared num) (b : builder num) (g : way_geom num)
  (shared : shared_map) (o : list (element num)).

(** The registry that phase 4 builds from the endpoint map [ep], and the
    nodes [jn] it appends for it. *)
Definition registry_of (origin : num * num) (nodes : node_index num) (ep : endpoint_map num)
    (shared : shared_map) (jn : list (element num)) : Prop :=
  forall r,
    if (length (ep_get r ep) <? 2)%nat then shared !! r = None
    else exists n pre post,
      nodes !! r = Some n /\
      jn = pre ++ junction_nodes origin n (ep_get r ep) (-1 - Z.of_nat (length pre)) ++ post /\
      shared !! r = Some (triple_from (-1 - Z.of_nat (length pre))).

End RunTerms.

Section SharingTerms.

Context {num : Type} `{FloatOps num}.
Implicit Types (d : osm_doc num) (hw : highway_way) (o : list (element num)).

(** Position [pos] is the first or the last of the way. *)
Definition is_endpoint hw (pos : nat) : Prop :=
  pos = 0%nat \/ pos = (length (hw_refs hw) - 1)%nat.

(** The boundary ways in [els], the elements appended for one way with [n]
    positions, carry the ids of [t] at source position [pos]: the left and
    right (and, for a two-way road, centre) ways at [pos], the reversed
    centre and right ways of the reverse lanelet at the mirrored position. *)
Definition uses_at (els : list (element num)) (n pos : nat) (t : triple) : Prop :=
  match (fun w => w.1.2) <$> way_elems els with
  | [L; R] => L !! pos = Some (t_left t) /\ R !! pos = Some (t_right t)
  | [L; C; Cr; Rr] =>
    L !! pos = Some (t_left t) /\ C !! pos = Some (t_centre t) /\
    Cr !! (n - 1 - pos)%nat = Some (t_centre t) /\
    Rr !! (n - 1 - pos)%nat = Some (t_right t)
  | _ => False
  end.

(** The endpoint contributions that the source node [r] receives. *)
Definition junction_degree d (r : string) : option nat :=
  hws ← highway_ways d; Some (sum_list (contributions r <$> hws)).

End SharingTerms.

Section Summaries.

Context {num : Type} `{FloatOps num}.

(** The ids and node sequences of the way elements. *)
Definition way_nodes (o : list (element num)) : list (Z * list Z) :=
  (fun w => (w.1.1, w.1.2)) <$> way_elems o.

(** The ids and members of the relation elements. *)
Definition relation_members (o : list (element num)) : list (Z * list member) :=
  (fun r => (r.1.1, r.1.2)) <$> relation_elems o.

(** The ids, node sequences and members of an output document. *)
Definition summary (o : list (element num)) :
    list Z * list (Z * list Z) * list (Z * list member) :=
  (node_ids o, way_nodes o, relation_members o).

End Summaries.

(** [t.get(k)] on the tags of an output element *)
Fixpoint tag_value (t : tags) (k : string) : option string :=
  match t with
  | [] => None
  | (k', v) :: rest => if bool_decide (k' = k) then Some v else tag_value rest k
  end.


Section SpeedTerms.

Context {num : Type} `{FloatOps num}.
Implicit Types (d : osm_doc num) (hw : highway_way).


End SpeedTerms.

Section MergeTerms.

Local Close Scope Z_scope.
Context {num : Type} `{FloatOps num}.
Local Open Scope num_scope.

(** The sum of the contributed normals of a junction. *)
Definition normal_sum (infos : list (info num)) : num * num :=
  (fsum ((fun i => i.1.1) <$> infos), fsum ((fun i => i.1.2) <$> infos)).

(** The merged direction as the specification words it: the normalized
    sum of the contributed normals. *)
Definition spec_merged_direction (infos : list (info num)) : num * num :=
  normalize (normal_sum infos).1 (normal_sum infos).2.

(** Two ways that meet head-on at the node C, which is also the origin. *)
Definition head_on (a b : Q * Q) : osm_doc num := {|
  doc_bounds := None;
  doc_nodes := [mk_node "C" 0 0; mk_node "A" a.1 a.2; mk_node "B" b.1 b.2];
  doc_ways := [
    {| way_id := "50"; way_nds := ["A"; "C"]; way_tags := [("highway", "residential")] |};
    {| way_id := "51"; way_nds := ["B"; "C"]; way_tags := [("highway", "residential")] |} ]
|}.

(** The contributions that C receives in [head_on]. *)
Definition head_on_infos (a b : Q * Q) : option (list (info num)) :=
  let pc := latlon_to_xy (lit 0) (lit 0) (lit 0) (lit 0) in
  let pa := latlon_to_xy (lit a.1) (lit a.2) (lit 0) (lit 0) in
  let pb := latlon_to_xy (lit b.1) (lit b.2) (lit 0) (lit 0) in
  ps1 ← compute_perps [pa; pc];
  ps2 ← compute_perps [pb; pc];
  q1 ← ps1 !! 1%nat;
  q2 ← ps2 !! 1%nat;
  Some [(q1.1, q1.2, lit 2.75); (q2.1, q2.2, lit 2.75)].

End MergeTerms.

Section SliverTerms.

Local Close Scope Z_scope.
Local Open Scope R_scope.

(** The projection around the origin (0, 0): a scaling by the metres per
    degree. *)
Definition metres_per_degree : R := PI / 180 * 6371000.

Definition sliver_a : Q * Q := (0, -1)%Q.
Definition sliver_b : Q * Q := (-1.5e-10, 0.999999999999999999994375)%Q.

End SliverTerms.

(** ** Vocabulary of the further properties *)

Section OutputTerms.

Context {num : Type} `{FloatOps num}.

(** The [bounds] elements of an output document. *)
Definition bounds_elems (o : list (element num)) : list (osm_bounds num) :=
  omap (fun e => match e with EBounds b => Some b | _ => None end) o.

(** The ids of the way and of the relation elements, in document order. *)
Definition way_ids (o : list (element num)) : list Z := (fun w => w.1.1) <$> way_elems o.

Definition relation_ids (o : list (element num)) : list Z :=
  (fun r => r.1.1) <$> relation_elems o.

(** What a way adds to [lanelets_created]. *)
Definition lanelets_of (hw : highway_way) : nat := if hw_oneway hw then 1 else 2.

End OutputTerms.

Section FreshTerms.

Context {num : Type} `{FloatOps num}.
Implicit Types (hw : highway_way) (shared : shared_map).

(** The number of ends of a way that resolve to a junction triple. *)
Definition shared_ends shared hw : nat :=
  ((match hit_at shared (hw_refs hw) 0 with Some _ => 1 | None => 0 end) +
   (match hit_at shared (hw_refs hw) (length (hw_refs hw) - 1) with
    | Some _ => 1 | None => 0 end))%nat.

(** The boundary ways in [els], the elements appended for one way with [n]
    positions, carry at source position [pos] nodes of [els] itself, a
    different one on every side. *)
Definition fresh_at (els : list (element num)) (n pos : nat) : Prop :=
  match (fun w => w.1.2) <$> way_elems els with
  | [L; R] =>
    exists l r, L !! pos = Some l /\ R !! pos = Some r /\ l <> r /\
      l ∈ node_ids els /\ r ∈ node_ids els
  | [L; C; Cr; Rr] =>
    exists l c r, L !! pos = Some l /\ C !! pos = Some c /\
      Cr !! (n - 1 - pos)%nat = Some c /\ Rr !! (n - 1 - pos)%nat = Some r /\
      NoDup [l; c; r] /\
      l ∈ node_ids els /\ c ∈ node_ids els /\ r ∈ node_ids els
  | _ => False
  end.

End FreshTerms.


(** The tags of a relation that depend on the category and the name. *)
Definition road_tags (hw : highway_way) (t : tags) : Prop :=
  let v := is_vehicle (hw_highway hw) in
  tag_value t "type" = Some "lanelet" /\
  tag_value t "location" = Some "urban" /\
  tag_value t "subtype" = Some (if v then "road" else "walkway") /\
  tag_value t "participant:vehicle" = Some (if v then "yes" else "no") /\
  tag_value t "participant:pedestrian" = Some (if v then "no" else "yes") /\
  tag_value t "name" = (if bool_decide (hw_name hw = "") then None else Some (hw_name hw)) /\
  tag_value t "one_way" = (if hw_oneway hw then Some "yes" else None).

(** Two triples that have no id in common: the run of ids of one lies
    below the run of the other. *)
Definition apart (t t' : triple) : Prop :=
  t_left t' < t_right t \/ t_left t < t_right t'.

(** What account is given of a registry while phase 4 runs with the node
    counter at [n]: every entry is a run of three ids above the counter,
    and different entries have no id in common. *)
Definition registry_runs (shared : shared_map) (n : Z) : Prop :=
  map_Forall (fun _ t => t = triple_from (t_left t) /\ n < t_right t) shared /\
  forall r r' t t', r <> r' -> shared !! r = Some t -> shared !! r' = Some t' -> apart t t'.

(** ** Binary64: the operations as the script computes them *)



Section Binary64.

(** [math.cos] and [math.hypot] are functions of the C library, which
    IEEE 754 does not determine: they stay parameters. *)
Variable cos64 : PrimFloat.float -> PrimFloat.float.
Variable hypot64 : PrimFloat.float -> PrimFloat.float -> PrimFloat.float.


End Binary64.



(** * Proofs *)

Section Emission.

(** ** Facts about the builder *)

Section Builder.

Context {num : Type} `{FloatOps num}.

Implicit Types (b : builder num) (o : list (element num)).

Lemma bind_Some {A B} (m : Build num A) (k : A -> Build num B) b r :
  bind m k b = Some r <-> exists a b1, m b = Some (a, b1) /\ k a b1 = Some r.
Proof.
  unfold bind. destruct (m b) as [[a b1]|]; split.
  - intros Hk. exists a, b1. auto.
  - intros (a' & b' & [= <- <-] & Hk). exact Hk.
  - discriminate.
  - intros (a' & b' & Hm & _). discriminate.
Qed.

Lemma lift_Some {A} (x : option A) b r :
  lift x b = Some r <-> exists a, x = Some a /\ r = (a, b).
Proof.
  unfold lift. destruct x as [a|]; split.
  - intros [= <-]. eauto.
  - intros (a' & [= <-] & ->). reflexivity.
  - discriminate.
  - intros (a' & Hn & _). discriminate.
Qed.

Lemma node_ids_app o1 o2 : node_ids (o1 ++ o2) = node_ids o1 ++ node_ids o2.
Proof. apply omap_app. Qed.

Lemma way_elems_app o1 o2 : way_elems (o1 ++ o2) = way_elems o1 ++ way_elems o2.
Proof. apply omap_app. Qed.

Lemma relation_elems_app o1 o2 :
  relation_elems (o1 ++ o2) = relation_elems o1 ++ relation_elems o2.
Proof. apply omap_app. Qed.

Lemma neg_ids_S n : neg_ids (S n) = neg_ids n ++ [-1 - Z.of_nat n].
Proof. unfold neg_ids. rewrite seq_S, fmap_app. reflexivity. Qed.

Lemma neg_ids_length n : length (neg_ids n) = n.
Proof. unfold neg_ids. rewrite length_fmap. apply length_seq. Qed.

Lemma neg_ids_NoDup n : NoDup (neg_ids n).
Proof.
  unfold neg_ids. apply NoDup_fmap_2; [|apply NoDup_seq].
  intros i j Hij. lia.
Qed.

Lemma extends_refl b : extends b [] b.
Proof. unfold extends. by rewrite app_nil_r. Qed.

Lemma extends_trans b1 n1 b2 n2 b3 :
  extends b1 n1 b2 -> extends b2 n2 b3 -> extends b1 (n1 ++ n2) b3.
Proof. unfold extends. intros H1 ->. rewrite H1. by rewrite app_assoc. Qed.

Lemma add_node_spec ll b i b' :
  add_node ll b = Some (i, b') ->
  i = nid b /\ nid b' = nid b - 1 /\ wid b' = wid b /\ rid b' = rid b /\
  extends b [ENode (nid b) ll.1 ll.2] b'.
Proof. intros [= <- <-]. repeat split. Qed.

Lemma add_way_spec l t b i b' :
  add_way l t b = Some (i, b') ->
  i = wid b /\ nid b' = nid b /\ wid b' = wid b - 1 /\ rid b' = rid b /\
  extends b [EWay (wid b) l t] b'.
Proof. intros [= <- <-]. repeat split. Qed.

Lemma add_relation_spec ms t b i b' :
  add_relation ms t b = Some (i, b') ->
  i = rid b /\ nid b' = nid b /\ wid b' = wid b /\ rid b' = rid b - 1 /\
  extends b [ERelation (rid b) ms t] b'.
Proof. intros [= <- <-]. repeat split. Qed.

Lemma counted_init (bounds : option (osm_bounds num)) : counted (init_builder bounds).
Proof. unfold counted, init_builder. destruct bounds; simpl; auto. Qed.

(** Appending fresh nodes numbered from the counter keeps the agreement. *)
Lemma counted_extends_nodes b new b' :
  counted b -> extends b new b' ->
  node_ids new = (fun i : nat => nid b - Z.of_nat i) <$> seq 0 (length (node_ids new)) ->
  nid b' = nid b - Z.of_nat (length (node_ids new)) ->
  counted b'.
Proof.
  unfold counted, extends. intros [Hids Hn] Hout Hnew Hnid.
  rewrite Hout, node_ids_app, length_app.
  remember (length (node_ids (out b))) as m eqn:Em.
  remember (length (node_ids new)) as k eqn:Ek.
  split; [|lia].
  rewrite Hids, Hnew. unfold neg_ids.
  rewrite seq_app, fmap_app. f_equal.
  replace (seq (0 + m) k) with (Nat.add m <$> seq 0 k)
    by (rewrite fmap_add_seq; f_equal; lia).
  rewrite <- list_fmap_compose.
  apply list_fmap_ext. intros _ i _. simpl. lia.
Qed.

Lemma fresh_from_nil start : fresh_from start [].
Proof. reflexivity. Qed.

Lemma fresh_from_one start : fresh_from start [start].
Proof. unfold fresh_from. simpl. f_equal. lia. Qed.

Lemma fresh_from_app start l1 l2 :
  fresh_from start l1 -> fresh_from (start - Z.of_nat (length l1)) l2 ->
  fresh_from start (l1 ++ l2).
Proof.
  unfold fresh_from. intros H1 H2.
  rewrite length_app, seq_app, fmap_app.
  rewrite <- H1. f_equal. rewrite H2 at 1.
  replace (seq (0 + length l1) (length l2)) with (Nat.add (length l1) <$> seq 0 (length l2))
    by (rewrite fmap_add_seq; f_equal; lia).
  rewrite <- list_fmap_compose.
  apply list_fmap_ext. intros _ i _. simpl. lia.
Qed.

Lemma fresh_from_lookup start l j i :
  fresh_from start l -> l !! j = Some i -> i = start - Z.of_nat j.
Proof.
  unfold fresh_from. intros -> Hj.
  rewrite list_lookup_fmap in Hj.
  destruct (seq 0 _ !! j) as [k|] eqn:Hk; [|discriminate].
  apply lookup_seq in Hk as [-> _]. simpl in Hj. injection Hj as <-. lia.
Qed.

Lemma step_refl b : step b [] b.
Proof.
  split; simpl; try apply fresh_from_nil; try lia. by rewrite app_nil_r.
Qed.

Lemma step_trans b1 n1 b2 n2 b3 :
  step b1 n1 b2 -> step b2 n2 b3 -> step b1 (n1 ++ n2) b3.
Proof.
  intros [] []. split.
  - rewrite step_out1, step_out0. by rewrite app_assoc.
  - rewrite node_ids_app, length_app. lia.
  - rewrite way_elems_app, length_app. lia.
  - rewrite relation_elems_app, length_app. lia.
  - rewrite node_ids_app. apply fresh_from_app; [done|]. by rewrite <- step_nid0.
  - rewrite way_elems_app, fmap_app. apply fresh_from_app; [done|].
    rewrite length_fmap. by rewrite <- step_wid0.
  - rewrite relation_elems_app, fmap_app. apply fresh_from_app; [done|].
    rewrite length_fmap. by rewrite <- step_rid0.
Qed.

Lemma add_node_step ll b i b' :
  add_node ll b = Some (i, b') -> i = nid b /\ step b [ENode (nid b) ll.1 ll.2] b'.
Proof.
  intros [= <- <-]. split; [done|].
  split; simpl; try apply fresh_from_nil; try apply fresh_from_one; try lia; done.
Qed.

Lemma add_way_step l t b i b' :
  add_way l t b = Some (i, b') -> i = wid b /\ step b [EWay (wid b) l t] b'.
Proof.
  intros [= <- <-]. split; [done|].
  split; simpl; try apply fresh_from_nil; try apply fresh_from_one; try lia; done.
Qed.

Lemma add_relation_step ms t b i b' :
  add_relation ms t b = Some (i, b') -> i = rid b /\ step b [ERelation (rid b) ms t] b'.
Proof.
  intros [= <- <-]. split; [done|].
  split; simpl; try apply fresh_from_nil; try apply fresh_from_one; try lia; done.
Qed.

Lemma counted_step b new b' : counted b -> step b new b' -> counted b'.
Proof.
  intros Hc []. eapply counted_extends_nodes; eauto.
Qed.

Lemma only_nodes_ways (l : list (element num)) : only_nodes l -> way_elems l = [].
Proof.
  induction 1 as [|e l He _ IH]; [done|]. destruct e; try done.
Qed.

Lemma only_nodes_relations (l : list (element num)) : only_nodes l -> relation_elems l = [].
Proof.
  induction 1 as [|e l He _ IH]; [done|]. destruct e; try done.
Qed.

Lemma only_nodes_length (l : list (element num)) : only_nodes l -> length (node_ids l) = length l.
Proof.
  induction 1 as [|e l He _ IH]; [done|]. destruct e; try done. simpl. by rewrite IH.
Qed.

Lemma only_nodes_app (l1 l2 : list (element num)) : only_nodes l1 -> only_nodes l2 -> only_nodes (l1 ++ l2).
Proof. apply Forall_app_2. Qed.

End Builder.

(** ** The ids of the boundary sequences *)

Section Boundaries.

Context {num : Type} `{FloatOps num}.

Implicit Types (b : builder num) (g : way_geom num) (shared : shared_map).

Lemma plan_length shared refs s positions start :
  length (plan shared refs s positions start) = length positions.
Proof.
  revert start. induction positions as [|i rest IH]; intros start; [done|].
  simpl. destruct (hit_at shared refs i); simpl; by rewrite IH.
Qed.

Lemma plan_hit shared refs s positions start j i t :
  positions !! j = Some i -> hit_at shared refs i = Some t ->
  plan shared refs s positions start !! j = Some (triple_get t s).
Proof.
  revert start j. induction positions as [|i' rest IH]; intros start j Hj Hhit; [done|].
  destruct j as [|j]; simpl in *.
  - injection Hj as ->. by rewrite Hhit.
  - destruct (hit_at shared refs i'); simpl; eauto.
Qed.

(** A position that misses the registry gets an id at or below [start]. *)
Lemma plan_miss shared refs s positions start j i :
  positions !! j = Some i -> hit_at shared refs i = None ->
  exists k : nat, plan shared refs s positions start !! j = Some (start - Z.of_nat k) /\
    (k < misses shared refs positions)%nat.
Proof.
  revert start j. induction positions as [|i' rest IH]; intros start j Hj Hhit; [done|].
  destruct j as [|j]; simpl in *.
  - injection Hj as ->. rewrite Hhit. exists 0%nat. simpl. split; [f_equal; lia | lia].
  - destruct (hit_at shared refs i'); simpl.
    + eauto.
    + destruct (IH (start - 1) j Hj Hhit) as (k & Hk & Hlt).
      exists (S k). split; [rewrite Hk; f_equal; lia | lia].
Qed.

Lemma boundary_node_step origin shared g i s b id b' :
  boundary_node origin shared g i s b = Some (id, b') ->
  match hit_at shared (hw_refs (g_way g)) i with
  | Some t => id = triple_get t s /\ b' = b
  | None => id = nid b /\ exists lat lon, step b [ENode (nid b) lat lon] b'
  end.
Proof.
  unfold boundary_node, hit_at. intros Hb.
  apply bind_Some in Hb as (r & b1 & Hr & Hb).
  apply lift_Some in Hr as (r' & Hr & [= -> ->]). rewrite Hr. simpl.
  destruct (shared_hit shared _ i r') as [t|].
  - by injection Hb as <- <-.
  - apply bind_Some in Hb as (p & b1 & Hp & Hb).
    apply lift_Some in Hp as (p' & _ & [= -> ->]).
    apply bind_Some in Hb as (q & b1 & Hq & Hb).
    apply lift_Some in Hq as (q' & _ & [= -> ->]).
    destruct s; apply add_node_step in Hb as [-> Hs]; eauto.
Qed.

Lemma boundary_nodes_step origin shared g s positions b ids b' :
  boundary_nodes origin shared g positions s b = Some (ids, b') ->
  ids = plan shared (hw_refs (g_way g)) s positions (nid b) /\
  exists new, step b new b' /\ only_nodes new /\
    length new = misses shared (hw_refs (g_way g)) positions.
Proof.
  revert b ids b'. induction positions as [|i rest IH]; intros b ids b' Hb; simpl in Hb.
  - injection Hb as <- <-. split; [done|]. exists []. split; [apply step_refl|].
    split; [constructor | done].
  - apply bind_Some in Hb as (id & b1 & Hid & Hb).
    apply bind_Some in Hb as (ids' & b2 & Hrest & Hb).
    injection Hb as <- <-.
    apply boundary_node_step in Hid. apply IH in Hrest as (-> & new & Hstep & Hnodes & Hlen).
    simpl. destruct (hit_at shared (hw_refs (g_way g)) i) as [t|].
    + destruct Hid as [-> ->]. split; [done|]. eauto.
    + destruct Hid as (-> & lat & lon & Hs1). split.
      * f_equal. f_equal. destruct Hs1. simpl in *. lia.
      * exists (ENode (nid b) lat lon :: new). split; [|split].
        -- apply (step_trans _ _ _ _ _ Hs1 Hstep).
        -- constructor; done.
        -- simpl. by rewrite Hlen.
Qed.

End Boundaries.

(** ** What one way appends *)

Section Lanelets.

Context {num : Type} `{FloatOps num}.

Implicit Types (b : builder num) (g : way_geom num) (hw : highway_way) (shared : shared_map).

Lemma step_nodes_nid b new b' :
  step b new b' -> only_nodes new -> nid b' = nid b - Z.of_nat (length new) /\
  wid b' = wid b /\ rid b' = rid b.
Proof.
  intros [] Hn.
  rewrite only_nodes_length in step_nid0 by done.
  rewrite only_nodes_ways in step_wid0 by done.
  rewrite only_nodes_relations in step_rid0 by done.
  simpl in *. lia.
Qed.

Lemma build_way_step origin shared g b u b' :
  build_way origin shared g b = Some (u, b') ->
  exists nodes, only_nodes nodes /\
    length nodes = ((if hw_oneway (g_way g) then 2 else 3) * fresh_per_side shared (g_way g))%nat /\
    step b (nodes ++ lanelet_elems shared (g_way g) (nid b) (wid b) (rid b)) b'.
Proof.
  unfold build_way, lanelet_elems, boundary_ids, fresh_per_side.
  fold (positions_of (g_way g)).
  set (refs := hw_refs (g_way g)). set (m := misses shared refs (positions_of (g_way g))).
  destruct (hw_oneway (g_way g)); intros Hb.
  - apply bind_Some in Hb as (L & b1 & HL & Hb).
    apply bind_Some in Hb as (R & b2 & HR & Hb).
    apply bind_Some in Hb as (lw & b3 & Hlw & Hb).
    apply bind_Some in Hb as (rw & b4 & Hrw & Hb).
    apply bind_Some in Hb as (rl & b5 & Hrl & Hb).
    injection Hb as _ <-.
    apply boundary_nodes_step in HL as (-> & n1 & S1 & N1 & L1).
    apply boundary_nodes_step in HR as (-> & n2 & S2 & N2 & L2).
    destruct (step_nodes_nid _ _ _ S1 N1) as (E1 & E1w & E1r).
    destruct (step_nodes_nid _ _ _ S2 N2) as (E2 & E2w & E2r).
    apply add_way_step in Hlw as [-> S3].
    apply add_way_step in Hrw as [-> S4].
    apply add_relation_step in Hrl as [-> S5].
    assert (W4 : wid b3 = wid b - 1) by (destruct S3; simpl in *; lia).
    assert (R4 : rid b4 = rid b).
    { destruct S3, S4; simpl in *; lia. }
    exists (n1 ++ n2). split; [by apply only_nodes_app|].
    split; [rewrite length_app; fold refs in L1, L2; fold m in L1, L2; lia|].
    fold refs in L1, L2. fold m in L1, L2.
    rewrite E1, L1, E2w, E1w, W4, R4 in *.
    rewrite <- app_assoc.
    eapply step_trans; [exact S1|]. eapply step_trans; [exact S2|].
    eapply (step_trans _ [_]); [exact S3|]. eapply (step_trans _ [_]); [exact S4|].
    exact S5.
  - apply bind_Some in Hb as (L & b1 & HL & Hb).
    apply bind_Some in Hb as (C & b2 & HC & Hb).
    apply bind_Some in Hb as (R & b3 & HR & Hb).
    apply bind_Some in Hb as (lw & b4 & Hlw & Hb).
    apply bind_Some in Hb as (cw & b5 & Hcw & Hb).
    apply bind_Some in Hb as (r1 & b6 & Hr1 & Hb).
    apply bind_Some in Hb as (cr & b7 & Hcr & Hb).
    apply bind_Some in Hb as (rr & b8 & Hrr & Hb).
    apply bind_Some in Hb as (r2 & b9 & Hr2 & Hb).
    injection Hb as _ <-.
    apply boundary_nodes_step in HL as (-> & n1 & S1 & N1 & L1).
    apply boundary_nodes_step in HC as (-> & n2 & S2 & N2 & L2).
    apply boundary_nodes_step in HR as (-> & n3 & S3 & N3 & L3).
    destruct (step_nodes_nid _ _ _ S1 N1) as (E1 & E1w & E1r).
    destruct (step_nodes_nid _ _ _ S2 N2) as (E2 & E2w & E2r).
    destruct (step_nodes_nid _ _ _ S3 N3) as (E3 & E3w & E3r).
    apply add_way_step in Hlw as [-> S4].
    apply add_way_step in Hcw as [-> S5].
    apply add_relation_step in Hr1 as [-> S6].
    apply add_way_step in Hcr as [-> S7].
    apply add_way_step in Hrr as [-> S8].
    apply add_relation_step in Hr2 as [-> S9].
    fold refs in L1, L2, L3. fold m in L1, L2, L3.
    assert (W5 : wid b4 = wid b - 1) by (destruct S4; simpl in *; lia).
    assert (R6 : rid b5 = rid b) by (destruct S4, S5; simpl in *; lia).
    assert (W7 : wid b6 = wid b - 2) by (destruct S4, S5, S6; simpl in *; lia).
    assert (W8 : wid b7 = wid b - 3) by (destruct S4, S5, S6, S7; simpl in *; lia).
    assert (R9 : rid b8 = rid b - 1) by (destruct S4, S5, S6, S7, S8; simpl in *; lia).
    exists (n1 ++ n2 ++ n3). split; [by repeat apply only_nodes_app|].
    split; [rewrite !length_app; lia|].
    rewrite E1, L1, E2, L2, E3w, E2w, E1w, W5, R6, W7, W8, R9 in *.
    rewrite <- !app_assoc.
    eapply step_trans; [exact S1|]. eapply step_trans; [exact S2|].
    eapply step_trans; [exact S3|].
    eapply (step_trans _ [_]); [exact S4|]. eapply (step_trans _ [_]); [exact S5|].
    eapply (step_trans _ [_]); [exact S6|]. eapply (step_trans _ [_]); [exact S7|].
    eapply (step_trans _ [_]); [exact S8|]. exact S9.
Qed.

Lemma build_ways_step origin shared ways b u b' :
  build_ways origin shared ways b = Some (u, b') -> exists new, step b new b'.
Proof.
  revert b. induction ways as [|g rest IH]; intros b Hb; simpl in Hb.
  - injection Hb as _ <-. exists []. apply step_refl.
  - apply bind_Some in Hb as (u1 & b1 & H1 & Hb).
    apply build_way_step in H1 as (nodes & _ & _ & S1).
    apply IH in Hb as (new & S2). eexists. eapply step_trans; eauto.
Qed.

Lemma build_ways_app origin shared ws1 ws2 b :
  build_ways origin shared (ws1 ++ ws2) b =
  match build_ways origin shared ws1 b with
  | Some (_, b1) => build_ways origin shared ws2 b1
  | None => None
  end.
Proof.
  revert b. induction ws1 as [|g rest IH]; intros b; simpl; [done|].
  unfold bind. destruct (build_way origin shared g b) as [[u b1]|]; [|done].
  apply IH.
Qed.

End Lanelets.

End Emission.

Section Preparation.

#[local] Opaque HALF_WIDTHS DEFAULT_SPEED VEHICLE_ROADS.

(** ** Phases 1 and 2: the prepared ways and the endpoint contributions *)

Section Prepare.

Context {num : Type} `{FloatOps num}.

Implicit Types (g : way_geom num) (ep : endpoint_map num) (nodes : node_index num).

Lemma compute_perps_length xy ps : compute_perps xy = Some ps -> length ps = length xy.
Proof.
  unfold compute_perps. intros Hm. apply length_mapM in Hm.
  rewrite length_seq in Hm. done.
Qed.

Lemma perp_at_is_Some (xy : list (num * num)) i :
  (i < length xy)%nat -> (2 <= length xy)%nat -> is_Some (perp_at xy (length xy) i).
Proof.
  intros Hi Hn. unfold perp_at.
  destruct (lookup_lt_is_Some_2 xy i Hi) as [p Hp].
  destruct (0 <? i)%nat eqn:E0; destruct (i <? length xy - 1)%nat eqn:E1.
  - apply Nat.ltb_lt in E0, E1.
    destruct (lookup_lt_is_Some_2 xy (i - 1)) as [q Hq]; [lia|].
    destruct (lookup_lt_is_Some_2 xy (i + 1)) as [q' Hq']; [lia|].
    rewrite Hp, Hq, Hq'. simpl. eauto.
  - apply Nat.ltb_lt in E0.
    destruct (lookup_lt_is_Some_2 xy (i - 1)) as [q Hq]; [lia|].
    rewrite Hp, Hq. simpl. eauto.
  - apply Nat.ltb_lt in E1.
    destruct (lookup_lt_is_Some_2 xy (i + 1)) as [q' Hq']; [lia|].
    rewrite Hp, Hq'. simpl. eauto.
  - apply Nat.ltb_ge in E0, E1. lia.
Qed.

Lemma compute_perps_is_Some (xy : list (num * num)) :
  (2 <= length xy)%nat -> is_Some (compute_perps xy).
Proof.
  intros Hn. unfold compute_perps. apply mapM_is_Some, Forall_forall.
  intros i Hi. apply elem_of_seq in Hi. apply perp_at_is_Some; lia.
Qed.

Lemma collect_way_Some nodes w hw :
  collect_way nodes w = Some hw ->
  (2 <= length (hw_refs hw))%nat /\
  Forall (fun r => is_Some (nodes !! r)) (hw_refs hw) /\
  is_Some (HALF_WIDTHS !! hw_highway hw).
Proof.
  unfold collect_way. case_bool_decide as Hh; [|done].
  destruct (length _ <? 2)%nat eqn:El; [done|].
  intros [= <-]. simpl. apply Nat.ltb_ge in El. split; [done|]. split; [|done].
  apply Forall_forall. intros r Hr. by apply list_elem_of_filter in Hr as [? _].
Qed.

Lemma way_geometry_Some nodes hw g :
  way_geometry nodes hw = Some g ->
  g_way g = hw /\ length (g_xy g) = length (hw_refs hw) /\
  length (g_perps g) = length (hw_refs hw).
Proof.
  unfold way_geometry. intros Hg.
  destruct (mapM _ (hw_refs hw)) as [xy|] eqn:Hxy; [|done]. simpl in Hg.
  destruct (compute_perps xy) as [ps|] eqn:Hps; [|done]. simpl in Hg.
  destruct (HALF_WIDTHS !! hw_highway hw) as [w|]; [|done]. simpl in Hg.
  injection Hg as <-. simpl.
  apply length_mapM in Hxy. apply compute_perps_length in Hps.
  split; [done|]. split; congruence.
Qed.

Lemma way_geometry_is_Some nodes w hw :
  collect_way nodes w = Some hw -> is_Some (way_geometry nodes hw).
Proof.
  intros (Hn & Hin & [q Hq])%collect_way_Some. unfold way_geometry.
  assert (Hxy : is_Some (mapM (fun r => n ← nodes !! r; Some (n.1.2, n.2)) (hw_refs hw))).
  { apply mapM_is_Some. eapply Forall_impl; [exact Hin|].
    intros r [n Hr]. simpl. rewrite Hr. simpl. eauto. }
  destruct Hxy as [xy Hxy]. rewrite Hxy. simpl.
  destruct (compute_perps_is_Some xy) as [ps Hps].
  { apply length_mapM in Hxy. lia. }
  rewrite Hps, Hq. simpl. eauto.
Qed.

(** *** The endpoint map *)

Lemma ep_append_keys key i ep k :
  k ∈ (ep_append key i ep).*1 <-> k = key \/ k ∈ ep.*1.
Proof.
  induction ep as [|[k' l] rest IH]; simpl.
  - rewrite list_elem_of_singleton, elem_of_nil. tauto.
  - case_bool_decide as Hk; simpl.
    + subst. rewrite !elem_of_cons. tauto.
    + rewrite !elem_of_cons, IH. tauto.
Qed.

Lemma ep_append_NoDup key i ep : NoDup ep.*1 -> NoDup (ep_append key i ep).*1.
Proof.
  induction ep as [|[k' l] rest IH]; simpl; intros Hnd.
  - apply NoDup_singleton.
  - case_bool_decide as Hk; simpl; [done|].
    apply NoDup_cons in Hnd as [Hnot Hnd]. apply NoDup_cons. split; [|auto].
    rewrite ep_append_keys. intros [->|Hin]; done.
Qed.

Lemma ep_get_append key i ep k :
  ep_get k (ep_append key i ep) =
  if bool_decide (k = key) then ep_get k ep ++ [i] else ep_get k ep.
Proof.
  induction ep as [|[k' l] rest IH]; simpl.
  - repeat case_bool_decide; congruence.
  - destruct (decide (k' = key)) as [->|Hne].
    + rewrite bool_decide_eq_true_2 by done. simpl.
      repeat case_bool_decide; congruence.
    + rewrite (bool_decide_eq_false_2 (k' = key)) by done. simpl.
      rewrite IH. repeat case_bool_decide; congruence.
Qed.

Lemma ep_get_not_in ep k : k ∉ ep.*1 -> ep_get k ep = [].
Proof.
  induction ep as [|[k' l] rest IH]; simpl; [done|].
  rewrite not_elem_of_cons. intros [Hne Hnot].
  rewrite bool_decide_eq_false_2 by done. auto.
Qed.

Lemma add_endpoint_Some g pos ep ep' :
  add_endpoint g pos ep = Some ep' ->
  exists p r, g_perps g !! pos = Some p /\ hw_refs (g_way g) !! pos = Some r /\
    ep' = ep_append r (p.1, p.2, g_half_w g) ep.
Proof.
  unfold add_endpoint. intros He.
  destruct (g_perps g !! pos) as [p|]; [|done]. simpl in He.
  destruct (hw_refs (g_way g) !! pos) as [r|]; [|done]. simpl in He.
  injection He as <-. eauto.
Qed.

Lemma add_endpoints_get g ep ep' r :
  add_endpoints ep g = Some ep' ->
  length (ep_get r ep') = (length (ep_get r ep) + contributions r (g_way g))%nat.
Proof.
  unfold add_endpoints, contributions. intros He.
  destruct (add_endpoint g 0 ep) as [ep1|] eqn:H1; [|done]. simpl in He.
  apply add_endpoint_Some in H1 as (p1 & r1 & _ & Hr1 & ->).
  apply add_endpoint_Some in He as (p2 & r2 & _ & Hr2 & ->).
  rewrite Hr1, Hr2, !ep_get_append.
  repeat case_bool_decide; simplify_eq; rewrite ?length_app; simpl; lia.
Qed.

Lemma add_endpoints_keys g ep ep' nodes :
  wf_way nodes g -> add_endpoints ep g = Some ep' ->
  NoDup ep.*1 -> Forall (fun k => is_Some (nodes !! k)) ep.*1 ->
  NoDup ep'.*1 /\ Forall (fun k => is_Some (nodes !! k)) ep'.*1.
Proof.
  unfold add_endpoints. intros (_ & _ & _ & Hin) He Hnd Hall.
  destruct (add_endpoint g 0 ep) as [ep1|] eqn:H1; [|done]. simpl in He.
  apply add_endpoint_Some in H1 as (p1 & r1 & _ & Hr1 & ->).
  apply add_endpoint_Some in He as (p2 & r2 & _ & Hr2 & ->).
  split; [by do 2 apply ep_append_NoDup|].
  rewrite Forall_forall in Hin, Hall. apply Forall_forall. intros k Hk.
  apply ep_append_keys in Hk as [->|Hk].
  { eapply Hin, list_elem_of_lookup_2, Hr2. }
  apply ep_append_keys in Hk as [->|Hk]; [|auto].
  eapply Hin, list_elem_of_lookup_2, Hr1.
Qed.

Lemma add_endpoints_is_Some g ep nodes :
  wf_way nodes g -> is_Some (add_endpoints ep g).
Proof.
  intros (Hn & _ & Hp & _). unfold add_endpoints, add_endpoint.
  destruct (lookup_lt_is_Some_2 (g_perps g) 0) as [p0 Hp0]; [lia|].
  destruct (lookup_lt_is_Some_2 (hw_refs (g_way g)) 0) as [r0 Hr0]; [lia|].
  destruct (lookup_lt_is_Some_2 (g_perps g) (length (hw_refs (g_way g)) - 1))
    as [p1 Hp1]; [lia|].
  destruct (lookup_lt_is_Some_2 (hw_refs (g_way g)) (length (hw_refs (g_way g)) - 1))
    as [r1 Hr1]; [lia|].
  rewrite Hp0, Hr0. simpl. rewrite Hp1, Hr1. simpl. eauto.
Qed.

Lemma endpoint_info_from_get ways ep ep' r :
  endpoint_info_from ways ep = Some ep' ->
  length (ep_get r ep') =
  (length (ep_get r ep) + sum_list (contributions r <$> (g_way <$> ways)))%nat.
Proof.
  revert ep. induction ways as [|g rest IH]; intros ep He; simpl in *.
  - injection He as <-. lia.
  - destruct (add_endpoints ep g) as [ep1|] eqn:H1; [|done]. simpl in He.
    rewrite (IH _ He), (add_endpoints_get _ _ _ _ H1). unfold fmap. lia.
Qed.

Lemma endpoint_info_from_keys ways ep ep' nodes :
  Forall (wf_way nodes) ways -> endpoint_info_from ways ep = Some ep' ->
  NoDup ep.*1 -> Forall (fun k => is_Some (nodes !! k)) ep.*1 ->
  NoDup ep'.*1 /\ Forall (fun k => is_Some (nodes !! k)) ep'.*1.
Proof.
  intros Hwf. revert ep. induction Hwf as [|g rest Hg _ IH]; intros ep He Hnd Hall; simpl in *.
  - by injection He as <-.
  - destruct (add_endpoints ep g) as [ep1|] eqn:H1; [|done]. simpl in He.
    destruct (add_endpoints_keys _ _ _ _ Hg H1 Hnd Hall). eauto.
Qed.

Lemma endpoint_info_from_is_Some ways ep nodes :
  Forall (wf_way nodes) ways -> is_Some (endpoint_info_from ways ep).
Proof.
  intros Hwf. revert ep. induction Hwf as [|g rest Hg _ IH]; intros ep; simpl; [eauto|].
  destruct (add_endpoints_is_Some g ep nodes Hg) as [ep1 ->]. simpl. apply IH.
Qed.

Lemma sum_list_lookup_le (l : list nat) k x : l !! k = Some x -> (x <= sum_list l)%nat.
Proof.
  revert k. induction l as [|y l IH]; intros k Hk; [done|].
  destruct k as [|k]; simpl in *.
  - injection Hk as ->. lia.
  - specialize (IH k Hk). lia.
Qed.

Lemma sum_list_two (l : list nat) k1 k2 x1 x2 :
  k1 <> k2 -> l !! k1 = Some x1 -> l !! k2 = Some x2 -> (x1 + x2 <= sum_list l)%nat.
Proof.
  revert k1 k2. induction l as [|x l IH]; intros k1 k2 Hne H1 H2; [done|].
  destruct k1 as [|k1], k2 as [|k2]; simpl in *.
  - done.
  - injection H1 as ->. apply sum_list_lookup_le in H2. lia.
  - injection H2 as ->. apply sum_list_lookup_le in H1. lia.
  - assert (Hk : k1 <> k2) by congruence. specialize (IH k1 k2 Hk H1 H2). lia.
Qed.

End Prepare.

End Preparation.

Section Registry.

#[local] Opaque HALF_WIDTHS DEFAULT_SPEED VEHICLE_ROADS.

(** ** Phase 4: the junction registry *)

Section Junctions.

Context {num : Type} `{FloatOps num}.

Implicit Types (b : builder num) (g : way_geom num) (shared : shared_map)
  (nodes : node_index num) (items : endpoint_map num).

Local Open Scope num_scope.

Local Close Scope num_scope.

Lemma merge_junction_step origin nodes shared k infos b shared' b' :
  merge_junction origin nodes shared (k, infos) b = Some (shared', b') ->
  if (length infos <? 2)%nat then shared' = shared /\ b' = b
  else exists n, nodes !! k = Some n /\
         shared' = <[k := triple_from (nid b)]> shared /\
         step b (junction_nodes origin n infos (nid b)) b'.
Proof.
  unfold merge_junction. destruct (length infos <? 2)%nat.
  { by intros [= <- <-]. }
  intros Hm.
  apply bind_Some in Hm as (n & b0 & Hn & Hm).
  apply lift_Some in Hn as (n' & Hn & [= -> ->]).
  apply bind_Some in Hm as (l & b1 & Hl & Hm).
  apply bind_Some in Hm as (c & b2 & Hc & Hm).
  apply bind_Some in Hm as (r & b3 & Hr & Hm).
  injection Hm as <- <-.
  apply add_node_step in Hl as [-> S1].
  apply add_node_step in Hc as [-> S2].
  apply add_node_step in Hr as [-> S3].
  assert (E1 : nid b1 = nid b - 1) by (destruct S1; simpl in *; lia).
  assert (E2 : nid b2 = nid b - 2) by (destruct S2; simpl in *; lia).
  exists n'. split; [done|]. unfold triple_from, junction_nodes.
  rewrite E1, E2 in *. split; [done|].
  eapply (step_trans _ [_]); [exact S1|]. eapply (step_trans _ [_]); [exact S2|]. exact S3.
Qed.

Lemma junction_nodes_only origin n infos start :
  only_nodes (junction_nodes origin n infos start).
Proof. repeat constructor. Qed.

(** The registry after phase 4: a source node with fewer than two endpoint
    contributions has no entry of its own; one with two or more has the
    triple whose three nodes were appended for it. *)
Lemma merge_junctions_step origin nodes shared items b shared' b' :
  NoDup items.*1 ->
  merge_junctions origin nodes shared items b = Some (shared', b') ->
  exists new, step b new b' /\ only_nodes new /\
    forall r,
      if (length (ep_get r items) <? 2)%nat then shared' !! r = shared !! r
      else exists n pre post,
        nodes !! r = Some n /\
        new = pre ++ junction_nodes origin n (ep_get r items)
                       (nid b - Z.of_nat (length pre)) ++ post /\
        shared' !! r = Some (triple_from (nid b - Z.of_nat (length pre))).
Proof.
  revert shared b. induction items as [|[k infos] rest IH]; intros shared b Hnd Hm; simpl in Hm.
  - injection Hm as <- <-. exists []. split; [apply step_refl|]. split; [constructor|].
    intros r. simpl. done.
  - apply bind_Some in Hm as (sh1 & b1 & H1 & Hm).
    rewrite fmap_cons in Hnd. apply NoDup_cons in Hnd as [Hk Hnd]. simpl in Hk.
    destruct (IH _ _ Hnd Hm) as (new2 & S2 & N2 & Hsh).
    apply merge_junction_step in H1.
    destruct (length infos <? 2)%nat eqn:El.
    + destruct H1 as [-> ->]. exists new2. split; [done|]. split; [done|].
      intros r. specialize (Hsh r). simpl.
      case_bool_decide as Hr; [|done]. subst r.
      rewrite El. rewrite (ep_get_not_in rest k Hk) in Hsh. simpl in Hsh. done.
    + destruct H1 as (n & Hn & -> & S1).
      exists (junction_nodes origin n infos (nid b) ++ new2).
      split; [eapply step_trans; eauto|].
      split; [apply only_nodes_app; [apply junction_nodes_only|done]|].
      assert (E1 : nid b1 = nid b - 3).
      { destruct S1. simpl in *. lia. }
      intros r. specialize (Hsh r). simpl.
      case_bool_decide as Hr.
      * subst r. rewrite El. rewrite (ep_get_not_in rest k Hk) in Hsh. simpl in Hsh.
        exists n, [], new2. simpl. rewrite Z.sub_0_r. split; [done|]. split; [done|].
        rewrite Hsh. apply lookup_insert_eq.
      * destruct (length (ep_get r rest) <? 2)%nat.
        -- rewrite Hsh. apply lookup_insert_ne. done.
        -- destruct Hsh as (n' & pre & post & Hn' & -> & Hs).
           exists n', (junction_nodes origin n infos (nid b) ++ pre), post.
           split; [done|].
           rewrite length_app. simpl length.
           replace (nid b - Z.of_nat (3 + length pre)) with (nid b1 - Z.of_nat (length pre))
             by lia.
           split; [by rewrite <- app_assoc | done].
Qed.

Lemma merge_junctions_is_Some origin nodes shared items b :
  Forall (fun k => is_Some (nodes !! k)) items.*1 ->
  is_Some (merge_junctions origin nodes shared items b).
Proof.
  revert shared b. induction items as [|[k infos] rest IH]; intros shared b Hall; simpl.
  - eauto.
  - rewrite fmap_cons in Hall. apply Forall_cons in Hall as [[n Hn] Hall]. simpl in Hn.
    unfold bind at 1. unfold merge_junction.
    destruct (length infos <? 2)%nat; simpl; [by apply IH|].
    unfold bind, lift, add_node. rewrite Hn. simpl. by apply IH.
Qed.

(** *** Phase 5 never raises on prepared ways *)

Lemma boundary_nodes_is_Some origin shared g s positions b nodes :
  wf_way nodes g -> Forall (fun i => (i < length (hw_refs (g_way g)))%nat) positions ->
  is_Some (boundary_nodes origin shared g positions s b).
Proof.
  intros (_ & Hxy & Hps & _) Hpos. revert b.
  induction Hpos as [|i rest Hi _ IH]; intros b; simpl; [eauto|].
  assert (Hb : is_Some (boundary_node origin shared g i s b)).
  { unfold boundary_node, bind, lift.
    destruct (lookup_lt_is_Some_2 (hw_refs (g_way g)) i Hi) as [r ->].
    destruct (shared_hit _ _ _ _); [eauto|].
    destruct (lookup_lt_is_Some_2 (g_xy g) i) as [p ->]; [lia|].
    destruct (lookup_lt_is_Some_2 (g_perps g) i) as [q ->]; [lia|].
    destruct s; unfold add_node; eauto. }
  destruct Hb as [[id b1] Hb]. unfold bind at 1. rewrite Hb.
  destruct (IH b1) as [[ids b2] Hr]. unfold bind. rewrite Hr. eauto.
Qed.

Lemma boundary_ids_is_Some origin shared g s b nodes :
  wf_way nodes g -> is_Some (boundary_ids origin shared g s b).
Proof.
  intros Hwf. eapply boundary_nodes_is_Some; [done|].
  apply Forall_forall. intros i Hi. apply elem_of_seq in Hi. lia.
Qed.

Lemma build_way_is_Some origin shared g b nodes :
  wf_way nodes g -> is_Some (build_way origin shared g b).
Proof.
  intros Hwf. unfold build_way.
  destruct (hw_oneway (g_way g)).
  - destruct (boundary_ids_is_Some origin shared g Left b nodes Hwf) as [[l b1] H1].
    destruct (boundary_ids_is_Some origin shared g Right b1 nodes Hwf) as [[r b2] H2].
    unfold bind. rewrite H1, H2. unfold add_way, add_relation, ret. eauto.
  - destruct (boundary_ids_is_Some origin shared g Left b nodes Hwf) as [[l b1] H1].
    destruct (boundary_ids_is_Some origin shared g Centre b1 nodes Hwf) as [[c b2] H2].
    destruct (boundary_ids_is_Some origin shared g Right b2 nodes Hwf) as [[r b3] H3].
    unfold bind. rewrite H1, H2, H3. unfold add_way, add_relation, ret. eauto.
Qed.

Lemma build_ways_is_Some origin shared ways b nodes :
  Forall (wf_way nodes) ways -> is_Some (build_ways origin shared ways b).
Proof.
  intros Hwf. revert b. induction Hwf as [|g rest Hg _ IH]; intros b; simpl; [eauto|].
  destruct (build_way_is_Some origin shared g b nodes Hg) as [[u b1] H1].
  unfold bind. rewrite H1. apply IH.
Qed.

End Junctions.

End Registry.

Section Pipeline.

#[local] Opaque HALF_WIDTHS DEFAULT_SPEED VEHICLE_ROADS.

(** ** The whole run *)

Section Run.

Context {num : Type} `{FloatOps num}.

Implicit Types (d : osm_doc num) (p : prepared num) (b : builder num) (g : way_geom num)
  (shared : shared_map) (o : list (element num)).

Lemma collected_wf (nodes : node_index num) ways (gs : list (way_geom num)) :
  Forall2 (fun hw g => way_geometry nodes hw = Some g) (collect_ways nodes ways) gs ->
  Forall (wf_way nodes) gs.
Proof.
  unfold collect_ways. intros Hways.
  assert (Hc : Forall (fun hw => exists w, collect_way nodes w = Some hw)
                      (omap (collect_way nodes) ways)).
  { apply Forall_forall. intros hw Hin. apply list_elem_of_omap in Hin as (w & _ & Hw). eauto. }
  induction Hways as [|hw g hws gs' Hx _ IH]; [constructor|].
  apply Forall_cons in Hc as [[w Hw] Hc]. constructor; [|auto].
  apply collect_way_Some in Hw as (Hn & Hin & _).
  apply way_geometry_Some in Hx as (Hg & Hxy & Hps).
  unfold wf_way. rewrite Hg. done.
Qed.

Lemma prepare_Some d p :
  prepare d = Some p ->
  origin_of d = Some (p_origin p) /\
  p_nodes p = index_nodes (p_origin p) (doc_nodes d) /\
  g_way <$> p_ways p = collect_ways (p_nodes p) (doc_ways d) /\
  Forall (wf_way (p_nodes p)) (p_ways p) /\
  NoDup (p_endpoints p).*1 /\
  Forall (fun k => is_Some (p_nodes p !! k)) (p_endpoints p).*1 /\
  forall r, length (ep_get r (p_endpoints p)) =
            sum_list (contributions r <$> (g_way <$> p_ways p)).
Proof.
  unfold prepare. intros Hp.
  destruct (origin_of d) as [origin|]; [|done]. simpl in Hp.
  set (nodes := index_nodes origin (doc_nodes d)) in *.
  destruct (mapM _ _) as [ways|] eqn:Hways; [|done]. simpl in Hp.
  destruct (endpoint_info_from ways []) as [ep|] eqn:Hep; [|done]. simpl in Hp.
  injection Hp as <-. simpl.
  apply mapM_Some in Hways.
  assert (Hg : g_way <$> ways = collect_ways nodes (doc_ways d)).
  { clear Hep. induction Hways as [|hw g hws gs Hx _ IH]; [done|].
    rewrite fmap_cons, IH. f_equal. by apply way_geometry_Some in Hx as [? _]. }
  assert (Hwf : Forall (wf_way nodes) ways) by (eapply collected_wf; eauto).
  destruct (endpoint_info_from_keys ways [] ep nodes Hwf Hep) as [Hnd Hall];
    [constructor | constructor |].
  repeat split; try done.
  intros r. rewrite (endpoint_info_from_get _ _ _ r Hep). done.
Qed.

Lemma prepare_is_Some d : is_Some (origin_of d) -> is_Some (prepare d).
Proof.
  intros [origin Ho]. unfold prepare. rewrite Ho. simpl.
  set (nodes := index_nodes origin (doc_nodes d)).
  assert (Hways : is_Some (mapM (way_geometry nodes) (collect_ways nodes (doc_ways d)))).
  { apply mapM_is_Some, Forall_forall. intros hw Hin.
    apply list_elem_of_omap in Hin as (w & _ & Hw). simpl.
    eapply way_geometry_is_Some; eauto. }
  destruct Hways as [ways Hways]. rewrite Hways. simpl.
  assert (Hwf : Forall (wf_way nodes) ways).
  { apply mapM_Some in Hways. eapply collected_wf; eauto. }
  destruct (endpoint_info_from_is_Some ways [] nodes Hwf) as [ep ->]. simpl. eauto.
Qed.

Lemma convert_Some d o :
  convert d = Some o <->
  exists p shared b0 b,
    prepare d = Some p /\
    junctions p (init_builder (doc_bounds d)) = Some (shared, b0) /\
    lanelets p shared b0 = Some (tt, b) /\ o = out b.
Proof.
  unfold convert. split.
  - intros Hc. destruct (prepare d) as [p|]; [|done]. simpl in Hc.
    unfold bind in Hc.
    destruct (junctions p _) as [[shared b0]|] eqn:Hj; [|done].
    destruct (lanelets p shared b0) as [[[] b]|] eqn:Hl; [|done].
    simpl in Hc. injection Hc as <-. exists p, shared, b0, b. done.
  - intros (p & shared & b0 & b & -> & Hj & Hl & ->). simpl.
    unfold bind. rewrite Hj, Hl. done.
Qed.

(** The conversion returns a document whenever an origin can be chosen:
    the bounds are present or there is at least one node. *)
Lemma convert_is_Some d : is_Some (origin_of d) -> is_Some (convert d).
Proof.
  intros Ho. destruct (prepare_is_Some d Ho) as [p Hp].
  destruct (prepare_Some d p Hp) as (_ & _ & _ & Hwf & _ & Hall & _).
  destruct (merge_junctions_is_Some (p_origin p) (p_nodes p) ∅ (p_endpoints p)
              (init_builder (doc_bounds d)) Hall) as [[shared b0] Hj].
  destruct (build_ways_is_Some (p_origin p) shared (p_ways p) b0 (p_nodes p) Hwf)
    as [[[] b] Hl].
  exists (out b). apply convert_Some. exists p, shared, b0, b. done.
Qed.

Lemma junctions_registry p b0 shared b :
  NoDup (p_endpoints p).*1 -> nid b0 = -1 ->
  junctions p b0 = Some (shared, b) ->
  exists jn, step b0 jn b /\ only_nodes jn /\
    registry_of (p_origin p) (p_nodes p) (p_endpoints p) shared jn.
Proof.
  intros Hnd Hn Hj. unfold junctions in Hj.
  apply merge_junctions_step in Hj as (jn & S & N & Hr); [|done].
  exists jn. split; [done|]. split; [done|].
  intros r. specialize (Hr r). destruct (length _ <? 2)%nat.
  - rewrite Hr. exact (lookup_empty r).
  - rewrite Hn in Hr. done.
Qed.

(** The run cut after [k] ways. *)
Lemma run_to_Some d p shared b0 b k :
  prepare d = Some p ->
  junctions p (init_builder (doc_bounds d)) = Some (shared, b0) ->
  lanelets p shared b0 = Some (tt, b) ->
  exists bk new1 new2,
    run_to d k = Some (p, shared, bk) /\
    build_ways (p_origin p) shared (drop k (p_ways p)) bk = Some (tt, b) /\
    step b0 new1 bk /\ step bk new2 b.
Proof.
  intros Hp Hj Hl. unfold lanelets in Hl.
  rewrite <- (take_drop k (p_ways p)), build_ways_app in Hl.
  destruct (build_ways _ _ (take k _) b0) as [[[] bk]|] eqn:Hk; [|done].
  destruct (build_ways_step _ _ _ _ _ _ Hk) as [new1 S1].
  destruct (build_ways_step _ _ _ _ _ _ Hl) as [new2 S2].
  exists bk, new1, new2. unfold run_to. rewrite Hp. simpl. rewrite Hj. simpl.
  rewrite Hk. simpl. done.
Qed.

(** Everything the theorems below need about a successful run: the
    registry, the nodes of phase 4, and, for every converted way, what its
    iteration appends and where that sits in the output. *)
Lemma run_facts d o :
  convert d = Some o ->
  exists p shared jn,
    prepare d = Some p /\ shared_of d = Some shared /\
    only_nodes jn /\
    registry_of (p_origin p) (p_nodes p) (p_endpoints p) shared jn /\
    (exists rest, o = out (init_builder (doc_bounds d)) ++ jn ++ rest) /\
    node_ids o = neg_ids (length (node_ids o)) /\
    forall k g, p_ways p !! k = Some g ->
      exists bk nodes pre post,
        run_to d k = Some (p, shared, bk) /\
        only_nodes nodes /\
        length nodes =
          ((if hw_oneway (g_way g) then 2 else 3) * fresh_per_side shared (g_way g))%nat /\
        nid bk <= -1 - Z.of_nat (length jn) /\
        emitted d k = Some (nodes ++ lanelet_elems shared (g_way g) (nid bk) (wid bk) (rid bk)) /\
        o = pre ++ (nodes ++ lanelet_elems shared (g_way g) (nid bk) (wid bk) (rid bk)) ++ post.
Proof.
  intros Hc. apply convert_Some in Hc as (p & shared & b0 & b & Hp & Hj & Hl & ->).
  destruct (prepare_Some d p Hp) as (_ & _ & _ & Hwf & Hnd & _ & _).
  destruct (junctions_registry p (init_builder (doc_bounds d)) shared b0 Hnd eq_refl Hj)
    as (jn & Sj & Nj & Hreg).
  destruct (run_to_Some d p shared b0 b 0 Hp Hj Hl) as (b0' & n1 & n2 & Hr0 & _ & _ & _).
  destruct (run_to_Some d p shared b0 b (length (p_ways p)) Hp Hj Hl)
    as (bn & n1' & n2' & Hrn & Hdrop & S1 & _).
  rewrite drop_all in Hdrop. simpl in Hdrop. injection Hdrop as ->.
  exists p, shared, jn. split; [done|].
  split. { unfold shared_of. rewrite Hr0. done. }
  split; [done|]. split; [done|].
  split.
  { exists n1'. rewrite (step_out _ _ _ S1), (step_out _ _ _ Sj). by rewrite <- app_assoc. }
  split.
  { assert (Hcnt : counted b).
    { eapply counted_step; [|exact S1]. eapply counted_step; [|exact Sj]. apply counted_init. }
    apply Hcnt. }
  intros k g Hk.
  destruct (run_to_Some d p shared b0 b k Hp Hj Hl) as (bk & new1 & new2 & Hrk & Hdrop & Sk & _).
  rewrite (drop_S _ _ _ Hk) in Hdrop. simpl in Hdrop.
  apply bind_Some in Hdrop as ([] & bk1 & Hbw & Hrest).
  destruct (build_way_step _ _ _ _ _ _ Hbw) as (nodes & Nn & Ln & Sw).
  destruct (build_ways_step _ _ _ _ _ _ Hrest) as [post Sp].
  exists bk, nodes, (out bk), post.
  split; [done|]. split; [done|]. split; [done|].
  split.
  { pose proof (step_nid _ _ _ Sj) as E1. pose proof (step_nid _ _ _ Sk) as E2.
    rewrite (only_nodes_length jn) in E1 by done. simpl in E1. lia. }
  split.
  { unfold emitted. rewrite Hrk. simpl. rewrite Hk. simpl. rewrite Hbw. simpl.
    rewrite (step_out _ _ _ Sw). by rewrite drop_app_length. }
  rewrite (step_out _ _ _ Sp), (step_out _ _ _ Sw). by rewrite <- app_assoc.
Qed.

Lemma filter_eq_absent (l : list Z) i : i ∉ l -> filter (fun j => j = i) l = [].
Proof.
  induction l as [|x l IH]; [done|].
  rewrite not_elem_of_cons. intros [Hne Hnot].
  rewrite filter_cons_False by congruence. auto.
Qed.

Lemma NoDup_filter_one (l : list Z) i :
  NoDup l -> i ∈ l -> length (filter (fun j => j = i) l) = 1%nat.
Proof.
  induction 1 as [|x l Hx Hnd IH]; [by intros ?%elem_of_nil|].
  rewrite elem_of_cons. intros [->|Hin].
  - rewrite filter_cons_True by done. simpl. by rewrite filter_eq_absent.
  - rewrite filter_cons_False; [auto|]. intros ->. done.
Qed.

(** A node id of the output belongs to exactly one node element. *)
Lemma materialized_once d o i :
  convert d = Some o -> i ∈ node_ids o -> materialized o i = 1%nat.
Proof.
  intros (p & shared & jn & _ & _ & _ & _ & _ & Hids & _)%run_facts Hin.
  unfold materialized. apply NoDup_filter_one; [|done].
  rewrite Hids. apply neg_ids_NoDup.
Qed.

End Run.

End Pipeline.

Section Topology.

#[local] Opaque HALF_WIDTHS DEFAULT_SPEED VEHICLE_ROADS.
#[local] Arguments rel_tags : simpl never.
#[local] Arguments solid_tags : simpl never.

Section Sharing.

Context {num : Type} `{FloatOps num}.

Implicit Types (d : osm_doc num) (hw : highway_way) (o : list (element num)).

Lemma reverse_lookup_mirror (l : list Z) pos :
  (pos < length l)%nat -> reverse l !! (length l - 1 - pos)%nat = l !! pos.
Proof.
  intros Hp. rewrite reverse_lookup by lia. f_equal. lia.
Qed.

Lemma way_at_Some d p k hw :
  prepare d = Some p -> way_at d k = Some hw ->
  exists g, p_ways p !! k = Some g /\ g_way g = hw.
Proof.
  unfold way_at, highway_ways. intros -> Hk. simpl in Hk.
  rewrite list_lookup_fmap in Hk.
  destruct (p_ways p !! k) as [g|]; [|done]. injection Hk as <-. eauto.
Qed.

Lemma plan_endpoint shared hw s pos r t start :
  is_endpoint hw pos -> hw_refs hw !! pos = Some r -> shared !! r = Some t ->
  plan shared (hw_refs hw) s (positions_of hw) start !! pos = Some (triple_get t s).
Proof.
  intros Hend Hr Ht. apply plan_hit with (i := pos).
  - unfold positions_of. apply lookup_seq_lt. by apply lookup_lt_Some in Hr.
  - unfold hit_at. rewrite Hr. simpl. unfold shared_hit.
    rewrite bool_decide_eq_true_2 by exact Hend. done.
Qed.

Lemma way_elems_lanelet (nodes : list (element num)) rest :
  only_nodes nodes -> way_elems (nodes ++ rest) = way_elems rest.
Proof. intros Hn. rewrite way_elems_app. by rewrite only_nodes_ways. Qed.

Lemma relation_elems_lanelet (nodes : list (element num)) rest :
  only_nodes nodes -> relation_elems (nodes ++ rest) = relation_elems rest.
Proof. intros Hn. rewrite relation_elems_app. by rewrite only_nodes_relations. Qed.

(** The core of junction sharing: an endpoint whose source node has two or
    more contributions resolves, on every side, to the registry entry of
    that node, and the three ids of the entry are nodes of the output. *)
Lemma junction_use d o k hw pos r deg :
  convert d = Some o ->
  way_at d k = Some hw -> is_endpoint hw pos -> hw_refs hw !! pos = Some r ->
  junction_degree d r = Some deg -> (2 <= deg)%nat ->
  exists shared t els,
    shared_of d = Some shared /\ shared !! r = Some t /\
    emitted d k = Some els /\ uses_at els (length (hw_refs hw)) pos t /\
    t_left t ∈ node_ids o /\ t_centre t ∈ node_ids o /\ t_right t ∈ node_ids o.
Proof.
  intros Hc Hk Hend Hr Hdeg Hge.
  destruct (run_facts d o Hc) as (p & shared & jn & Hp & Hsh & Njn & Hreg & [rest Ho] & _ & Hways).
  destruct (prepare_Some d p Hp) as (_ & _ & _ & _ & _ & _ & Hcount).
  destruct (way_at_Some d p k hw Hp Hk) as (g & Hg & Egw).
  destruct (Hways k g Hg) as (bk & nodes & pre & post & _ & Nn & _ & _ & Hem & _).
  rewrite Egw in Hem.
  unfold junction_degree, highway_ways in Hdeg. rewrite Hp in Hdeg. simpl in Hdeg.
  injection Hdeg as <-.
  specialize (Hreg r). rewrite Hcount in Hreg.
  destruct (Nat.ltb_spec (sum_list (contributions r <$> (g_way <$> p_ways p))) 2) as [?|_];
    [lia|].
  destruct Hreg as (n & jpre & jpost & _ & Hjn & Ht).
  eexists shared, (triple_from (-1 - Z.of_nat (length jpre))), _.
  split; [done|]. split; [done|]. split; [exact Hem|].
  split.
  - unfold uses_at. rewrite way_elems_lanelet by done. unfold lanelet_elems.
    assert (Hlt : (pos < length (hw_refs hw))%nat) by (by apply lookup_lt_Some in Hr).
    pose proof (fun s start => plan_endpoint shared hw s pos r _ start Hend Hr Ht) as Hplan.
    destruct (hw_oneway hw); simpl.
    + split; [exact (Hplan Left _) | exact (Hplan Right _)].
    + split; [exact (Hplan Left _)|].
      split; [exact (Hplan Centre _)|].
      pose proof (plan_length shared (hw_refs hw) Centre (positions_of hw)
                    (nid bk - Z.of_nat (fresh_per_side shared hw))) as LC.
      pose proof (plan_length shared (hw_refs hw) Right (positions_of hw)
                    (nid bk - Z.of_nat (fresh_per_side shared hw)
                            - Z.of_nat (fresh_per_side shared hw))) as LR.
      unfold positions_of in LC at 2. unfold positions_of in LR at 2.
      rewrite length_seq in LC, LR.
      split.
      * rewrite <- LC at 1. rewrite reverse_lookup_mirror by lia. exact (Hplan Centre _).
      * rewrite <- LR at 1. rewrite reverse_lookup_mirror by lia. exact (Hplan Right _).
  - rewrite Ho, Hjn. rewrite !node_ids_app. unfold junction_nodes, triple_from. simpl.
    rewrite !elem_of_app, !elem_of_cons. tauto.
Qed.

Lemma highway_ways_of_way_at d k hw :
  way_at d k = Some hw -> exists hws, highway_ways d = Some hws /\ hws !! k = Some hw.
Proof.
  unfold way_at. destruct (highway_ways d) as [hws|]; [|done]. simpl. eauto.
Qed.

Lemma contributions_endpoint hw pos r :
  is_endpoint hw pos -> hw_refs hw !! pos = Some r -> (1 <= contributions r hw)%nat.
Proof.
  unfold contributions. intros [->| ->] Hr; rewrite Hr.
  - rewrite bool_decide_eq_true_2 by done. lia.
  - rewrite (bool_decide_eq_true_2 (Some r = Some r)) by done. lia.
Qed.

(** Two different ways with an endpoint at [r] give [r] at least two
    contributions. *)
Lemma degree_two_ways d k1 k2 hw1 hw2 p1 p2 r :
  k1 <> k2 -> way_at d k1 = Some hw1 -> way_at d k2 = Some hw2 ->
  is_endpoint hw1 p1 -> is_endpoint hw2 p2 ->
  hw_refs hw1 !! p1 = Some r -> hw_refs hw2 !! p2 = Some r ->
  exists deg, junction_degree d r = Some deg /\ (2 <= deg)%nat.
Proof.
  intros Hne (hws & Hh & H1)%highway_ways_of_way_at H2 E1 E2 R1 R2.
  unfold way_at in H2. rewrite Hh in H2. simpl in H2.
  unfold junction_degree. rewrite Hh. simpl. eexists. split; [done|].
  pose proof (contributions_endpoint hw1 p1 r E1 R1).
  pose proof (contributions_endpoint hw2 p2 r E2 R2).
  pose proof (sum_list_two (contributions r <$> hws) k1 k2
                (contributions r hw1) (contributions r hw2) Hne) as Hs.
  rewrite !list_lookup_fmap, H1, H2 in Hs. specialize (Hs eq_refl eq_refl). lia.
Qed.

(** A way whose two ends are the same source node gives it two
    contributions by itself. *)
Lemma degree_closed_way d k hw r :
  way_at d k = Some hw ->
  hw_refs hw !! 0%nat = Some r -> hw_refs hw !! (length (hw_refs hw) - 1)%nat = Some r ->
  exists deg, junction_degree d r = Some deg /\ (2 <= deg)%nat.
Proof.
  intros (hws & Hh & Hk)%highway_ways_of_way_at R0 R1.
  unfold junction_degree. rewrite Hh. simpl. eexists. split; [done|].
  assert (Hc : contributions r hw = 2%nat).
  { unfold contributions. rewrite R0, R1. by rewrite !bool_decide_eq_true_2. }
  pose proof (sum_list_lookup_le (contributions r <$> hws) k (contributions r hw)) as Hs.
  rewrite list_lookup_fmap, Hk in Hs. specialize (Hs eq_refl). lia.
Qed.

Lemma way_at_origin d k hw : way_at d k = Some hw -> is_Some (origin_of d).
Proof.
  unfold way_at, highway_ways. destruct (prepare d) as [p|] eqn:Hp; [|done].
  intros _. apply prepare_Some in Hp as [Ho _]. eauto.
Qed.

(** C10 (closed way).  A converted way whose first and last references are
    the same source node [r]: the registry holds a triple for [r] and both
    ends of the boundary sequences of the way carry its ids, whatever the
    other ways are. *)
Theorem closed_way_shares_its_ends d k hw r :
  way_at d k = Some hw ->
  hw_refs hw !! 0%nat = Some r ->
  hw_refs hw !! (length (hw_refs hw) - 1)%nat = Some r ->
  exists o shared t els,
    convert d = Some o /\ shared_of d = Some shared /\ shared !! r = Some t /\
    emitted d k = Some els /\
    uses_at els (length (hw_refs hw)) 0 t /\
    uses_at els (length (hw_refs hw)) (length (hw_refs hw) - 1) t /\
    materialized o (t_left t) = 1%nat /\
    materialized o (t_centre t) = 1%nat /\
    materialized o (t_right t) = 1%nat.
Proof.
  intros Hk R0 R1.
  destruct (convert_is_Some d (way_at_origin d k hw Hk)) as [o Ho].
  destruct (degree_closed_way d k hw r Hk R0 R1) as (deg & Hd & Hge).
  destruct (junction_use d o k hw 0 r deg Ho Hk (or_introl eq_refl) R0 Hd Hge)
    as (shared & t & els & Hsh & Ht & Hem & U0 & Il & Ic & Ir).
  destruct (junction_use d o k hw _ r deg Ho Hk (or_intror eq_refl) R1 Hd Hge)
    as (shared' & t' & els' & Hsh' & Ht' & Hem' & U1 & _).
  assert (shared' = shared) as -> by congruence.
  assert (t' = t) as -> by congruence.
  assert (els' = els) as -> by congruence.
  exists o, shared, t, els.
  repeat split; try done; by apply (materialized_once d).
Qed.

(** C2 (lanelet cardinality).  What the iteration of a converted way
    appends: for a oneway way two ways and one relation, whose members are
    these two ways with roles left and right and which is tagged
    one_way=yes; otherwise four ways and two relations, the forward one
    made of the left and the centre way, the reverse one of two further
    ways, and the way that is the left member of the reverse relation has
    the node sequence of the centre way (the right member of the forward
    relation) reversed. *)
Theorem lanelet_cardinality d k hw :
  way_at d k = Some hw ->
  exists o els pre post,
    convert d = Some o /\ emitted d k = Some els /\ o = pre ++ els ++ post /\
    if hw_oneway hw then
      exists rl lw rw L R tl tr t,
        way_elems els = [(lw, L, tl); (rw, R, tr)] /\ lw <> rw /\
        relation_elems els = [(rl, [("way", lw, "left"); ("way", rw, "right")], t)] /\
        ("one_way", "yes") ∈ t
    else
      exists r1 r2 lw cw cr rr L C R tl tc tcr trr t1 t2,
        way_elems els = [(lw, L, tl); (cw, C, tc); (cr, reverse C, tcr); (rr, reverse R, trr)] /\
        NoDup [lw; cw; cr; rr] /\ r1 <> r2 /\
        relation_elems els =
          [(r1, [("way", lw, "left"); ("way", cw, "right")], t1);
           (r2, [("way", cr, "left"); ("way", rr, "right")], t2)].
Proof.
  intros Hk.
  destruct (convert_is_Some d (way_at_origin d k hw Hk)) as [o Ho].
  destruct (run_facts d o Ho) as (p & shared & jn & Hp & _ & _ & _ & _ & _ & Hways).
  destruct (way_at_Some d p k hw Hp Hk) as (g & Hg & Egw).
  destruct (Hways k g Hg) as (bk & nodes & pre & post & _ & Nn & _ & _ & Hem & Hout).
  rewrite Egw in Hem, Hout.
  eexists o, _, pre, post. split; [done|]. split; [exact Hem|]. split; [exact Hout|].
  rewrite way_elems_lanelet, relation_elems_lanelet by done.
  unfold lanelet_elems. destruct (hw_oneway hw); simpl.
  - do 8 eexists. split; [reflexivity|]. split; [lia|]. split; [reflexivity|].
    rewrite !elem_of_cons, elem_of_app, list_elem_of_singleton. do 7 right. reflexivity.
  - do 15 eexists. split; [reflexivity|].
    split; [|split; [|reflexivity]]; [|lia].
    repeat (apply NoDup_cons; split; [rewrite ?elem_of_cons, ?elem_of_nil; lia|]).
    apply NoDup_nil_2.
Qed.

End Sharing.

End Topology.

Section Dropped.

#[local] Opaque HALF_WIDTHS DEFAULT_SPEED VEHICLE_ROADS.

Section Filtering.

Context {num : Type} `{FloatOps num}.

Implicit Types (d : osm_doc num) (w : osm_way).

Lemma index_nodes_from (origin : num * num) (nodes : list (osm_node num))
    (m : node_index num) r :
  is_Some (foldl (fun m nd =>
             let xy := latlon_to_xy (node_lat nd) (node_lon nd) origin.1 origin.2 in
             <[node_id nd := (node_lat nd, node_lon nd, xy.1, xy.2)]> m) m nodes !! r) <->
  is_Some (m !! r) \/ r ∈ node_id <$> nodes.
Proof.

  revert m. induction nodes as [|nd rest IH]; intros m; cbn [foldl].
  - rewrite fmap_nil, elem_of_nil. tauto.
  - rewrite IH, fmap_cons, elem_of_cons. cbv beta zeta.
    destruct (decide (node_id nd = r)) as [->|Hne].
    + rewrite lookup_insert_eq. split; [auto|]. intros _. left. eauto.
    + rewrite lookup_insert_ne by done. split; [tauto|].
      intros [?|[->|?]]; tauto.
Qed.

(** The index has exactly the ids of the node elements as keys. *)
Lemma index_nodes_dom (origin : num * num) (nodes : list (osm_node num)) r :
  is_Some (index_nodes origin nodes !! r) <-> r ∈ node_id <$> nodes.
Proof.
  unfold index_nodes. rewrite index_nodes_from.
  split; [|auto]. intros [[? Hm]|?]; [|done].
  by rewrite lookup_empty in Hm.
Qed.

Lemma collect_way_dropped d origin w :
  dropped d w -> collect_way (index_nodes origin (doc_nodes d)) w = None.
Proof.
  unfold dropped, collect_way, category, resolvable. intros [Hc|Hl].
  - rewrite bool_decide_eq_false_2; [done|]. rewrite Hc. by intros [? ?].
  - case_bool_decide; [|done].
    erewrite list_filter_iff; [|intros r; apply index_nodes_dom].
    apply Nat.ltb_lt in Hl. by rewrite Hl.
Qed.

Lemma collect_ways_dropped d origin ws1 w ws2 :
  dropped d w ->
  collect_ways (index_nodes origin (doc_nodes d)) (ws1 ++ w :: ws2) =
  collect_ways (index_nodes origin (doc_nodes d)) (ws1 ++ ws2).
Proof.
  intros Hd. unfold collect_ways. rewrite !omap_app. f_equal.
  simpl. by rewrite (collect_way_dropped d origin w Hd).
Qed.

(** C7 (category filtering).  A way whose category is not in the
    half-width table, or that has fewer than two resolvable references,
    leaves no trace: the prepared ways, the endpoint contributions and the
    output are the ones of the document without that way.  A document with
    an origin all of whose ways are of this kind converts to the echoed
    bounds alone. *)
Theorem dropped_way_contributes_nothing d ws1 w ws2 :
  doc_ways d = ws1 ++ w :: ws2 -> dropped d w ->
  prepare d = prepare (with_ways d (ws1 ++ ws2)) /\
  convert d = convert (with_ways d (ws1 ++ ws2)) /\
  (Forall (dropped d) (doc_ways d) -> is_Some (origin_of d) ->
   convert d = Some (match doc_bounds d with Some b => [EBounds b] | None => [] end)).
Proof.
  intros Hw Hd.
  assert (Hp : prepare d = prepare (with_ways d (ws1 ++ ws2))).
  { unfold prepare, with_ways, origin_of. simpl.
    destruct (match doc_bounds d with Some _ => _ | None => _ end) as [origin|]; [|done].
    simpl. rewrite Hw. by rewrite (collect_ways_dropped d origin ws1 w ws2 Hd). }
  split; [exact Hp|]. split.
  { unfold convert. rewrite Hp. done. }
  intros Hall [origin Ho].
  assert (Hnil : collect_ways (index_nodes origin (doc_nodes d)) (doc_ways d) = []).
  { unfold collect_ways. clear Hw. generalize dependent (doc_ways d). intros ws Hall.
    induction Hall as [|w' ws' Hw' _ IH]; [done|].
    simpl. by rewrite (collect_way_dropped d origin w' Hw'). }
  unfold convert, prepare. rewrite Ho. simpl. rewrite Hnil. simpl. done.
Qed.

End Filtering.

(** The witness of C7: the only way of the document has the category
    [construction]. *)
Lemma dropped_way_contributes_nothing_witness :
  let d := @scenario_unrecognized R RealOps in
  doc_ways d = [] ++ {| way_id := "30"; way_nds := ["A"; "B"];
                        way_tags := [("highway", "construction")] |} :: [] /\
  dropped d {| way_id := "30"; way_nds := ["A"; "B"];
               way_tags := [("highway", "construction")] |} /\
  convert d = Some [EBounds scenario_bounds].
Proof.
  intros d. split; [reflexivity|].
  assert (Hd : dropped d {| way_id := "30"; way_nds := ["A"; "B"];
                            way_tags := [("highway", "construction")] |}).
  { left. by vm_compute. }
  split; [exact Hd|].
  destruct (dropped_way_contributes_nothing d [] _ [] eq_refl Hd) as (_ & _ & Hall).
  apply Hall.
  - constructor; [exact Hd | constructor].
  - eexists. reflexivity.
Defined.

End Dropped.

Section TwoWay.

#[local] Opaque HALF_WIDTHS DEFAULT_SPEED VEHICLE_ROADS.

Section ScenarioA.

Context {num : Type} `{FloatOps num}.

Lemma summary_Some d s :
  summary <$> convert d = Some s ->
  exists o, convert d = Some o /\ node_ids o = s.1.1 /\ way_nodes o = s.1.2 /\
            relation_members o = s.2.
Proof.
  destruct (convert d) as [o|]; [|done]. intros [= <-]. exists o. done.
Qed.

(** The run of the isolated two-way way, computed. *)
Lemma isolated_two_way_summary bounds (a b : num * num) :
  summary <$> convert (isolated_two_way bounds a b) =
  Some ([-1; -2; -3; -4; -5; -6],
        [(-1, [-1; -2]); (-2, [-3; -4]); (-3, [-4; -3]); (-4, [-6; -5])],
        [(-1, [("way", -1, "left"); ("way", -2, "right")]);
         (-2, [("way", -3, "left"); ("way", -4, "right")])]).
Proof. destruct bounds; vm_compute; reflexivity. Qed.

Lemma isolated_two_way_registry bounds (a b : num * num) :
  shared_of (isolated_two_way bounds a b) = Some ∅.
Proof. destruct bounds; vm_compute; reflexivity. Qed.

(** C3 (scenario A), amended.  One two-way residential way over A and B
    and nothing else, wherever the two nodes are and whether or not the
    bounds are given: neither A nor B has a registry entry; the output has
    six nodes, FOUR ways (left, centre, the centre reversed and the right
    reversed) and two relations, the forward one over the left and the
    centre way, the reverse one over the two reversed ways, so that the
    centre ids appear in opposite orders. *)
Theorem scenario_A_output bounds (a b : num * num) :
  exists o shared,
    convert (isolated_two_way bounds a b) = Some o /\
    shared_of (isolated_two_way bounds a b) = Some shared /\
    shared !! "A" = None /\ shared !! "B" = None /\
    node_ids o = [-1; -2; -3; -4; -5; -6] /\
    way_nodes o = [(-1, [-1; -2]); (-2, [-3; -4]); (-3, [-4; -3]); (-4, [-6; -5])] /\
    relation_members o =
      [(-1, [("way", -1, "left"); ("way", -2, "right")]);
       (-2, [("way", -3, "left"); ("way", -4, "right")])].
Proof.
  destruct (summary_Some _ _ (isolated_two_way_summary bounds a b)) as (o & Ho & Hn & Hw & Hr).
  exists o, ∅. split; [done|]. split; [apply isolated_two_way_registry|].
  repeat split; done.
Qed.

End ScenarioA.

(** The counterexample to C3 as stated: scenario A does not produce
    exactly three ways. *)
Lemma scenario_A_not_three_ways :
  ~ (exists o, convert (@scenario_A R RealOps) = Some o /\
               length (node_ids o) = 6%nat /\ length (way_elems o) = 3%nat /\
               length (relation_elems o) = 2%nat).
Proof.
  intros (o & Ho & _ & Hw & _).
  destruct (summary_Some _ _ (@isolated_two_way_summary R RealOps (Some scenario_bounds)
              (lit 0, lit 0) (lit 0.0005, lit 0.0005))) as (o' & Ho' & _ & Hw' & _).
  unfold scenario_A in Ho. rewrite Ho in Ho'. injection Ho' as <-.
  apply (f_equal length) in Hw'. unfold way_nodes in Hw'.
  rewrite length_fmap, Hw in Hw'. simpl in Hw'. lia.
Qed.

End TwoWay.

Section Merging.

#[local] Opaque HALF_WIDTHS DEFAULT_SPEED VEHICLE_ROADS.
#[local] Arguments rel_tags : simpl never.
#[local] Arguments solid_tags : simpl never.

Section ScenarioB.

Context {num : Type} `{FloatOps num}.

Implicit Types (d : osm_doc num) (hw : highway_way) (o : list (element num)).

Lemma prepare_endpoints d p :
  prepare d = Some p -> endpoint_info_from (p_ways p) [] = Some (p_endpoints p).
Proof.
  unfold prepare. intros Hp.
  destruct (origin_of d) as [origin|]; [|done]. simpl in Hp.
  destruct (mapM _ _) as [ways|]; [|done]. simpl in Hp.
  destruct (endpoint_info_from ways []) as [ep|] eqn:Hep; [|done]. simpl in Hp.
  injection Hp as <-. done.
Qed.

(** A oneway way from [x] to the junction [c], the only entry of the
    registry: one fresh node per side, at [x]. *)
Lemma oneway_into_junction hw x c t n0 w0 r0 :
  hw_refs hw = [x; c] -> hw_oneway hw = true -> x <> c ->
  let shared : shared_map := <[c := t]> ∅ in
  fresh_per_side shared hw = 1%nat /\
  lanelet_elems (num := num) shared hw n0 w0 r0 =
    [ EWay w0 [n0; t_left t] (solid_tags (hw_highway hw));
      EWay (w0 - 1) [n0 - 1; t_right t] (solid_tags (hw_highway hw));
      ERelation r0 [("way", w0, "left"); ("way", w0 - 1, "right")]
                (rel_tags hw ++ [("one_way", "yes")]) ].
Proof.
  intros Hr Ho Hx shared.
  assert (H0 : hit_at shared (hw_refs hw) 0 = None).
  { unfold hit_at. rewrite Hr. simpl. unfold shared_hit. simpl.
    unfold shared. rewrite lookup_insert_ne by done. apply lookup_empty. }
  assert (H1 : hit_at shared (hw_refs hw) 1 = Some t).
  { unfold hit_at. rewrite Hr. simpl. unfold shared_hit. simpl.
    unfold shared. apply lookup_insert_eq. }
  unfold lanelet_elems, fresh_per_side, positions_of. rewrite Ho.
  replace (length (hw_refs hw)) with 2%nat by (by rewrite Hr).
  simpl. rewrite H0, H1. simpl. done.
Qed.

(** C9 (scenario B).  The converted ways are exactly two oneway two-node
    ways, from [a] to [c] and from [b] to [c], with [a], [b] and [c]
    different: the registry has the one triple (-1, -2, -3) of [c]; the
    output has the seven nodes -1 .. -7; the left and right way of the
    first way are [-4; -1] and [-5; -3], those of the second [-6; -1] and
    [-7; -3], so that each way has two fresh nodes at its own end and the
    left and right node of the triple at [c]; and there are two relations,
    one per way. *)
Theorem scenario_B_output d hw1 hw2 a b c :
  highway_ways d = Some [hw1; hw2] ->
  hw_refs hw1 = [a; c] -> hw_refs hw2 = [b; c] ->
  hw_oneway hw1 = true -> hw_oneway hw2 = true ->
  a <> b -> a <> c -> b <> c ->
  exists o,
    convert d = Some o /\
    shared_of d = Some (<[c := triple_from (-1)]> ∅) /\
    node_ids o = [-1; -2; -3; -4; -5; -6; -7] /\
    way_nodes o = [(-1, [-4; -1]); (-2, [-5; -3]); (-3, [-6; -1]); (-4, [-7; -3])] /\
    relation_members o =
      [(-1, [("way", -1, "left"); ("way", -2, "right")]);
       (-2, [("way", -3, "left"); ("way", -4, "right")])].
Proof.
  intros Hh R1 R2 O1 O2 Hab Hac Hbc.
  assert (Hk : way_at d 0 = Some hw1) by (unfold way_at; by rewrite Hh).
  destruct (convert_is_Some d (way_at_origin d 0 hw1 Hk)) as [o Ho].
  exists o. split; [done|].
  pose proof Ho as Hc.
  apply convert_Some in Hc as (p & shared & b0 & bn & Hp & Hj & Hl & ->).
  destruct (prepare_Some d p Hp) as (_ & _ & _ & Hwf & _ & _ & _).
  pose proof (prepare_endpoints d p Hp) as Hep.
  unfold highway_ways in Hh. rewrite Hp in Hh. simpl in Hh. injection Hh as Hh.
  destruct (p_ways p) as [|g1 [|g2 [|]]] eqn:Hways; try done.
  injection Hh as G1 G2.
  apply Forall_cons in Hwf as [(_ & _ & P1 & N1) Hwf].
  apply Forall_cons in Hwf as [(_ & _ & P2 & N2) _].
  rewrite G1, R1 in P1, N1. rewrite G2, R2 in P2, N2.
  destruct (g_perps g1) as [|q10 [|q11 [|]]] eqn:Q1; try done.
  destruct (g_perps g2) as [|q20 [|q21 [|]]] eqn:Q2; try done.
  apply Forall_cons in N1 as [_ N1]. apply Forall_cons in N1 as [[nc Hnc] _].
  (* the endpoint contributions *)
  assert (Eep : p_endpoints p =
    [ (a, [(q10.1, q10.2, g_half_w g1)]);
      (c, [(q11.1, q11.2, g_half_w g1); (q21.1, q21.2, g_half_w g2)]);
      (b, [(q20.1, q20.2, g_half_w g2)]) ]).
  { simpl in Hep. unfold add_endpoints, add_endpoint in Hep.
    rewrite G1, G2, R1, R2, Q1, Q2 in Hep.
    repeat (simpl in Hep;
            first [ rewrite bool_decide_eq_true_2 in Hep by done
                  | rewrite bool_decide_eq_false_2 in Hep by congruence ]).
    simpl in Hep. by injection Hep as <-. }
  (* phase 4 *)
  unfold junctions in Hj. rewrite Eep in Hj. simpl in Hj.
  unfold bind, merge_junction in Hj. simpl in Hj.
  unfold bind, lift in Hj. rewrite Hnc in Hj. simpl in Hj.
  injection Hj as <- <-.
  split.
  { unfold shared_of, run_to. rewrite Hp. simpl.
    unfold junctions. rewrite Eep. simpl.
    unfold bind, merge_junction. simpl. unfold bind, lift. rewrite Hnc. simpl. done. }
  (* phase 5 *)
  unfold lanelets in Hl. rewrite Hways in Hl. simpl in Hl.
  apply bind_Some in Hl as ([] & b1 & Hb1 & Hl).
  apply bind_Some in Hl as ([] & b2 & Hb2 & Hl).
  injection Hl as <-.
  apply build_way_step in Hb1 as (nodes1 & Nn1 & Ln1 & S1).
  apply build_way_step in Hb2 as (nodes2 & Nn2 & Ln2 & S2).
  rewrite G1 in Ln1, S1. rewrite G2 in Ln2, S2. rewrite O1 in Ln1. rewrite O2 in Ln2.
  set (t := {| t_left := -1; t_centre := -1 - 1; t_right := -1 - 1 - 1 |}) in *.
  destruct (oneway_into_junction hw1 a c t (-1 - 1 - 1 - 1) (-1) (-1) R1 O1 Hac) as [F1 L1].
  pose proof (step_nid _ _ _ S1) as E1n.
  pose proof (step_wid _ _ _ S1) as E1w.
  pose proof (step_rid _ _ _ S1) as E1r.
  simpl in S1, E1n, E1w, E1r. rewrite F1 in Ln1. rewrite L1 in S1, E1n, E1w, E1r.
  rewrite node_ids_app, length_app, (only_nodes_length nodes1) in E1n by done.
  rewrite way_elems_lanelet in E1w by done.
  rewrite relation_elems_lanelet in E1r by done.
  simpl in E1n, E1w, E1r.
  destruct (oneway_into_junction hw2 b c t (nid b1) (wid b1) (rid b1) R2 O2 Hbc) as [F2 L2].
  rewrite F2 in Ln2. rewrite L2 in S2.
  rewrite (step_out _ _ _ S2), (step_out _ _ _ S1). simpl out.
  split.
  { pose proof (run_facts d _ Ho) as (_ & _ & _ & _ & _ & _ & _ & _ & Hids & _).
    rewrite (step_out _ _ _ S2), (step_out _ _ _ S1) in Hids. simpl out in Hids.
    rewrite Hids. rewrite !node_ids_app, !length_app.
    rewrite (only_nodes_length nodes1), (only_nodes_length nodes2) by done.
    rewrite Ln1, Ln2. destruct (doc_bounds d); reflexivity. }
  unfold way_nodes, relation_members.
  rewrite !way_elems_app, !relation_elems_app.
  rewrite (only_nodes_ways nodes1), (only_nodes_ways nodes2) by done.
  rewrite (only_nodes_relations nodes1), (only_nodes_relations nodes2) by done.
  replace (nid b1) with (-6) by lia. replace (wid b1) with (-3) by lia.
  replace (rid b1) with (-2) by lia.
  destruct (doc_bounds d); split; reflexivity.
Qed.

End ScenarioB.

End Merging.

Section SpeedLimit.

#[local] Opaque HALF_WIDTHS DEFAULT_SPEED VEHICLE_ROADS.
#[local] Arguments rel_tags : simpl never.
#[local] Arguments solid_tags : simpl never.





Section Speed.

Context {num : Type} `{FloatOps num}.

Implicit Types (d : osm_doc num) (hw : highway_way).





End Speed.



End SpeedLimit.

Section Geometry.

Local Close Scope Z_scope.

(** ** Exact arithmetic *)

Section Reals.

Local Open Scope R_scope.

Implicit Types (x y dx dy : R).

Lemma lit_radius : lit (num := R) 6371000.0 = 6371000.
Proof.
  unfold lit, RealOps, Q2R. set (n := Qnum _). set (m := Qden _).
  vm_compute in n, m. subst n m. lra.
Qed.

Lemma lit_180 : lit (num := R) 180.0 = 180.
Proof.
  unfold lit, RealOps, Q2R. set (n := Qnum _). set (m := Qden _).
  vm_compute in n, m. subst n m. lra.
Qed.

Lemma lit_eps : lit (num := R) 1e-10 = / 10000000000.
Proof.
  unfold lit, RealOps, Q2R. set (n := Qnum _). set (m := Qden _).
  vm_compute in n, m. subst n m. lra.
Qed.

Lemma lit_zero : lit (num := R) 0.0 = 0.
Proof.
  unfold lit, RealOps, Q2R. set (n := Qnum _). set (m := Qden _).
  vm_compute in n, m. subst n m. lra.
Qed.

Lemma lit_one : lit (num := R) 1.0 = 1.
Proof.
  unfold lit, RealOps, Q2R. set (n := Qnum _). set (m := Qden _).
  vm_compute in n, m. subst n m. lra.
Qed.

Lemma gtb_true x y : gtb (num := R) x y = true <-> y < x.
Proof. unfold gtb, RealOps. destruct (Rlt_dec y x); split; auto; discriminate. Qed.

Lemma gtb_false x y : gtb (num := R) x y = false <-> x <= y.
Proof.
  unfold gtb, RealOps. destruct (Rlt_dec y x); split; auto; try discriminate; lra.
Qed.

Lemma hypot_nonneg x y : 0 <= hypot (num := R) x y.
Proof. apply sqrt_pos. Qed.

Lemma hypot_sq x y : hypot (num := R) x y * hypot x y = x * x + y * y.
Proof. unfold hypot, RealOps. apply sqrt_sqrt. nra. Qed.

Lemma hypot_unit x y : x * x + y * y = 1 -> hypot (num := R) x y = 1.
Proof. unfold hypot, RealOps. intros ->. apply sqrt_1. Qed.

(** [normalize] in exact arithmetic, by cases on the length. *)
Lemma normalize_long dx dy :
  / 10000000000 < hypot dx dy ->
  normalize (num := R) dx dy = (dx / hypot dx dy, dy / hypot dx dy).
Proof.
  intros Hd. unfold normalize. rewrite lit_eps.
  rewrite (proj2 (gtb_true _ _) Hd). reflexivity.
Qed.

Lemma normalize_short dx dy :
  hypot dx dy <= / 10000000000 -> normalize (num := R) dx dy = (0, 1).
Proof.
  intros Hd. unfold normalize. rewrite lit_eps.
  rewrite (proj2 (gtb_false _ _) Hd). by rewrite lit_zero, lit_one.
Qed.

Lemma normalize_unit dx dy :
  (normalize (num := R) dx dy).1 * (normalize dx dy).1 +
  (normalize dx dy).2 * (normalize dx dy).2 = 1.
Proof.
  destruct (Rlt_dec (/ 10000000000) (hypot dx dy)) as [Hd|Hd].
  - rewrite normalize_long by done. cbn [fst snd].
    pose proof (hypot_sq dx dy) as Hs.
    set (h := hypot dx dy) in *.
    assert (h <> 0) by lra.
    change (dx / h * (dx / h) + dy / h * (dy / h) = 1)%R.
    field_simplify_eq; [|done]. nra.
  - rewrite normalize_short by lra. cbn [fst snd]. lra.
Qed.

Lemma normalize_of_unit x y : x * x + y * y = 1 -> normalize (num := R) x y = (x, y).
Proof.
  intros Hu. rewrite normalize_long; rewrite (hypot_unit x y Hu); [|lra].
  f_equal; field.
Qed.

Lemma left_perp_of_unit x y : x * x + y * y = 1 -> left_perp (num := R) x y = (- y, x).
Proof.
  intros Hu. unfold left_perp. simpl. apply normalize_of_unit. nra.
Qed.

Lemma perp_at_unit (xy : list (R * R)) n i p :
  perp_at xy n i = Some p -> p.1 * p.1 + p.2 * p.2 = 1.
Proof.
  unfold perp_at. intros Hp.
  destruct (if (0 <? i)%nat then _ else _) as [dirs1|]; [|done]. simpl in Hp.
  destruct (if (i <? n - 1)%nat then _ else _) as [dirs2|]; [|done]. simpl in Hp.
  destruct (length (dirs1 ++ dirs2)); [done|].
  injection Hp as <-.
  match goal with
  | |- context [left_perp (normalize ?X ?Y).1 _] =>
    pose proof (normalize_unit X Y) as Ha; rewrite (left_perp_of_unit _ _ Ha)
  end.
  cbn [fst snd]. nra.
Qed.

Lemma to_latlon_to_xy lat lon origin_lat origin_lon :
  cos (radians origin_lat) <> 0 ->
  xy_to_latlon (latlon_to_xy lat lon origin_lat origin_lon).1
               (latlon_to_xy lat lon origin_lat origin_lon).2 origin_lat origin_lon =
  (lat, lon).
Proof.
  intros Hc. unfold latlon_to_xy, xy_to_latlon. cbn [fst snd].
  rewrite lit_radius, lit_180. simpl in *.
  f_equal; field; auto using PI_neq0.
Qed.




(** C8 (unit normals), amended.  For every coordinate sequence that does
    not consist of a single point, [compute_perps] returns one vector per
    position, the one computed at that position; every returned vector has
    length one; and [normalize] divides by the segment length only when it
    is above 1e-10, hence not zero, and returns (0, 1) otherwise. *)
Theorem compute_perps_unit_normals (xy_coords : list (R * R)) :
  length xy_coords <> 1%nat ->
  exists perps,
    compute_perps xy_coords = Some perps /\
    length perps = length xy_coords /\
    (forall i, (i < length xy_coords)%nat ->
               perps !! i = perp_at xy_coords (length xy_coords) i) /\
    (forall p, p ∈ perps -> p.1 * p.1 + p.2 * p.2 = 1) /\
    (forall dx dy, hypot dx dy <= / 10000000000 -> normalize dx dy = (0, 1)) /\
    (forall dx dy, / 10000000000 < hypot dx dy ->
       hypot dx dy <> 0 /\ normalize dx dy = (dx / hypot dx dy, dy / hypot dx dy)).
Proof.
  intros Hn.
  assert (Hs : is_Some (compute_perps xy_coords)).
  { destruct xy_coords as [|p [|q rest]]; [by eexists | done |].
    apply compute_perps_is_Some. simpl. lia. }
  destruct Hs as [perps Hp]. exists perps. split; [done|].
  split; [by apply compute_perps_length|].
  pose proof Hp as Hf. unfold compute_perps in Hf. apply mapM_Some in Hf.
  split.
  { intros i Hi.
    destruct (Forall2_lookup_l _ _ _ i i Hf) as (p & Hpi & Hperp).
    { by apply lookup_seq_lt. }
    simpl in Hperp. by rewrite Hpi, Hperp. }
  split.
  { intros p Hin. apply list_elem_of_lookup_1 in Hin as [i Hi].
    destruct (Forall2_lookup_r _ _ _ i p Hf Hi) as (j & _ & Hperp).
    by apply perp_at_unit in Hperp. }
  split; [apply normalize_short|].
  intros dx dy Hd. split; [lra | by apply normalize_long].
Qed.

(** The witness of C8: a straight segment. *)
Lemma compute_perps_unit_normals_witness :
  length [(0, 0); (1, 0)] <> 1%nat /\
  exists perps, compute_perps [(0, 0); (1, 0)] = Some perps /\ length perps = 2%nat.
Proof.
  assert (Hn : length [(0, 0); (1, 0)] <> 1%nat) by (simpl; lia).
  split; [exact Hn|].
  destruct (compute_perps_unit_normals [(0, 0); (1, 0)] Hn) as (perps & Hp & Hl & _).
  exists perps. split; [exact Hp | exact Hl].
Defined.

(** The counterexample to C8 as stated: on a sequence of one point no
    segment touches the position and the average divides by zero. *)
Lemma compute_perps_single_point :
  ~ (exists perps, compute_perps (num := R) [(0, 0)] = Some perps /\ length perps = 1%nat).
Proof. intros (perps & Hp & _). discriminate. Qed.

End Reals.

End Geometry.

Section JunctionGeometry.

Local Close Scope Z_scope.
#[local] Opaque HALF_WIDTHS DEFAULT_SPEED VEHICLE_ROADS.

Section MergeDefs.

Context {num : Type} `{FloatOps num}.

Local Open Scope num_scope.

Lemma head_on_endpoints (a b : Q * Q) :
  (fun p => ep_get "C" (p_endpoints p)) <$> prepare (head_on a b) = head_on_infos a b.
Proof. vm_compute. reflexivity. Qed.

End MergeDefs.

Section Placement.

Context {num : Type} `{FloatOps num}.

Local Open Scope num_scope.

(** Where the three nodes of a junction are put. *)
Lemma junction_placement (d : osm_doc num) r deg :
  junction_degree d r = Some deg -> (2 <= deg)%nat ->
  exists o p shared t n,
    convert d = Some o /\ prepare d = Some p /\ shared_of d = Some shared /\
    shared !! r = Some t /\ p_nodes p !! r = Some n /\
    length (ep_get r (p_endpoints p)) = deg /\
    let infos := ep_get r (p_endpoints p) in
    let dir := merged_direction infos in
    let w := merged_half_width infos in
    let l := xy_to_latlon (n.1.2 + dir.1 * w) (n.2 + dir.2 * w) (p_origin p).1 (p_origin p).2 in
    let c := xy_to_latlon n.1.2 n.2 (p_origin p).1 (p_origin p).2 in
    let rr := xy_to_latlon (n.1.2 - dir.1 * w) (n.2 - dir.2 * w) (p_origin p).1 (p_origin p).2 in
    ENode (t_left t) l.1 l.2 ∈ o /\ ENode (t_centre t) c.1 c.2 ∈ o /\
    ENode (t_right t) rr.1 rr.2 ∈ o.
Proof.
  intros Hdeg Hge.
  assert (Ho : is_Some (origin_of d)).
  { unfold junction_degree, highway_ways in Hdeg.
    destruct (prepare d) as [p|] eqn:Hp; [|done].
    apply prepare_Some in Hp as [Ho _]. eauto. }
  destruct (convert_is_Some d Ho) as [o Hc].
  destruct (run_facts d o Hc) as (p & shared & jn & Hp & Hsh & _ & Hreg & [rest Hout] & _ & _).
  destruct (prepare_Some d p Hp) as (_ & _ & _ & _ & _ & _ & Hcount).
  unfold junction_degree, highway_ways in Hdeg. rewrite Hp in Hdeg. simpl in Hdeg.
  injection Hdeg as <-.
  specialize (Hreg r). rewrite Hcount in Hreg.
  destruct (Nat.ltb_spec (sum_list (contributions r <$> (g_way <$> p_ways p))) 2) as [?|_];
    [lia|].
  destruct Hreg as (n & jpre & jpost & Hn & Hjn & Ht).
  exists o, p, shared, (triple_from (-1 - Z.of_nat (length jpre))), n.
  split; [done|]. split; [done|]. split; [done|]. split; [done|]. split; [done|].
  split; [apply Hcount|].
  rewrite Hout, Hjn. unfold junction_nodes, triple_from. cbn [t_left t_centre t_right].
  rewrite !elem_of_app, !elem_of_cons. tauto.
Qed.

End Placement.

Section MergeReals.

Local Open Scope R_scope.

Lemma hypot_scale x y n :
  0 < n -> hypot (num := R) (x / n) (y / n) = hypot x y / n.
Proof.
  intros Hn. unfold hypot at 1. unfold RealOps at 1.
  pose proof (hypot_nonneg x y) as Hh. pose proof (hypot_sq x y) as Hs.
  set (h := hypot x y) in *.
  apply sqrt_lem_1.
  - assert (0 <= x / n * (x / n)) by nra. assert (0 <= y / n * (y / n)) by nra. lra.
  - apply Rmult_le_pos; [done|]. left. by apply Rinv_0_lt_compat.
  - field_simplify_eq; [|lra]. nra.
Qed.

Lemma merged_direction_mean (infos : list (info R)) :
  merged_direction infos =
  normalize ((normal_sum infos).1 / INR (length infos))
            ((normal_sum infos).2 / INR (length infos)).
Proof. reflexivity. Qed.

(** The code's merged direction against the normalized sum. *)
Lemma merged_direction_cases (infos : list (info R)) :
  (1 <= length infos)%nat ->
  let s := normal_sum infos in
  let n := INR (length infos) in
  (n / 10000000000 < hypot s.1 s.2 ->
   merged_direction infos = spec_merged_direction infos /\
   merged_direction infos = (s.1 / hypot s.1 s.2, s.2 / hypot s.1 s.2)) /\
  (hypot s.1 s.2 <= n / 10000000000 -> merged_direction infos = (0, 1)).
Proof.
  intros Hlen s n.
  assert (Hn : 1 <= n) by (unfold n; change 1 with (INR 1); by apply le_INR).
  rewrite merged_direction_mean. fold s. fold n.
  pose proof (hypot_scale s.1 s.2 n ltac:(lra)) as Hsc.
  pose proof (hypot_nonneg s.1 s.2) as Hh.
  split.
  - intros Hlong.
    assert (Hm : / 10000000000 < hypot (s.1 / n) (s.2 / n)).
    { rewrite Hsc. apply (Rmult_lt_reg_r n); [lra|].
      unfold Rdiv. rewrite Rmult_assoc, Rinv_l by lra. lra. }
    assert (Hs : / 10000000000 < hypot s.1 s.2).
    { apply Rle_lt_trans with (n / 10000000000); [|done].
      unfold Rdiv. nra. }
    unfold spec_merged_direction. fold s.
    rewrite (normalize_long _ _ Hm), (normalize_long _ _ Hs), Hsc.
    assert (hypot s.1 s.2 <> 0) by lra.
    assert (E : forall z, z / n / (hypot s.1 s.2 / n) = z / hypot s.1 s.2).
    { intros z. field. split; lra. }
    rewrite !E. done.
  - intros Hshort. apply normalize_short. rewrite Hsc.
    apply (Rmult_le_reg_r n); [lra|].
    unfold Rdiv. rewrite Rmult_assoc, Rinv_l by lra. lra.
Qed.

Lemma merged_half_width_mean (infos : list (info R)) :
  merged_half_width infos = fsum ((fun i => i.2) <$> infos) / INR (length infos).
Proof. reflexivity. Qed.

(** C6 (junction merge), amended, in exact arithmetic.  For a source node
    [r] with [deg >= 2] endpoint contributions: the merged direction is
    [normalize] of the MEAN of the contributed normals, every contribution
    with the same weight; it is the unit vector along their sum, as the
    normalized sum is, when the sum is longer than deg * 1e-10, and it is
    the fallback (0, 1) when the sum is at most deg * 1e-10 long; the
    merged half-width is the arithmetic mean of the contributed
    half-widths; and the left, centre and right node of the triple are the
    points centre + direction * half-width, centre and
    centre - direction * half-width, taken back to latitude and
    longitude. *)
Theorem junction_merge (d : osm_doc R) r deg :
  junction_degree d r = Some deg -> (2 <= deg)%nat ->
  exists o p shared t n,
    convert d = Some o /\ prepare d = Some p /\ shared_of d = Some shared /\
    shared !! r = Some t /\ p_nodes p !! r = Some n /\
    let infos := ep_get r (p_endpoints p) in
    let s := normal_sum infos in
    let dir := merged_direction infos in
    let w := merged_half_width infos in
    length infos = deg /\
    dir = normalize (s.1 / INR deg) (s.2 / INR deg) /\
    (INR deg / 10000000000 < hypot s.1 s.2 ->
     dir = spec_merged_direction infos /\
     dir = (s.1 / hypot s.1 s.2, s.2 / hypot s.1 s.2)) /\
    (hypot s.1 s.2 <= INR deg / 10000000000 -> dir = (0, 1)) /\
    w = fsum ((fun i => i.2) <$> infos) / INR deg /\
    let l := xy_to_latlon (n.1.2 + dir.1 * w) (n.2 + dir.2 * w) (p_origin p).1 (p_origin p).2 in
    let c := xy_to_latlon n.1.2 n.2 (p_origin p).1 (p_origin p).2 in
    let rr := xy_to_latlon (n.1.2 - dir.1 * w) (n.2 - dir.2 * w) (p_origin p).1 (p_origin p).2 in
    ENode (t_left t) l.1 l.2 ∈ o /\ ENode (t_centre t) c.1 c.2 ∈ o /\
    ENode (t_right t) rr.1 rr.2 ∈ o.
Proof.
  intros Hdeg Hge.
  destruct (junction_placement d r deg Hdeg Hge)
    as (o & p & shared & t & n & Ho & Hp & Hsh & Ht & Hn & Hlen & Hnodes).
  exists o, p, shared, t, n. do 5 (split; [done|]).
  intros infos s dir w.
  destruct (merged_direction_cases infos) as [Hlong Hshort]; [unfold infos; lia|].
  fold s in Hlong, Hshort. unfold infos in Hlong, Hshort. rewrite Hlen in Hlong, Hshort.
  split; [exact Hlen|].
  split. { unfold dir. rewrite merged_direction_mean. fold s. unfold infos. by rewrite Hlen. }
  split; [exact Hlong|]. split; [exact Hshort|].
  split. { unfold w. rewrite merged_half_width_mean. unfold infos. by rewrite Hlen. }
  exact Hnodes.
Qed.

End MergeReals.

End JunctionGeometry.

Section NearCancellation.

Local Close Scope Z_scope.
#[local] Opaque HALF_WIDTHS DEFAULT_SPEED VEHICLE_ROADS.
#[local] Arguments normalize : simpl never.
#[local] Arguments left_perp : simpl never.
#[local] Arguments hypot : simpl never.

Section Sliver.

Local Open Scope R_scope.

(** The perpendiculars of a single segment from [P] to [Q]: at both ends
    the unit direction of the segment turned to the left. *)
Lemma compute_perps_segment (P Q : R * R) :
  let dx := Q.1 - P.1 in
  let dy := Q.2 - P.2 in
  let h := hypot dx dy in
  / 10000000000 < h ->
  compute_perps [P; Q] = Some [(- (dy / h), dx / h); (- (dy / h), dx / h)].
Proof.
  intros dx dy h Hh.
  pose proof (hypot_sq dx dy) as Hs. fold h in Hs.
  assert (Hu : dx / h * (dx / h) + dy / h * (dy / h) = 1).
  { field_simplify_eq; [|lra]. nra. }
  assert (E : forall z, (INR 0 + z) / INR 1 = z) by (intros z; simpl; field).
  unfold compute_perps, perp_at. simpl.
  fold dx dy. rewrite (normalize_long dx dy Hh). fold h. cbn [fst snd].
  unfold fsum. simpl. rewrite !E.
  rewrite (normalize_of_unit _ _ Hu). cbn [fst snd].
  rewrite (left_perp_of_unit _ _ Hu). reflexivity.
Qed.

Lemma metres_per_degree_big : 1 < metres_per_degree.
Proof. unfold metres_per_degree. pose proof PI2_1. lra. Qed.

Lemma lit_0 : lit (num := R) 0 = 0.
Proof.
  unfold lit, RealOps, Q2R. set (n := Qnum _). set (m := Qden _).
  vm_compute in n, m. subst n m. lra.
Qed.

Lemma latlon_to_xy_origin lat lon :
  latlon_to_xy lat lon (lit (num := R) 0) (lit 0) =
  (lon * metres_per_degree, lat * metres_per_degree).
Proof.
  unfold latlon_to_xy, metres_per_degree. rewrite lit_0, lit_radius, lit_180. simpl.
  rewrite Rmult_0_l, cos_0. f_equal; field.
Qed.

Lemma hypot_scaled X Y k r :
  0 < k -> 0 <= r -> r * r = X * X + Y * Y ->
  hypot (num := R) (0 * k - X * k) (0 * k - Y * k) = k * r.
Proof.
  intros Hk Hr Hsq. unfold hypot, RealOps. apply sqrt_lem_1.
  - nra.
  - nra.
  - nra.
Qed.

Lemma hypot_gt e x y : 0 <= e -> e * e < x * x + y * y -> e < hypot (num := R) x y.
Proof.
  intros He Hlt. unfold hypot, RealOps. rewrite <- (sqrt_square e He) at 1.
  apply sqrt_lt_1; nra.
Qed.

Lemma hypot_le e x y : 0 <= e -> x * x + y * y <= e * e -> hypot (num := R) x y <= e.
Proof.
  intros He Hle. unfold hypot, RealOps. rewrite <- (sqrt_square e He).
  apply sqrt_le_1; nra.
Qed.

(** The left normals of a way that runs from the point with the scaled
    coordinates (X, Y), at distance r, to the origin. *)
Lemma perps_into_origin X Y r :
  0 < r -> r * r = X * X + Y * Y -> 1 <= r ->
  compute_perps [(X * metres_per_degree, Y * metres_per_degree);
                 (0 * metres_per_degree, 0 * metres_per_degree)] =
  Some [(Y / r, - (X / r)); (Y / r, - (X / r))].
Proof.
  intros Hr Hsq Hr1. pose proof metres_per_degree_big as Hk.
  set (k := metres_per_degree) in *.
  pose proof (hypot_scaled X Y k r ltac:(lra) ltac:(lra) Hsq) as Hh.
  rewrite compute_perps_segment; cbn [fst snd]; rewrite Hh.
  - assert (E1 : - ((0 * k - Y * k) / (k * r)) = Y / r) by (field; lra).
    assert (E2 : (0 * k - X * k) / (k * r) = - (X / r)) by (field; lra).
    by rewrite E1, E2.
  - nra.
Qed.

Lemma lit_a2 : lit (num := R) (-1) = -1.
Proof.
  unfold lit, RealOps, Q2R. set (n := Qnum _). set (m := Qden _).
  vm_compute in n, m. subst n m. lra.
Qed.

Lemma lit_b1 : lit (num := R) (-1.5e-10) = - (2 * (3 / 40000000000)).
Proof.
  unfold lit, RealOps, Q2R. set (n := Qnum _). set (m := Qden _).
  vm_compute in n, m. subst n m. lra.
Qed.

Lemma lit_b2 :
  lit (num := R) 0.999999999999999999994375 =
  1 - 3 / 40000000000 * (3 / 40000000000).
Proof.
  unfold lit, RealOps, Q2R. set (n := Qnum _). set (m := Qden _).
  vm_compute in n, m. subst n m. lra.
Qed.

(** The two normals that meet at C in the head-on document. *)
Lemma sliver_infos :
  let m := 3 / 40000000000 in
  head_on_infos (num := R) sliver_a sliver_b =
  Some [ (0 / 1, - (-1 / 1), lit 2.75);
         (- (2 * m) / (1 + m * m), - ((1 - m * m) / (1 + m * m)), lit 2.75) ].
Proof.
  intros m. unfold head_on_infos, sliver_a, sliver_b. cbn [fst snd].
  rewrite !latlon_to_xy_origin. rewrite lit_0, lit_a2, lit_b1, lit_b2. fold m.
  rewrite (perps_into_origin (-1) 0 1) by lra.
  rewrite (perps_into_origin (1 - m * m) (- (2 * m)) (1 + m * m))
    by (unfold m; first [lra | ring]).
  reflexivity.
Qed.

End Sliver.

(** The counterexample to C6 as stated: two ways that reach C from almost
    opposite sides.  Their normals at C add up to a vector about 1.5e-10
    long; the code averages first, finds the mean at most 1e-10 long and
    falls back to (0, 1), while the normalized sum is the unit vector
    along the sum. *)
Lemma merged_direction_not_normalized_sum :
  let d := head_on (num := R) sliver_a sliver_b in
  exists p infos,
    prepare d = Some p /\ junction_degree d "C" = Some 2%nat /\
    infos = ep_get "C" (p_endpoints p) /\
    merged_direction infos = (0%R, 1%R) /\
    merged_direction infos <> spec_merged_direction infos.
Proof.
  intros d.
  assert (Hdeg : junction_degree d "C" = Some 2%nat) by (vm_compute; reflexivity).
  pose proof (head_on_endpoints (num := R) sliver_a sliver_b) as He. fold d in He.
  rewrite sliver_infos in He.
  destruct (prepare d) as [p|] eqn:Hp; [|done]. simpl in He. injection He as He.
  exists p, (ep_get "C" (p_endpoints p)). split; [done|].
  split; [exact Hdeg|].
  split; [done|]. rewrite He.
  set (m := (3 / 40000000000)%R).
  set (infos := [_; _]).
  assert (Hs : normal_sum infos =
               ((INR 0 + 0 / 1 + - (2 * m) / (1 + m * m))%R,
                (INR 0 + - (-1 / 1) + - ((1 - m * m) / (1 + m * m)))%R)) by reflexivity.
  destruct (merged_direction_cases infos) as [_ Hshort]; [simpl; lia|].
  rewrite Hs in Hshort. cbn [fst snd] in Hshort.
  set (x := (INR 0 + 0 / 1 + - (2 * m) / (1 + m * m))%R) in *.
  set (y := (INR 0 + - (-1 / 1) + - ((1 - m * m) / (1 + m * m)))%R) in *.
  (* the sum of the two normals: its first component and its length *)
  assert (Hm : (m * m = 9 / 1600000000000000000000)%R) by (unfold m; lra).
  assert (HD : (1 <= 1 + m * m <= 2)%R) by lra.
  assert (Hx : (x * (1 + m * m) = - (2 * m))%R) by (unfold x; simpl; field; lra).
  assert (Hv : ((x * x + y * y) * (1 + m * m) = 4 * (m * m))%R).
  { unfold x, y. simpl. field. lra. }
  assert (Hv0 : (0 <= x * x + y * y)%R) by nra.
  assert (Hup : (x * x + y * y <= 4 * (m * m))%R) by nra.
  assert (Hlo : (2 * (m * m) <= x * x + y * y)%R) by nra.
  assert (Hcode : merged_direction infos = (0%R, 1%R)).
  { apply Hshort. apply hypot_le; simpl; lra. }
  split; [exact Hcode|].
  rewrite Hcode. unfold spec_merged_direction. rewrite Hs. cbn [fst snd].
  assert (Hlong : (/ 10000000000 < hypot x y)%R) by (apply hypot_gt; lra).
  rewrite normalize_long by exact Hlong.
  intros [= Hx0 _]. symmetry in Hx0.
  assert (Hxne : (x <> 0)%R).
  { intros E. rewrite E in Hx. unfold m in Hx. lra. }
  apply Rmult_integral in Hx0 as [Hx0|Hx0]; [done|].
  apply Rinv_neq_0_compat in Hx0; [done|]. lra.
Qed.

End NearCancellation.

Section Witnesses.

(** ** Witnesses: the theorems at the scenarios, in exact arithmetic *)

(** The witness of C10: the closed way A, B, C, A. *)
Lemma closed_way_shares_its_ends_witness :
  let d := @scenario_loop R RealOps in
  way_at d 0 = Some way_loop /\
  hw_refs way_loop !! 0%nat = Some "A" /\ hw_refs way_loop !! 3%nat = Some "A" /\
  exists o shared t els,
    convert d = Some o /\ shared_of d = Some shared /\ shared !! "A" = Some t /\
    emitted d 0 = Some els /\
    uses_at els 4 0 t /\ uses_at els 4 3 t /\
    materialized o (t_left t) = 1%nat /\
    materialized o (t_centre t) = 1%nat /\
    materialized o (t_right t) = 1%nat.
Proof.
  intros d.
  assert (H1 : way_at d 0 = Some way_loop) by (vm_compute; reflexivity).
  split; [exact H1|]. split; [reflexivity|]. split; [reflexivity|].
  exact (closed_way_shares_its_ends d 0 way_loop "A" H1 eq_refl eq_refl).
Defined.

(** The witness of C2: the first way of scenario B, a oneway way. *)
Lemma lanelet_cardinality_witness :
  let d := @scenario_B R RealOps in
  way_at d 0 = Some way_B1 /\
  exists o els pre post,
    convert d = Some o /\ emitted d 0 = Some els /\ o = pre ++ els ++ post /\
    length (way_elems els) = 2%nat /\ length (relation_elems els) = 1%nat.
Proof.
  intros d.
  assert (H1 : way_at d 0 = Some way_B1) by (vm_compute; reflexivity).
  split; [exact H1|].
  destruct (lanelet_cardinality d 0 way_B1 H1) as (o & els & pre & post & Ho & He & Hout & Hc).
  cbn [hw_oneway way_B1] in Hc.
  destruct Hc as (rl & lw & rw & L & R0 & tl & tr & t & Hw & _ & Hr & _).
  exists o, els, pre, post. rewrite Hw, Hr.
  split; [exact Ho|]. split; [exact He|]. split; [exact Hout|]. split; reflexivity.
Defined.

(** The witness of C9: scenario B with the coordinates chosen above. *)
Lemma scenario_B_output_witness :
  let d := @scenario_B R RealOps in
  highway_ways d = Some [way_B1; way_B2] /\
  exists o,
    convert d = Some o /\
    node_ids o = [-1; -2; -3; -4; -5; -6; -7] /\
    way_nodes o = [(-1, [-4; -1]); (-2, [-5; -3]); (-3, [-6; -1]); (-4, [-7; -3])].
Proof.
  intros d.
  assert (Hh : highway_ways d = Some [way_B1; way_B2]) by (vm_compute; reflexivity).
  split; [exact Hh|].
  destruct (scenario_B_output d way_B1 way_B2 "A" "B" "C" Hh eq_refl eq_refl eq_refl eq_refl
              ltac:(discriminate) ltac:(discriminate) ltac:(discriminate))
    as (o & Ho & _ & Hn & Hw & _).
  exists o. split; [exact Ho|]. split; [exact Hn | exact Hw].
Defined.

(** The witness of C6: the node C of scenario B. *)
Lemma junction_merge_witness :
  let d := @scenario_B R RealOps in
  junction_degree d "C" = Some 2%nat /\ (2 <= 2)%nat /\
  exists o shared t, convert d = Some o /\ shared_of d = Some shared /\
                     shared !! "C" = Some t.
Proof.
  intros d.
  assert (Hd : junction_degree d "C" = Some 2%nat) by (vm_compute; reflexivity).
  split; [exact Hd|]. split; [lia|].
  destruct (junction_merge d "C" 2 Hd ltac:(lia)) as (o & p & shared & t & n & Ho & _ & Hs & Ht & _).
  exists o, shared, t. split; [exact Ho|]. split; [exact Hs | exact Ht].
Defined.

End Witnesses.

(** * Further properties of the conversion *)

Section Output.

#[local] Opaque HALF_WIDTHS DEFAULT_SPEED VEHICLE_ROADS.
#[local] Arguments rel_tags : simpl never.
#[local] Arguments solid_tags : simpl never.

Section Layout.

Context {num : Type} `{FloatOps num}.

Implicit Types (d : osm_doc num) (b : builder num) (o : list (element num)).

Lemma bounds_elems_app (l1 l2 : list (element num)) :
  bounds_elems (l1 ++ l2) = bounds_elems l1 ++ bounds_elems l2.
Proof. apply omap_app. Qed.

Lemma only_nodes_bounds (l : list (element num)) : only_nodes l -> bounds_elems l = [].
Proof. induction 1 as [|e l He _ IH]; [done|]. destruct e; try done. Qed.

(** What phase 5 appends for a list of ways: no bounds, and two ways per
    relation, one or two relations per way. *)
Lemma build_ways_elems origin shared (ways : list (way_geom num)) b u b' :
  build_ways origin shared ways b = Some (u, b') ->
  exists new, step b new b' /\ bounds_elems new = [] /\
    length (relation_elems new) = sum_list (lanelets_of <$> (g_way <$> ways)) /\
    length (way_elems new) = (2 * sum_list (lanelets_of <$> (g_way <$> ways)))%nat.
Proof.
  revert b. induction ways as [|g rest IH]; intros b Hb; simpl in Hb.
  - injection Hb as _ <-. exists []. split; [apply step_refl | done].
  - apply bind_Some in Hb as (u1 & b1 & H1 & Hb).
    apply build_way_step in H1 as (nodes & Nn & _ & S1).
    apply IH in Hb as (new & S2 & B2 & R2 & W2).
    eexists. split; [eapply step_trans; eauto|].
    rewrite !bounds_elems_app, !relation_elems_app, !way_elems_app, !length_app.
    rewrite (only_nodes_bounds nodes Nn), (only_nodes_relations nodes Nn),
      (only_nodes_ways nodes Nn), B2, R2, W2.
    rewrite !fmap_cons. cbn [sum_list_with sum_list].
    set (s := sum_list (lanelets_of <$> (g_way <$> rest))).
    unfold lanelets_of, lanelet_elems.
    destruct (hw_oneway (g_way g)); simpl; split; try done; lia.
Qed.

(** The whole run as one step of the builder. *)
Lemma convert_step d o :
  convert d = Some o ->
  exists p jn new,
    prepare d = Some p /\ only_nodes jn /\ bounds_elems new = [] /\
    length (relation_elems new) = sum_list (lanelets_of <$> (g_way <$> p_ways p)) /\
    length (way_elems new) = (2 * sum_list (lanelets_of <$> (g_way <$> p_ways p)))%nat /\
    step (init_builder (doc_bounds d)) (jn ++ new)
         {| nid := -1 - Z.of_nat (length (node_ids (jn ++ new)));
            wid := -1 - Z.of_nat (length (way_elems (jn ++ new)));
            rid := -1 - Z.of_nat (length (relation_elems (jn ++ new)));
            out := o |}.
Proof.
  intros Hc. apply convert_Some in Hc as (p & shared & b0 & b & Hp & Hj & Hl & ->).
  destruct (prepare_Some d p Hp) as (_ & _ & _ & _ & Hnd & _ & _).
  destruct (junctions_registry p (init_builder (doc_bounds d)) shared b0 Hnd eq_refl Hj)
    as (jn & Sj & Nj & _).
  destruct (build_ways_elems _ _ _ _ _ _ Hl) as (new & Sn & Bn & Rn & Wn).
  exists p, jn, new. do 5 (split; [done|]).
  pose proof (step_trans _ _ _ _ _ Sj Sn) as S.
  destruct b as [n w r o]. destruct S as [So Sni Swi Sri Sno Swa Sre]. simpl in *.
  split; simpl; try done; lia.
Qed.

End Layout.

End Output.

Section Documents.

#[local] Opaque HALF_WIDTHS DEFAULT_SPEED VEHICLE_ROADS.

Section OutputDocument.

Context {num : Type} `{FloatOps num}.

Implicit Types (d : osm_doc num) (b : builder num) (o : list (element num)).

Lemma init_builder_out (bounds : option (osm_bounds num)) :
  out (init_builder bounds) = option_list (EBounds <$> bounds).
Proof. by destruct bounds. Qed.


(** The three id counters: in document order the node elements are
    numbered -1, -2, ..., and so are the way elements and the relation
    elements, each kind by itself.  So all ids are negative and no two
    elements of a kind share an id. *)
Theorem output_ids_sequential d o :
  convert d = Some o ->
  node_ids o = neg_ids (length (node_ids o)) /\
  way_ids o = neg_ids (length (way_elems o)) /\
  relation_ids o = neg_ids (length (relation_elems o)) /\
  NoDup (node_ids o) /\ NoDup (way_ids o) /\ NoDup (relation_ids o) /\
  Forall (fun i => i < 0) (node_ids o ++ way_ids o ++ relation_ids o).
Proof.
  intros Hc. destruct (convert_step d o Hc) as (p & jn & new & _ & _ & _ & _ & _ & S).
  destruct S as [So _ _ _ Sn Sw Sr]. cbn [out] in So.
  assert (Hn : node_ids o = neg_ids (length (node_ids o))).
  { rewrite So, init_builder_out, node_ids_app.
    replace (node_ids (option_list (EBounds <$> doc_bounds d))) with (@nil Z)
      by (by destruct (doc_bounds d)).
    exact Sn. }
  assert (Hw : way_ids o = neg_ids (length (way_elems o))).
  { unfold way_ids. rewrite So, init_builder_out, way_elems_app.
    replace (way_elems (option_list (EBounds <$> doc_bounds d)))
      with (@nil (Z * list Z * tags)) by (by destruct (doc_bounds d)).
    rewrite app_nil_l. unfold neg_ids.
    rewrite <- (length_fmap (fun w : Z * list Z * tags => w.1.1)). exact Sw. }
  assert (Hr : relation_ids o = neg_ids (length (relation_elems o))).
  { unfold relation_ids. rewrite So, init_builder_out, relation_elems_app.
    replace (relation_elems (option_list (EBounds <$> doc_bounds d)))
      with (@nil (Z * list member * tags)) by (by destruct (doc_bounds d)).
    rewrite app_nil_l. unfold neg_ids.
    rewrite <- (length_fmap (fun r : Z * list member * tags => r.1.1)). exact Sr. }
  assert (Hneg : forall n, Forall (fun i => i < 0) (neg_ids n)).
  { intros n. unfold neg_ids. apply Forall_fmap, Forall_forall. intros i _. simpl. lia. }
  split; [done|]. split; [done|]. split; [done|].
  split; [rewrite Hn; apply neg_ids_NoDup|].
  split; [rewrite Hw; apply neg_ids_NoDup|].
  split; [rewrite Hr; apply neg_ids_NoDup|].
  rewrite Hn, Hw, Hr. rewrite !Forall_app. auto.
Qed.

(** The counter [lanelets_created]: the output has one relation for every
    converted oneway way and two for every other converted way, and twice
    as many ways as relations. *)
Theorem output_counts d o hws :
  convert d = Some o -> highway_ways d = Some hws ->
  length (relation_elems o) = sum_list (lanelets_of <$> hws) /\
  length (way_elems o) = (2 * sum_list (lanelets_of <$> hws))%nat.
Proof.
  intros Hc Hh. destruct (convert_step d o Hc) as (p & jn & new & Hp & Nj & _ & Hr & Hw & S).
  unfold highway_ways in Hh. rewrite Hp in Hh. simpl in Hh. injection Hh as <-.
  destruct S as [So _ _ _ _ _ _]. cbn [out] in So.
  rewrite So, init_builder_out, !relation_elems_app, !way_elems_app, !length_app.
  rewrite (only_nodes_relations jn Nj), (only_nodes_ways jn Nj), Hr, Hw.
  by destruct (doc_bounds d).
Qed.

End OutputDocument.

Lemma output_ids_sequential_witness :
  let d := @scenario_loop R RealOps in
  exists o, convert d = Some o /\ way_ids o = neg_ids (length (way_elems o)).
Proof.
  intros d.
  destruct (convert_is_Some d ltac:(by eexists)) as [o Ho].
  exists o. split; [exact Ho|]. apply (output_ids_sequential d o Ho).
Defined.

Lemma output_counts_witness :
  let d := @scenario_B R RealOps in
  exists o, convert d = Some o /\ highway_ways d = Some [way_B1; way_B2] /\
    length (relation_elems o) = 2%nat /\ length (way_elems o) = 4%nat.
Proof.
  intros d.
  assert (Hh : highway_ways d = Some [way_B1; way_B2]) by (vm_compute; reflexivity).
  destruct (convert_is_Some d ltac:(by eexists)) as [o Ho].
  exists o. split; [exact Ho|]. split; [exact Hh|].
  exact (output_counts d o _ Ho Hh).
Defined.

End Documents.

Section Blocks.

#[local] Opaque HALF_WIDTHS DEFAULT_SPEED VEHICLE_ROADS.
#[local] Arguments rel_tags : simpl never.
#[local] Arguments solid_tags : simpl never.

Section Plans.

Context {num : Type} `{FloatOps num}.

Implicit Types (d : osm_doc num) (hw : highway_way) (shared : shared_map) (b : builder num).

Lemma misses_app shared refs l1 l2 :
  misses shared refs (l1 ++ l2) = (misses shared refs l1 + misses shared refs l2)%nat.
Proof.
  induction l1 as [|i l1 IH]; simpl; [done|].
  destruct (hit_at shared refs i); simpl; lia.
Qed.

Lemma hit_at_interior shared refs i :
  (0 < i < length refs - 1)%nat -> hit_at shared refs i = None.
Proof.
  intros Hi. unfold hit_at. destruct (refs !! i) as [r|]; [|done]. simpl.
  unfold shared_hit. rewrite bool_decide_eq_false_2; [done | lia].
Qed.

Lemma hit_at_shared shared refs i t :
  hit_at shared refs i = Some t ->
  exists r, refs !! i = Some r /\ shared !! r = Some t /\
            (i = 0 \/ i = length refs - 1)%nat.
Proof.
  unfold hit_at. destruct (refs !! i) as [r|]; [|done]. simpl.
  unfold shared_hit. case_bool_decide; [|done]. eauto.
Qed.

Lemma misses_interior shared refs l :
  Forall (fun i => (0 < i < length refs - 1)%nat) l -> misses shared refs l = length l.
Proof.
  induction 1 as [|i l Hi _ IH]; [done|].
  simpl. rewrite (hit_at_interior shared refs i Hi). by rewrite IH.
Qed.

(** The fresh nodes of a boundary sequence: all positions but the ends
    that resolve to a junction. *)
Lemma fresh_per_side_ends shared hw :
  (2 <= length (hw_refs hw))%nat ->
  fresh_per_side shared hw = (length (hw_refs hw) - shared_ends shared hw)%nat.
Proof.
  intros Hn. unfold fresh_per_side, positions_of, shared_ends.
  set (refs := hw_refs hw) in *. set (n := length refs) in *.
  replace n with (1 + ((n - 2) + 1))%nat at 1 by lia.
  rewrite !seq_app, !misses_app. simpl.
  rewrite misses_interior.
  2:{ apply Forall_forall. intros i Hi%elem_of_seq. lia. }
  rewrite length_seq. replace (1 + (n - 2))%nat with (n - 1)%nat by lia.
  replace (S (n - 2)) with (n - 1)%nat by lia.
  destruct (hit_at shared refs 0), (hit_at shared refs (n - 1)); simpl; lia.
Qed.

Lemma plan_miss_at shared refs s positions start j i :
  positions !! j = Some i -> hit_at shared refs i = None ->
  plan shared refs s positions start !! j =
    Some (start - Z.of_nat (misses shared refs (take j positions))) /\
  (misses shared refs (take j positions) < misses shared refs positions)%nat.
Proof.
  revert start j. induction positions as [|i' rest IH]; intros start j Hj Hhit; [done|].
  destruct j as [|j]; simpl in *.
  - injection Hj as ->. rewrite Hhit. simpl. split; [f_equal; lia | lia].
  - destruct (hit_at shared refs i'); simpl.
    + by apply IH.
    + destruct (IH (start - 1) j Hj Hhit) as [Hk Hlt].
      split; [rewrite Hk; f_equal; lia | lia].
Qed.

Lemma plan_elem shared refs s positions start i :
  i ∈ plan shared refs s positions start ->
  (exists r t, shared !! r = Some t /\ i = triple_get t s) \/
  (exists k : nat, (k < misses shared refs positions)%nat /\ i = start - Z.of_nat k).
Proof.
  revert start. induction positions as [|p rest IH]; intros start; simpl.
  { by intros ?%elem_of_nil. }
  destruct (hit_at shared refs p) as [t|] eqn:E.
  - intros [->|Hi]%elem_of_cons.
    + apply hit_at_shared in E as (r & _ & Ht & _). left. eauto.
    + by apply IH in Hi.
  - intros [->|Hi]%elem_of_cons.
    + right. exists 0%nat. split; lia.
    + apply IH in Hi as [?|(k & Hk & ->)]; [by left|].
      right. exists (S k). split; lia.
Qed.

Lemma lanelet_elems_nodes shared hw n0 w0 r0 :
  node_ids (lanelet_elems (num := num) shared hw n0 w0 r0) = [].
Proof. unfold lanelet_elems. by destruct (hw_oneway hw). Qed.

(** What the iteration of the [k]-th converted way appends, with the ids
    of its nodes. *)
Lemma emitted_block d k hw :
  way_at d k = Some hw ->
  exists o p shared (bk : builder num) nodes pre post,
    convert d = Some o /\ prepare d = Some p /\ shared_of d = Some shared /\
    only_nodes nodes /\
    node_ids nodes = (fun i : nat => nid bk - Z.of_nat i) <$>
      seq 0 ((if hw_oneway hw then 2 else 3) * fresh_per_side shared hw) /\
    emitted d k = Some (nodes ++ lanelet_elems shared hw (nid bk) (wid bk) (rid bk)) /\
    o = pre ++ (nodes ++ lanelet_elems shared hw (nid bk) (wid bk) (rid bk)) ++ post /\
    (2 <= length (hw_refs hw))%nat.
Proof.
  intros Hk.
  destruct (convert_is_Some d (way_at_origin d k hw Hk)) as [o Ho].
  pose proof Ho as Hc.
  apply convert_Some in Hc as (p & shared & b0 & b & Hp & Hj & Hl & ->).
  destruct (prepare_Some d p Hp) as (_ & _ & _ & Hwf & _ & _ & _).
  destruct (way_at_Some d p k hw Hp Hk) as (g & Hg & Egw).
  destruct (run_to_Some d p shared b0 b 0 Hp Hj Hl) as (b0' & n1 & n2 & Hr0 & _ & _ & _).
  destruct (run_to_Some d p shared b0 b k Hp Hj Hl) as (bk & new1 & new2 & Hrk & Hdrop & Sk & _).
  rewrite (drop_S _ _ _ Hg) in Hdrop. simpl in Hdrop.
  apply bind_Some in Hdrop as ([] & bk1 & Hbw & Hrest).
  destruct (build_way_step _ _ _ _ _ _ Hbw) as (nodes & Nn & Ln & Sw).
  destruct (build_ways_step _ _ _ _ _ _ Hrest) as [post Sp].
  rewrite Egw in *.
  exists (out b), p, shared, bk, nodes, (out bk), post.
  split; [done|]. split; [done|].
  split. { unfold shared_of. rewrite Hr0. done. }
  split; [done|].
  split.
  { pose proof (step_nodes _ _ _ Sw) as Sn. unfold fresh_from in Sn.
    rewrite node_ids_app, lanelet_elems_nodes, app_nil_r in Sn.
    rewrite (only_nodes_length nodes Nn), Ln in Sn. exact Sn. }
  split.
  { unfold emitted. rewrite Hrk. simpl. rewrite Hg. simpl. rewrite Hbw. simpl.
    rewrite (step_out _ _ _ Sw). by rewrite drop_app_length. }
  split.
  { rewrite (step_out _ _ _ Sp), (step_out _ _ _ Sw). by rewrite <- app_assoc. }
  pose proof (proj1 (Forall_forall _ _) Hwf g (list_elem_of_lookup_2 _ _ _ Hg)) as (Hlen & _).
  by rewrite Egw in Hlen.
Qed.

End Plans.

End Blocks.

Section Connectivity.

#[local] Opaque HALF_WIDTHS DEFAULT_SPEED VEHICLE_ROADS.
#[local] Arguments rel_tags : simpl never.
#[local] Arguments solid_tags : simpl never.

Section References.

Context {num : Type} `{FloatOps num}.

Implicit Types (d : osm_doc num) (hw : highway_way) (shared : shared_map) (b : builder num)
  (o : list (element num)).

(** The entries of the registry are runs of three ids of junction nodes. *)
Lemma registry_entry origin (nodes : node_index num) ep shared (jn : list (element num)) r t :
  registry_of origin nodes ep shared jn -> shared !! r = Some t ->
  (2 <= length (ep_get r ep))%nat /\
  t = triple_from (t_left t) /\ t_left t < 0 /\
  forall s, triple_get t s ∈ node_ids jn.
Proof.
  intros Hreg Ht. specialize (Hreg r).
  destruct (Nat.ltb_spec (length (ep_get r ep)) 2) as [?|Hge]; [congruence|].
  destruct Hreg as (n & pre & post & _ & -> & Ht'). rewrite Ht in Ht'. injection Ht' as ->.
  split; [done|]. split; [done|]. split; [simpl; lia|].
  intros s. rewrite !node_ids_app. unfold junction_nodes. simpl.
  rewrite !elem_of_app, !elem_of_cons. destruct s; simpl; tauto.
Qed.

Lemma shared_of_Some d shared :
  shared_of d = Some shared ->
  exists o p jn rest,
    convert d = Some o /\ prepare d = Some p /\ only_nodes jn /\
    registry_of (p_origin p) (p_nodes p) (p_endpoints p) shared jn /\
    o = out (init_builder (doc_bounds d)) ++ jn ++ rest.
Proof.
  intros Hs.
  assert (Ho : is_Some (origin_of d)).
  { unfold shared_of, run_to in Hs. destruct (prepare d) as [p|] eqn:Hp; [|done].
    apply prepare_Some in Hp as [Ho _]. eauto. }
  destruct (convert_is_Some d Ho) as [o Hc].
  destruct (run_facts d o Hc) as (p & shared' & jn & Hp & Hs' & Nj & Hreg & [rest Hrest] & _).
  assert (shared' = shared) as -> by congruence.
  by exists o, p, jn, rest.
Qed.

(** One iteration of phase 5 only refers to what exists: the node
    references of its ways are registry ids or nodes of the iteration, the
    members of its relations are ways of the iteration. *)
Lemma build_way_refs origin shared (g : way_geom num) b u b' (known : list Z) :
  build_way origin shared g b = Some (u, b') ->
  (forall r t s, shared !! r = Some t -> triple_get t s ∈ known) ->
  exists new, step b new b' /\
    Forall (fun w => Forall (fun i => i ∈ known ++ node_ids new) w.1.2) (way_elems new) /\
    Forall (fun r => Forall (fun m => m.1.1 = "way" /\ m.1.2 ∈ way_ids new) r.1.2)
           (relation_elems new).
Proof.
  intros Hb Hknown.
  destruct (build_way_step _ _ _ _ _ _ Hb) as (nodes & Nn & Ln & Sw).
  eexists. split; [exact Sw|].
  pose proof (step_nodes _ _ _ Sw) as Sn. unfold fresh_from in Sn.
  rewrite node_ids_app, lanelet_elems_nodes, app_nil_r in Sn.
  rewrite (only_nodes_length nodes Nn), Ln in Sn.
  rewrite node_ids_app, lanelet_elems_nodes, app_nil_r, Sn.
  unfold way_ids. rewrite way_elems_lanelet, relation_elems_lanelet by done.
  set (m := fresh_per_side shared (g_way g)) in *.
  assert (Hplan : forall s (j : nat) i c,
    (j < c)%nat ->
    i ∈ plan shared (hw_refs (g_way g)) s (positions_of (g_way g)) (nid b - Z.of_nat (j * m)) ->
    i ∈ known ++ ((fun i : nat => nid b - Z.of_nat i) <$> seq 0 (c * m))).
  { intros s j i c Hj Hi. apply plan_elem in Hi as [(r & t & Ht & ->)|(k & Hk & ->)].
    - apply elem_of_app. left. by eapply Hknown.
    - apply elem_of_app. right. apply list_elem_of_fmap. exists (j * m + k)%nat.
      split; [cbn beta; rewrite Nat2Z.inj_add; lia|]. apply elem_of_seq.
      change (k < m)%nat in Hk.
      assert ((j + 1) * m <= c * m)%nat by (apply Nat.mul_le_mono_r; lia). lia. }
  assert (E0 : nid b = nid b - Z.of_nat (0 * m)) by lia.
  assert (E1 : nid b - Z.of_nat m = nid b - Z.of_nat (1 * m)) by lia.
  assert (E2 : nid b - Z.of_nat m - Z.of_nat m = nid b - Z.of_nat (2 * m)) by lia.
  unfold lanelet_elems. fold m. destruct (hw_oneway (g_way g)); simpl.
  - split.
    + repeat constructor; simpl; apply Forall_forall; intros i Hi.
      * rewrite E0 in Hi. by apply (Hplan Left 0%nat i 2%nat) in Hi; [|lia].
      * rewrite E1 in Hi. by apply (Hplan Right 1%nat i 2%nat) in Hi; [|lia].
    + repeat constructor; simpl; rewrite !elem_of_cons; tauto.
  - split.
    + repeat constructor; simpl; apply Forall_forall; intros i Hi.
      * rewrite E0 in Hi. by apply (Hplan Left 0%nat i 3%nat) in Hi; [|lia].
      * rewrite E1 in Hi. by apply (Hplan Centre 1%nat i 3%nat) in Hi; [|lia].
      * rewrite elem_of_reverse in Hi. rewrite E1 in Hi.
        by apply (Hplan Centre 1%nat i 3%nat) in Hi; [|lia].
      * rewrite elem_of_reverse in Hi. rewrite E2 in Hi.
        by apply (Hplan Right 2%nat i 3%nat) in Hi; [|lia].
    + repeat constructor; simpl; rewrite !elem_of_cons; tauto.
Qed.

Lemma build_ways_refs origin shared (ways : list (way_geom num)) b u b' (known : list Z) :
  build_ways origin shared ways b = Some (u, b') ->
  (forall r t s, shared !! r = Some t -> triple_get t s ∈ known) ->
  exists new, step b new b' /\
    Forall (fun w => Forall (fun i => i ∈ known ++ node_ids new) w.1.2) (way_elems new) /\
    Forall (fun r => Forall (fun m => m.1.1 = "way" /\ m.1.2 ∈ way_ids new) r.1.2)
           (relation_elems new).
Proof.
  intros Hb Hknown. revert b Hb.
  induction ways as [|g rest IH]; intros b Hb; simpl in Hb.
  - injection Hb as _ <-. exists []. split; [apply step_refl|]. split; constructor.
  - apply bind_Some in Hb as (u1 & b1 & H1 & Hb).
    destruct (build_way_refs _ _ _ _ _ _ known H1 Hknown) as (new1 & S1 & W1 & R1).
    destruct (IH b1 Hb) as (new2 & S2 & W2 & R2).
    exists (new1 ++ new2). split; [eapply step_trans; eauto|].
    unfold way_ids in *. rewrite way_elems_app, relation_elems_app, node_ids_app, fmap_app.
    split; apply Forall_app; split.
    + eapply Forall_impl; [exact W1|]. intros w Hw. eapply Forall_impl; [exact Hw|].
      intros i. rewrite !elem_of_app. tauto.
    + eapply Forall_impl; [exact W2|]. intros w Hw. eapply Forall_impl; [exact Hw|].
      intros i. rewrite !elem_of_app. tauto.
    + eapply Forall_impl; [exact R1|]. intros r Hr. eapply Forall_impl; [exact Hr|].
      intros mb. rewrite !elem_of_app. tauto.
    + eapply Forall_impl; [exact R2|]. intros r Hr. eapply Forall_impl; [exact Hr|].
      intros mb. rewrite !elem_of_app. tauto.
Qed.

(** No dangling reference: every node reference of a way of the output is
    the id of a node element of the output, and every member of a relation
    is of type [way] and refers to the id of a way element of the output. *)
Theorem references_resolve d o :
  convert d = Some o ->
  Forall (fun w => Forall (fun i => i ∈ node_ids o) w.1.2) (way_elems o) /\
  Forall (fun r => Forall (fun m => m.1.1 = "way" /\ m.1.2 ∈ way_ids o) r.1.2)
         (relation_elems o).
Proof.
  intros Hc. apply convert_Some in Hc as (p & shared & b0 & b & Hp & Hj & Hl & ->).
  destruct (prepare_Some d p Hp) as (_ & _ & _ & _ & Hnd & _ & _).
  destruct (junctions_registry p (init_builder (doc_bounds d)) shared b0 Hnd eq_refl Hj)
    as (jn & Sj & Nj & Hreg).
  destruct (build_ways_refs _ _ _ _ _ _ (node_ids jn) Hl) as (new & Sn & Wn & Rn).
  { intros r t s Ht. by apply (registry_entry _ _ _ _ _ _ _ Hreg Ht). }
  rewrite (step_out _ _ _ Sn), (step_out _ _ _ Sj).
  unfold way_ids in *.
  rewrite !way_elems_app, !relation_elems_app, !node_ids_app, !fmap_app.
  rewrite (only_nodes_ways jn Nj), (only_nodes_relations jn Nj).
  replace (way_elems (out (init_builder (doc_bounds d)))) with (@nil (Z * list Z * tags))
    by (by destruct (doc_bounds d)).
  replace (relation_elems (out (init_builder (doc_bounds d))))
    with (@nil (Z * list member * tags)) by (by destruct (doc_bounds d)).
  simpl. split.
  - eapply Forall_impl; [exact Wn|]. intros w Hw. eapply Forall_impl; [exact Hw|].
    intros i. rewrite !elem_of_app. tauto.
  - exact Rn.
Qed.

End References.

End Connectivity.

Section Freshness.

#[local] Opaque HALF_WIDTHS DEFAULT_SPEED VEHICLE_ROADS.
#[local] Arguments rel_tags : simpl never.
#[local] Arguments solid_tags : simpl never.

Section Fresh.

Context {num : Type} `{FloatOps num}.

Implicit Types (d : osm_doc num) (hw : highway_way) (shared : shared_map) (b : builder num)
  (o : list (element num)).

(** A source node has a junction triple exactly when it receives two or
    more endpoint contributions; a node that is only passed through, or
    that ends a single way once, has none.  The three ids of a triple are
    consecutive: left, then centre, then right, all negative. *)
Theorem junction_iff_two_contributions d shared r deg :
  shared_of d = Some shared -> junction_degree d r = Some deg ->
  (is_Some (shared !! r) <-> (2 <= deg)%nat) /\
  forall t, shared !! r = Some t ->
    t_left t < 0 /\ t_centre t = t_left t - 1 /\ t_right t = t_left t - 2.
Proof.
  intros Hs Hdeg.
  destruct (shared_of_Some d shared Hs) as (o & p & jn & rest & _ & Hp & _ & Hreg & _).
  destruct (prepare_Some d p Hp) as (_ & _ & _ & _ & _ & _ & Hcount).
  unfold junction_degree, highway_ways in Hdeg. rewrite Hp in Hdeg. simpl in Hdeg.
  injection Hdeg as <-. rewrite <- Hcount.
  split.
  - split.
    + intros [t Ht]. by apply (registry_entry _ _ _ _ _ _ _ Hreg Ht).
    + intros Hge. specialize (Hreg r).
      destruct (Nat.ltb_spec (length (ep_get r (p_endpoints p))) 2) as [?|_]; [lia|].
      destruct Hreg as (n & pre & post & _ & _ & Ht). eauto.
  - intros t Ht. destruct (registry_entry _ _ _ _ _ _ _ Hreg Ht) as (_ & Et & Hneg & _).
    split; [done|]. rewrite Et. done.
Qed.

(** Every boundary way of a converted way has one node reference per
    resolvable reference of the source way, and these are at least two. *)
Theorem boundary_ways_full_length d k hw :
  way_at d k = Some hw ->
  exists els, emitted d k = Some els /\
    (2 <= length (hw_refs hw))%nat /\
    Forall (fun w => length w.1.2 = length (hw_refs hw)) (way_elems els).
Proof.
  intros Hk.
  destruct (emitted_block d k hw Hk)
    as (o & p & shared & bk & nodes & pre & post & _ & _ & _ & Nn & _ & Hem & _ & Hlen).
  eexists. split; [exact Hem|]. split; [exact Hlen|].
  rewrite way_elems_lanelet by done. unfold lanelet_elems.
  destruct (hw_oneway hw); repeat constructor; simpl;
    rewrite ?length_reverse, plan_length; unfold positions_of; by rewrite length_seq.
Qed.

(** The nodes that a converted way creates: for each of its two (oneway)
    or three boundary sequences one node per position, except at the ends
    that resolve to a junction triple.  No node is created for the ways of
    the reverse lanelet. *)
Theorem emitted_node_count d k hw shared :
  way_at d k = Some hw -> shared_of d = Some shared ->
  exists els, emitted d k = Some els /\
    length (node_ids els) =
      ((if hw_oneway hw then 2 else 3) *
       (length (hw_refs hw) - shared_ends shared hw))%nat /\
    (shared_ends shared hw <= 2)%nat.
Proof.
  intros Hk Hs.
  destruct (emitted_block d k hw Hk)
    as (o & p & shared' & bk & nodes & pre & post & _ & _ & Hs' & Nn & Hids & Hem & _ & Hlen).
  assert (shared' = shared) as -> by congruence.
  eexists. split; [exact Hem|]. split.
  - rewrite node_ids_app, lanelet_elems_nodes, app_nil_r, Hids, length_fmap, length_seq.
    by rewrite fresh_per_side_ends.
  - unfold shared_ends. destruct (hit_at _ _ 0), (hit_at _ _ _); simpl; lia.
Qed.

(** A position that does not resolve to a junction triple (every interior
    position, and an end whose source node has no triple) gets nodes of
    its own: the boundary ways of the way carry there nodes created in the
    iteration of this way, a different node on every side; the two ways of
    the reverse lanelet carry the centre and the right one at the mirrored
    position. *)
Theorem unshared_positions_fresh d k hw shared pos r :
  way_at d k = Some hw -> shared_of d = Some shared ->
  hw_refs hw !! pos = Some r ->
  ~ is_endpoint hw pos \/ shared !! r = None ->
  exists els, emitted d k = Some els /\ fresh_at els (length (hw_refs hw)) pos.
Proof.
  intros Hk Hs Hr Hun.
  destruct (emitted_block d k hw Hk)
    as (o & p & shared' & bk & nodes & pre & post & _ & _ & Hs' & Nn & Hids & Hem & _ & Hlen).
  assert (shared' = shared) as -> by congruence.
  eexists. split; [exact Hem|].
  assert (Hhit : hit_at shared (hw_refs hw) pos = None).
  { unfold hit_at. rewrite Hr. simpl. unfold shared_hit.
    case_bool_decide as He; [|done]. by destruct Hun. }
  assert (Hlt : (pos < length (hw_refs hw))%nat) by (by apply lookup_lt_Some in Hr).
  assert (Hpos : positions_of hw !! pos = Some pos).
  { unfold positions_of. by apply lookup_seq_lt. }
  set (m := fresh_per_side shared hw) in *.
  set (q := misses shared (hw_refs hw) (take pos (positions_of hw))).
  assert (Hq : (q < m)%nat).
  { by apply (plan_miss_at shared (hw_refs hw) Left (positions_of hw) 0 pos pos). }
  pose proof (fun s start =>
    proj1 (plan_miss_at shared (hw_refs hw) s (positions_of hw) start pos pos Hpos Hhit))
    as Hplan. fold q in Hplan.
  assert (Hin : forall (j c : nat) (z : Z), (j < c)%nat ->
    z = nid bk - Z.of_nat (j * m) - Z.of_nat q ->
    z ∈ (fun i : nat => nid bk - Z.of_nat i) <$> seq 0 (c * m)).
  { intros j c z Hj ->. apply list_elem_of_fmap. exists (j * m + q)%nat.
    split; [cbn beta; rewrite Nat2Z.inj_add; lia|]. apply elem_of_seq.
    assert ((j + 1) * m <= c * m)%nat by (apply Nat.mul_le_mono_r; lia). lia. }
  unfold fresh_at. rewrite way_elems_lanelet by done.
  rewrite node_ids_app, lanelet_elems_nodes, app_nil_r, Hids.
  unfold lanelet_elems. fold m.
  pose proof (plan_length shared (hw_refs hw) Centre (positions_of hw)
                (nid bk - Z.of_nat m)) as LC.
  pose proof (plan_length shared (hw_refs hw) Right (positions_of hw)
                (nid bk - Z.of_nat m - Z.of_nat m)) as LR.
  unfold positions_of in LC at 2. unfold positions_of in LR at 2.
  rewrite length_seq in LC, LR.
  destruct (hw_oneway hw); simpl.
  - exists (nid bk - Z.of_nat q), (nid bk - Z.of_nat m - Z.of_nat q).
    split; [apply Hplan|]. split; [apply Hplan|]. split; [lia|].
    split; [refine (Hin 0%nat 2%nat _ _ _); lia | refine (Hin 1%nat 2%nat _ _ _); lia].
  - exists (nid bk - Z.of_nat q), (nid bk - Z.of_nat m - Z.of_nat q),
      (nid bk - Z.of_nat m - Z.of_nat m - Z.of_nat q).
    split; [apply Hplan|]. split; [apply Hplan|].
    split. { rewrite <- LC at 1. rewrite reverse_lookup_mirror by lia. apply Hplan. }
    split. { rewrite <- LR at 1. rewrite reverse_lookup_mirror by lia. apply Hplan. }
    split. { repeat constructor; rewrite ?elem_of_cons, ?elem_of_nil; lia. }
    split; [refine (Hin 0%nat 3%nat _ _ _); lia|].
    split; [refine (Hin 1%nat 3%nat _ _ _); lia | refine (Hin 2%nat 3%nat _ _ _); lia].
Qed.

End Fresh.

Lemma references_resolve_witness :
  let d := @scenario_B R RealOps in
  exists o, convert d = Some o /\
    Forall (fun w => Forall (fun i => i ∈ node_ids o) w.1.2) (way_elems o).
Proof.
  intros d.
  destruct (convert_is_Some d ltac:(by eexists)) as [o Ho].
  exists o. split; [exact Ho|]. apply (references_resolve d o Ho).
Defined.

Lemma junction_iff_two_contributions_witness :
  let d := @scenario_B R RealOps in
  exists shared, shared_of d = Some shared /\ junction_degree d "A" = Some 1%nat /\
    (is_Some (shared !! "A") <-> (2 <= 1)%nat).
Proof.
  intros d.
  assert (Hdeg : junction_degree d "A" = Some 1%nat) by (vm_compute; reflexivity).
  destruct (convert_is_Some d ltac:(by eexists)) as [o Ho].
  destruct (run_facts d o Ho) as (p & shared & jn & _ & Hs & _).
  exists shared. split; [exact Hs|]. split; [exact Hdeg|].
  apply (junction_iff_two_contributions d shared "A" 1 Hs Hdeg).
Defined.

Lemma boundary_ways_full_length_witness :
  let d := @scenario_loop R RealOps in
  way_at d 0 = Some way_loop /\
  exists els, emitted d 0 = Some els /\
    Forall (fun w => length w.1.2 = 4%nat) (way_elems els).
Proof.
  intros d.
  assert (Hk : way_at d 0 = Some way_loop) by (vm_compute; reflexivity).
  split; [exact Hk|].
  destruct (boundary_ways_full_length d 0 way_loop Hk) as (els & He & _ & Hall).
  exists els. split; [exact He | exact Hall].
Defined.

Lemma emitted_node_count_witness :
  let d := @scenario_loop R RealOps in
  way_at d 0 = Some way_loop /\
  exists shared els, shared_of d = Some shared /\ emitted d 0 = Some els /\
    length (node_ids els) = (3 * (4 - shared_ends shared way_loop))%nat.
Proof.
  intros d.
  assert (Hk : way_at d 0 = Some way_loop) by (vm_compute; reflexivity).
  split; [exact Hk|].
  destruct (convert_is_Some d ltac:(by eexists)) as [o Ho].
  destruct (run_facts d o Ho) as (p & shared & jn & _ & Hs & _).
  destruct (emitted_node_count d 0 way_loop shared Hk Hs) as (els & He & Hn & _).
  exists shared, els. split; [exact Hs|]. split; [exact He | exact Hn].
Defined.

Lemma unshared_positions_fresh_witness :
  let d := @scenario_loop R RealOps in
  way_at d 0 = Some way_loop /\ hw_refs way_loop !! 1%nat = Some "B" /\
  ~ is_endpoint way_loop 1 /\
  exists els, emitted d 0 = Some els /\ fresh_at els 4 1.
Proof.
  intros d.
  assert (Hk : way_at d 0 = Some way_loop) by (vm_compute; reflexivity).
  assert (He : ~ is_endpoint way_loop 1) by (intros [?|?]; discriminate).
  split; [exact Hk|]. split; [reflexivity|]. split; [exact He|].
  destruct (convert_is_Some d ltac:(by eexists)) as [o Ho].
  destruct (run_facts d o Ho) as (p & shared & jn & _ & Hs & _).
  exact (unshared_positions_fresh d 0 way_loop shared 1 "B" Hk Hs eq_refl (or_introl He)).
Defined.

End Freshness.

Section Reading.

#[local] Opaque HALF_WIDTHS DEFAULT_SPEED VEHICLE_ROADS.

(** [get_tags]: of several [tag] children with the same key the last one
    counts; a key without a [tag] child is absent. *)
Theorem get_tags_last_wins (l : list (string * string)) (k : string) :
  get_tags l !! k = tag_value (reverse l) k.
Proof.
  induction l as [|[k' v] l IH] using rev_ind; [done|].
  unfold get_tags in *. rewrite foldl_app, reverse_app. simpl.
  case_bool_decide as Hk.
  - subst k'. by rewrite lookup_insert_eq.
  - rewrite lookup_insert_ne by done. exact IH.
Qed.

Section Collecting.

Context {num : Type} `{FloatOps num}.

Implicit Types (d : osm_doc num) (hw : highway_way) (w : osm_way).

Lemma collect_way_source d origin w hw :
  collect_way (index_nodes origin (doc_nodes d)) w = Some hw ->
  hw_id hw = way_id w /\ hw_highway hw = category w /\
  hw_refs hw = resolvable d w /\ is_Some (HALF_WIDTHS !! category w).
Proof.
  unfold collect_way, resolvable. fold (category w).
  case_bool_decide as Hc; [|done].
  erewrite list_filter_iff; [|intros r; apply index_nodes_dom].
  destruct (length _ <? 2)%nat; [done|]. by intros [= <-].
Qed.

Lemma collect_ways_sublist d origin ws :
  Forall2 (fun hw w => collect_way (index_nodes origin (doc_nodes d)) w = Some hw)
          (collect_ways (index_nodes origin (doc_nodes d)) ws)
          (filter (fun w => is_Some (collect_way (index_nodes origin (doc_nodes d)) w)) ws).
Proof.
  induction ws as [|w ws IH]; [constructor|].
  unfold collect_ways. simpl. rewrite filter_cons.
  destruct (collect_way _ w) as [hw|] eqn:E.
  - rewrite decide_True by eauto. simpl. by constructor.
  - rewrite decide_False by (by intros [? ?]). exact IH.
Qed.

(** The converted ways are the ways of the document that pass the two
    filters, in document order: each keeps the id and the category of its
    source way, and its references are the references of the source way
    that name a node of the document, in their order (a reference to a
    missing node is skipped, not an error). *)
Theorem converted_ways_in_order d hws :
  highway_ways d = Some hws ->
  exists ws,
    ws `sublist_of` doc_ways d /\
    Forall2 (fun hw w =>
               hw_id hw = way_id w /\ hw_highway hw = category w /\
               hw_refs hw = resolvable d w /\ hw_refs hw `sublist_of` way_nds w /\
               ~ dropped d w) hws ws /\
    forall w, w ∈ doc_ways d -> w ∈ ws \/ dropped d w.
Proof.
  unfold highway_ways. destruct (prepare d) as [p|] eqn:Hp; [|done]. simpl. intros [= <-].
  destruct (prepare_Some d p Hp) as (_ & Hn & Hg & _). rewrite Hg, Hn.
  set (nodes := index_nodes (p_origin p) (doc_nodes d)).
  exists (filter (fun w => is_Some (collect_way nodes w)) (doc_ways d)).
  split; [apply sublist_filter|]. split.
  - eapply Forall2_impl; [apply collect_ways_sublist|].
    intros hw w Hc. pose proof (collect_way_Some _ _ _ Hc) as (Hlen & _ & _).
    destruct (collect_way_source d (p_origin p) w hw Hc) as (Hi & Hh & Hr & Hs).
    split; [done|]. split; [done|]. split; [done|].
    split; [rewrite Hr; apply sublist_filter|].
    intros [Hnone|Hshort].
    + rewrite Hnone in Hs. by destruct Hs.
    + rewrite <- Hr in Hshort. lia.
  - intros w Hw. destruct (collect_way nodes w) as [hw|] eqn:E.
    + left. apply list_elem_of_filter. split; [by eexists | done].
    + right. unfold collect_way, nodes in E. fold (category w) in E.
      unfold dropped, resolvable.
      case_bool_decide as Hc.
      * right. erewrite list_filter_iff in E; [|intros r; apply index_nodes_dom].
        destruct (Nat.ltb_spec (length (filter (fun r => r ∈ node_id <$> doc_nodes d)
                                               (way_nds w))) 2); [done|done].
      * left. destruct (HALF_WIDTHS !! category w) eqn:E'; [|done].
        exfalso. apply Hc. by eexists.
Qed.

Lemma index_nodes_keep (origin : num * num) (nodes : list (osm_node num))
    (m : node_index num) r :
  r ∉ node_id <$> nodes ->
  foldl (fun m nd =>
           let xy := latlon_to_xy (node_lat nd) (node_lon nd) origin.1 origin.2 in
           <[node_id nd := (node_lat nd, node_lon nd, xy.1, xy.2)]> m) m nodes !! r = m !! r.
Proof.
  revert m. induction nodes as [|nd nodes IH]; intros m Hr; [done|].
  rewrite fmap_cons, not_elem_of_cons in Hr. destruct Hr as [Hne Hr].
  simpl. rewrite IH by done. by rewrite lookup_insert_ne.
Qed.

(** The index of the source nodes: of several nodes with the same id the
    last one counts; its entry holds its latitude and longitude and their
    projection around the origin. *)
Theorem index_nodes_last_wins (origin : num * num) (nodes1 nodes2 : list (osm_node num))
    (nd : osm_node num) :
  node_id nd ∉ node_id <$> nodes2 ->
  index_nodes origin (nodes1 ++ nd :: nodes2) !! node_id nd =
    Some (node_lat nd, node_lon nd,
          (latlon_to_xy (node_lat nd) (node_lon nd) origin.1 origin.2).1,
          (latlon_to_xy (node_lat nd) (node_lon nd) origin.1 origin.2).2).
Proof.
  intros Hr. unfold index_nodes. rewrite foldl_app.
  change (foldl ?f ?m (nd :: nodes2)) with (foldl f (f m nd) nodes2).
  rewrite index_nodes_keep by done. apply lookup_insert_eq.
Qed.

End Collecting.

Lemma converted_ways_in_order_witness :
  let d := @scenario_B R RealOps in
  highway_ways d = Some [way_B1; way_B2] /\
  exists ws, ws `sublist_of` doc_ways d /\
    Forall2 (fun hw w => hw_id hw = way_id w) [way_B1; way_B2] ws.
Proof.
  intros d.
  assert (Hh : highway_ways d = Some [way_B1; way_B2]) by (vm_compute; reflexivity).
  split; [exact Hh|].
  destruct (converted_ways_in_order d _ Hh) as (ws & Hs & Hf & _).
  exists ws. split; [exact Hs|].
  eapply Forall2_impl; [exact Hf|]. intros hw w Hw. apply Hw.
Defined.

Lemma index_nodes_last_wins_witness :
  let a := mk_node (num := R) "A" 0 0 in
  let a' := mk_node (num := R) "A" 0.001 0 in
  ("A" ∉ node_id <$> @nil (osm_node R)) /\
  index_nodes (0%R, 0%R) ([a] ++ a' :: []) !! "A" =
    Some (node_lat a', node_lon a',
          (latlon_to_xy (node_lat a') (node_lon a') 0%R 0%R).1,
          (latlon_to_xy (node_lat a') (node_lon a') 0%R 0%R).2).
Proof.
  intros a a'.
  assert (Hn : node_id a' ∉ node_id <$> (@nil (osm_node R))) by apply not_elem_of_nil.
  split; [exact Hn|].
  exact (index_nodes_last_wins (0%R, 0%R) [a] [] a' Hn).
Defined.

End Reading.

Section Tagging.






#[local] Opaque HALF_WIDTHS DEFAULT_SPEED VEHICLE_ROADS.
#[local] Arguments solid_tags : simpl never.


(** The three category tables fit together: every category with a default
    speed is a vehicle road, and every vehicle road has a half-width, that
    is, can be converted.  A way of any other category takes the speed
    "50" when its own is missing or rejected. *)
Theorem category_tables_nested (c : string) :
  (is_Some (DEFAULT_SPEED !! c) -> c ∈ VEHICLE_ROADS) /\
  (c ∈ VEHICLE_ROADS -> is_Some (HALF_WIDTHS !! c)) /\
  (is_vehicle c = false -> default_speed c = "50").
Proof.
  assert (H1 : map_Forall (fun k _ => bool_decide (k ∈ VEHICLE_ROADS) = true) DEFAULT_SPEED).
  { apply map_Forall_to_list. vm_compute.
    repeat (apply Forall_cons_2; [reflexivity|]). apply Forall_nil_2. }
  assert (H2 : Forall (fun k => bool_decide (is_Some (HALF_WIDTHS !! k)) = true)
                      (elements VEHICLE_ROADS)).
  { vm_compute. repeat (apply Forall_cons_2; [reflexivity|]). apply Forall_nil_2. }
  assert (A : is_Some (DEFAULT_SPEED !! c) -> c ∈ VEHICLE_ROADS).
  { intros [v Hv]. apply H1 in Hv. by apply bool_decide_eq_true in Hv. }
  split; [exact A|]. split.
  - intros Hc. apply elem_of_elements in Hc.
    rewrite Forall_forall in H2. apply H2 in Hc. by apply bool_decide_eq_true in Hc.
  - unfold is_vehicle, default_speed. intros Hv. apply bool_decide_eq_false in Hv.
    destruct (DEFAULT_SPEED !! c) eqn:E; [|done]. exfalso. apply Hv, A. by eexists.
Qed.

Section RelationTags.

Context {num : Type} `{FloatOps num}.

Implicit Types (d : osm_doc num) (hw : highway_way).

Lemma rel_tags_road hw :
  road_tags hw (rel_tags hw ++ (if hw_oneway hw then [("one_way", "yes")] else [])).
Proof.
  unfold road_tags, rel_tags.
  destruct (is_vehicle (hw_highway hw)), (bool_decide (hw_name hw = "")), (hw_oneway hw);
    repeat split; reflexivity.
Qed.

(** The tags of the relations of a converted way: type lanelet, location
    urban; subtype road and vehicle participation for the vehicle
    categories, subtype walkway and pedestrian participation for the
    others, never both; the name of the source way when it has a
    non-empty one, otherwise no name tag; one_way=yes on the relation of a
    oneway way and no one_way tag on the two relations of another way. *)
Theorem relation_tags d k hw :
  way_at d k = Some hw ->
  exists els, emitted d k = Some els /\
    Forall (fun r => road_tags hw r.2) (relation_elems els).
Proof.
  intros Hk.
  destruct (emitted_block d k hw Hk)
    as (o & p & shared & bk & nodes & pre & post & _ & _ & _ & Nn & _ & Hem & _).
  eexists. split; [exact Hem|].
  rewrite relation_elems_lanelet by done.
  pose proof (rel_tags_road hw) as Ht.
  unfold lanelet_elems. destruct (hw_oneway hw); simpl.
  - constructor; [exact Ht | constructor].
  - rewrite app_nil_r in Ht.
    constructor; [exact Ht|]. constructor; [exact Ht | constructor].
Qed.

(** The line tags of the boundary ways: every way is a thin line; the
    centre line, in both directions, is dashed; the outer lines are solid
    for the vehicle categories and dashed for the others. *)
Theorem boundary_line_tags d k hw :
  way_at d k = Some hw ->
  exists els, emitted d k = Some els /\
    let outer := [("type", "line_thin");
                  ("subtype", if is_vehicle (hw_highway hw) then "solid" else "dashed")] in
    let centre := [("type", "line_thin"); ("subtype", "dashed")] in
    (fun w => w.2) <$> way_elems els =
      if hw_oneway hw then [outer; outer] else [outer; centre; centre; outer].
Proof.
  intros Hk.
  destruct (emitted_block d k hw Hk)
    as (o & p & shared & bk & nodes & pre & post & _ & _ & _ & Nn & _ & Hem & _).
  eexists. split; [exact Hem|].
  rewrite way_elems_lanelet by done.
  unfold lanelet_elems. by destruct (hw_oneway hw).
Qed.

End RelationTags.

Lemma relation_tags_witness :
  let d := @scenario_B R RealOps in
  way_at d 0 = Some way_B1 /\
  exists els, emitted d 0 = Some els /\
    Forall (fun r => road_tags way_B1 r.2) (relation_elems els).
Proof.
  intros d.
  assert (Hk : way_at d 0 = Some way_B1) by (vm_compute; reflexivity).
  split; [exact Hk|]. exact (relation_tags d 0 way_B1 Hk).
Defined.

Lemma boundary_line_tags_witness :
  let d := @scenario_loop R RealOps in
  way_at d 0 = Some way_loop /\
  exists els, emitted d 0 = Some els /\
    length ((fun w => w.2) <$> way_elems els) = 4%nat.
Proof.
  intros d.
  assert (Hk : way_at d 0 = Some way_loop) by (vm_compute; reflexivity).
  split; [exact Hk|].
  destruct (boundary_line_tags d 0 way_loop Hk) as (els & He & Ht).
  exists els. split; [exact He|]. exact (f_equal length Ht).
Defined.

End Tagging.

Section Normals.

Local Close Scope Z_scope.
#[local] Opaque HALF_WIDTHS DEFAULT_SPEED VEHICLE_ROADS.

Section Entries.

Context {num : Type} `{FloatOps num}.

(** An entry of the index is the record of a node of the document. *)
Lemma index_nodes_entry (origin : num * num) (nodes : list (osm_node num)) r n :
  index_nodes origin nodes !! r = Some n ->
  exists nd, nd ∈ nodes /\ node_id nd = r /\
    n = (node_lat nd, node_lon nd,
         (latlon_to_xy (node_lat nd) (node_lon nd) origin.1 origin.2).1,
         (latlon_to_xy (node_lat nd) (node_lon nd) origin.1 origin.2).2).
Proof.
  unfold index_nodes. induction nodes as [|nd nodes IH] using rev_ind.
  { simpl. by rewrite lookup_empty. }
  rewrite foldl_app. cbn [foldl]. cbv zeta.
  destruct (decide (node_id nd = r)) as [E|E].
  - rewrite E, lookup_insert_eq. intros [= <-]. exists nd.
    split; [apply elem_of_app; right; by apply list_elem_of_singleton | done].
  - rewrite lookup_insert_ne by done. intros Hn.
    destruct (IH Hn) as (nd' & Hin & Hid & Hn'). exists nd'.
    split; [apply elem_of_app; by left | done].
Qed.

End Entries.

Section RealNormals.

Local Open Scope R_scope.

Implicit Types (dx dy : R) (P Q S : R * R).

Lemma hypot_rot dx dy : hypot (num := R) (- dy) dx = hypot dx dy.
Proof. unfold hypot, RealOps. f_equal. ring. Qed.

(** [left_perp] of a vector longer than 1e-10 is the unit vector a quarter
    turn to its left: perpendicular to it and on its left side.  Of a
    shorter vector it is (0, 1), whatever the vector. *)
Theorem left_perp_is_left dx dy :
  let h := hypot dx dy in
  let p := left_perp dx dy in
  (/ 10000000000 < h ->
   p = (- dy / h, dx / h) /\
   dx * p.1 + dy * p.2 = 0 /\ dx * p.2 - dy * p.1 = h /\
   p.1 * p.1 + p.2 * p.2 = 1) /\
  (h <= / 10000000000 -> p = (0, 1)).
Proof.
  intros h p. unfold p, left_perp.
  change (neg dy) with (- dy). split.
  - intros Hh. pose proof (hypot_sq dx dy) as Hs. fold h in Hs.
    rewrite normalize_long by (rewrite hypot_rot; exact Hh).
    rewrite hypot_rot. fold h. cbn [fst snd].
    split; [done|]. split; [field; lra|].
    split; [field_simplify_eq; [nra | lra]|].
    field_simplify_eq; [nra | lra].
  - intros Hh. apply normalize_short. by rewrite hypot_rot.
Qed.

Lemma mean_one z : (INR 0 + z) / INR 1 = z.
Proof. simpl. field. Qed.

(** Two points at most 1e-10 apart: the direction falls back to (0, 1)
    and both normals are its quarter turn (-1, 0), whatever the
    points. *)
Theorem compute_perps_coincident P Q :
  hypot (Q.1 - P.1) (Q.2 - P.2) <= / 10000000000 ->
  compute_perps [P; Q] = Some [(-1, 0); (-1, 0)].
Proof.
  intros Hh.
  assert (Hu : 0 * 0 + 1 * 1 = 1) by lra.
  unfold compute_perps, perp_at. simpl.
  rewrite (normalize_short _ _ Hh). cbn [fst snd].
  unfold fsum. simpl. rewrite !mean_one.
  rewrite (normalize_of_unit _ _ Hu). cbn [fst snd].
  rewrite (left_perp_of_unit _ _ Hu).
  replace (- (1)) with (-1) by lra. reflexivity.
Qed.

(** A corner.  With the unit directions [u1] and [u2] of the segments
    into and out of the middle point, as [normalize] gives them: the
    normals at the two ends are the quarter turns of [u1] and [u2]; the
    normal at the corner is the quarter turn of the unit vector along
    [u1 + u2], the bisector; and where the way doubles back so that
    [u1 + u2] is at most 2e-10 long, it is (-1, 0). *)
Theorem compute_perps_corner P Q S :
  let u1 := normalize (Q.1 - P.1) (Q.2 - P.2) in
  let u2 := normalize (S.1 - Q.1) (S.2 - Q.2) in
  let sx := u1.1 + u2.1 in
  let sy := u1.2 + u2.2 in
  let hs := hypot sx sy in
  exists nb,
    compute_perps [P; Q; S] = Some [(- u1.2, u1.1); nb; (- u2.2, u2.1)] /\
    (2 / 10000000000 < hs -> nb = (- (sy / hs), sx / hs)) /\
    (hs <= 2 / 10000000000 -> nb = (-1, 0)).
Proof.
  intros u1 u2 sx sy hs.
  pose proof (normalize_unit (Q.1 - P.1) (Q.2 - P.2)) as U1. fold u1 in U1.
  pose proof (normalize_unit (S.1 - Q.1) (S.2 - Q.2)) as U2. fold u2 in U2.
  set (a := normalize ((INR 0 + u1.1 + u2.1) / INR 2) ((INR 0 + u1.2 + u2.2) / INR 2)).
  exists (left_perp a.1 a.2). split.
  - unfold compute_perps, perp_at. simpl. fold u1 u2. unfold fsum. simpl.
    rewrite !mean_one.
    rewrite (normalize_of_unit _ _ U1), (normalize_of_unit _ _ U2). cbn [fst snd].
    rewrite (left_perp_of_unit _ _ U1), (left_perp_of_unit _ _ U2). reflexivity.
  - assert (Ex : (INR 0 + u1.1 + u2.1) / INR 2 = sx / 2) by (unfold sx; simpl; field).
    assert (Ey : (INR 0 + u1.2 + u2.2) / INR 2 = sy / 2) by (unfold sy; simpl; field).
    assert (Hh : hypot (sx / 2) (sy / 2) = hs / 2) by (apply hypot_scale; lra).
    pose proof (hypot_sq sx sy) as Hs. fold hs in Hs.
    unfold a. rewrite Ex, Ey. split.
    + intros Hl. rewrite normalize_long by (rewrite Hh; lra). rewrite Hh. cbn [fst snd].
      assert (Hu : sx / 2 / (hs / 2) * (sx / 2 / (hs / 2)) +
                   sy / 2 / (hs / 2) * (sy / 2 / (hs / 2)) = 1).
      { field_simplify_eq; [nra | lra]. }
      rewrite (left_perp_of_unit _ _ Hu). f_equal; field; lra.
    + intros Hl. rewrite normalize_short by (rewrite Hh; lra). cbn [fst snd].
      rewrite left_perp_of_unit by lra. f_equal; lra.
Qed.

(** The centre node of a junction triple sits on the source node: it
    carries the latitude and longitude of a node of the document with the
    id of the junction (in exact arithmetic, the origin not at a pole). *)
Theorem junction_centre_at_source (d : osm_doc R) r deg origin :
  junction_degree d r = Some deg -> (2 <= deg)%nat ->
  origin_of d = Some origin -> cos (radians origin.1) <> 0 ->
  exists o shared t nd,
    convert d = Some o /\ shared_of d = Some shared /\ shared !! r = Some t /\
    nd ∈ doc_nodes d /\ node_id nd = r /\
    ENode (t_centre t) (node_lat nd) (node_lon nd) ∈ o.
Proof.
  intros Hdeg Hge Ho Hcos.
  destruct (junction_placement d r deg Hdeg Hge)
    as (o & p & shared & t & n & Hc & Hp & Hs & Ht & Hn & _ & _ & Hcentre & _).
  destruct (prepare_Some d p Hp) as (Ho' & Hidx & _).
  assert (p_origin p = origin) as Eo by congruence.
  rewrite Hidx, Eo in Hn. rewrite Eo in Hcentre.
  destruct (index_nodes_entry origin (doc_nodes d) r n Hn) as (nd & Hin & Hid & ->).
  exists o, shared, t, nd. do 5 (split; [done|]).
  cbn [fst snd] in Hcentre.
  rewrite (to_latlon_to_xy (node_lat nd) (node_lon nd) origin.1 origin.2 Hcos) in Hcentre.
  exact Hcentre.
Qed.

Lemma compute_perps_coincident_witness :
  hypot (num := R) ((0, 0).1 - (0, 0).1) ((0, 0).2 - (0, 0).2) <= / 10000000000 /\
  compute_perps [(0, 0); (0, 0)] = Some [(-1, 0); (-1, 0)].
Proof.
  assert (Hh : hypot (num := R) ((0, 0).1 - (0, 0).1) ((0, 0).2 - (0, 0).2)
               <= / 10000000000).
  { apply hypot_le; cbn [fst snd]; lra. }
  split; [exact Hh|]. exact (compute_perps_coincident (0, 0) (0, 0) Hh).
Defined.

Lemma junction_centre_at_source_witness :
  let d := head_on (num := R) (0, -1)%Q (0, 1)%Q in
  junction_degree d "C" = Some 2%nat /\ (2 <= 2)%nat /\
  origin_of d = Some (lit 0, lit 0) /\ cos (radians (lit (num := R) 0, lit (num := R) 0).1) <> 0 /\
  exists o shared t nd,
    convert d = Some o /\ shared_of d = Some shared /\ shared !! "C" = Some t /\
    nd ∈ doc_nodes d /\ node_id nd = "C" /\
    ENode (t_centre t) (node_lat nd) (node_lon nd) ∈ o.
Proof.
  intros d.
  assert (Hd : junction_degree d "C" = Some 2%nat) by (vm_compute; reflexivity).
  assert (Ho : origin_of d = Some (lit 0, lit 0)) by reflexivity.
  assert (Hc : cos (radians (lit (num := R) 0, lit (num := R) 0).1) <> 0).
  { cbn [fst]. rewrite lit_0. simpl. rewrite Rmult_0_l, cos_0. lra. }
  split; [exact Hd|]. split; [lia|]. split; [exact Ho|]. split; [exact Hc|].
  exact (junction_centre_at_source d "C" 2 _ Hd ltac:(lia) Ho Hc).
Defined.

End RealNormals.

End Normals.

Section Materialization.

#[local] Opaque HALF_WIDTHS DEFAULT_SPEED VEHICLE_ROADS.
#[local] Arguments rel_tags : simpl never.
#[local] Arguments solid_tags : simpl never.

Section Once.

Context {num : Type} `{FloatOps num}.

Implicit Types (d : osm_doc num) (hw : highway_way) (shared : shared_map) (b : builder num)
  (p : prepared num) (o : list (element num)).

(** Phase 4 creates three nodes for every entry it adds to the registry,
    and nothing else; the entries are runs of three ids, no two of which
    overlap. *)
Lemma merge_junctions_exact origin (nodes : node_index num) shared items b shared' b' :
  NoDup items.*1 ->
  (forall k, k ∈ items.*1 -> shared !! k = None) ->
  registry_runs shared (nid b) ->
  merge_junctions origin nodes shared items b = Some (shared', b') ->
  exists new, out b' = out b ++ new /\
    (length new + 3 * size shared = 3 * size shared')%nat /\
    registry_runs shared' (nid b').
Proof.
  revert shared b. induction items as [|[k infos] rest IH];
    intros shared b Hnd Hfresh Hruns Hm; simpl in Hm.
  - injection Hm as <- <-. exists []. rewrite app_nil_r. done.
  - apply bind_Some in Hm as (sh1 & b1 & H1 & Hm).
    rewrite fmap_cons in Hnd. apply NoDup_cons in Hnd as [Hk Hnd]. simpl in Hk.
    apply merge_junction_step in H1.
    destruct (length infos <? 2)%nat eqn:El.
    + destruct H1 as [-> ->]. apply IH; try done.
      intros k' Hk'. apply Hfresh. rewrite fmap_cons. by apply elem_of_cons; right.
    + destruct H1 as (n & Hn & -> & S1).
      assert (Hkn : shared !! k = None).
      { apply Hfresh. rewrite fmap_cons. by apply elem_of_cons; left. }
      assert (E1 : nid b1 = nid b - 3) by (destruct S1; simpl in *; lia).
      destruct Hruns as [Hall Hapart].
      destruct (IH (<[k := triple_from (nid b)]> shared) b1) as (new2 & Ho & Hlen & Hr); try done.
      * intros k' Hk'. rewrite lookup_insert_ne by (intros ->; done).
        apply Hfresh. rewrite fmap_cons. by apply elem_of_cons; right.
      * split.
        -- apply map_Forall_insert_2.
           ++ cbn beta. split; [reflexivity|]. simpl. lia.
           ++ eapply map_Forall_impl; [exact Hall|]. intros r t Hrt. cbn beta in Hrt.
              destruct Hrt as [Et Hlt]. cbn beta. split; [exact Et | lia].
        -- intros r r' t t' Hne Ht Ht'.
           destruct (decide (r = k)) as [->|Hrk], (decide (r' = k)) as [->|Hrk'].
           ++ done.
           ++ rewrite lookup_insert_eq in Ht. injection Ht as <-.
              rewrite lookup_insert_ne in Ht' by done.
              destruct (Hall r' t' Ht') as [_ Hlt]. right. simpl. lia.
           ++ rewrite lookup_insert_eq in Ht'. injection Ht' as <-.
              rewrite lookup_insert_ne in Ht by done.
              destruct (Hall r t Ht) as [_ Hlt]. left. simpl. lia.
           ++ rewrite lookup_insert_ne in Ht, Ht' by done. exact (Hapart r r' t t' Hne Ht Ht').
      * exists (junction_nodes origin n infos (nid b) ++ new2).
        split. { rewrite Ho, (step_out _ _ _ S1). by rewrite <- app_assoc. }
        split; [|done].
        rewrite map_size_insert_None in Hlen by done.
        rewrite length_app. unfold junction_nodes at 1. simpl length. lia.
Qed.

(** The junction phase of a run. *)
Lemma junctions_exact p b0 shared b :
  NoDup (p_endpoints p).*1 -> nid b0 = -1 ->
  junctions p b0 = Some (shared, b) ->
  exists jn, out b = out b0 ++ jn /\ only_nodes jn /\
    length jn = (3 * size shared)%nat /\
    registry_of (p_origin p) (p_nodes p) (p_endpoints p) shared jn /\
    registry_runs shared (nid b).
Proof.
  intros Hnd Hn Hj.
  destruct (junctions_registry p b0 shared b Hnd Hn Hj) as (jn & Sj & Nj & Hreg).
  unfold junctions in Hj.
  apply merge_junctions_exact in Hj as (jn' & Ho & Hlen & Hruns); try done.
  rewrite (step_out _ _ _ Sj) in Ho. apply app_inv_head in Ho. subst jn'.
  exists jn. rewrite map_size_empty in Hlen. rewrite (step_out _ _ _ Sj).
  split; [done|]. split; [done|]. split; [lia|]. done.
Qed.

Lemma run_to_ways d p shared b0 k :
  prepare d = Some p ->
  junctions p (init_builder (doc_bounds d)) = Some (shared, b0) ->
  run_to d k =
    (r ← build_ways (p_origin p) shared (take k (p_ways p)) b0; Some (p, shared, r.2)).
Proof. intros Hp Hj. unfold run_to. rewrite Hp. simpl. rewrite Hj. done. Qed.

(** Phase 5 appends, way by way, what each iteration emits. *)
Lemma run_blocks d p shared b0 b :
  prepare d = Some p ->
  junctions p (init_builder (doc_bounds d)) = Some (shared, b0) ->
  lanelets p shared b0 = Some (tt, b) ->
  exists blocks,
    Forall2 (fun k blk => emitted d k = Some blk) (seq 0 (length (p_ways p))) blocks /\
    out b = out b0 ++ concat blocks.
Proof.
  intros Hp Hj Hl.
  assert (Hk : forall k, (k <= length (p_ways p))%nat ->
    exists bk blocks,
      build_ways (p_origin p) shared (take k (p_ways p)) b0 = Some (tt, bk) /\
      Forall2 (fun k blk => emitted d k = Some blk) (seq 0 k) blocks /\
      out bk = out b0 ++ concat blocks).
  { induction k as [|k IH]; intros Hle.
    - exists b0, []. simpl. rewrite app_nil_r. split; [done|]. split; [constructor | done].
    - destruct IH as (bk & blocks & Hbk & Hf & Ho); [lia|].
      destruct (lookup_lt_is_Some_2 (p_ways p) k) as [g Hg]; [lia|].
      destruct (run_to_Some d p shared b0 b (S k) Hp Hj Hl) as (bk' & _ & _ & Hr & _).
      rewrite (run_to_ways d p shared b0 (S k) Hp Hj) in Hr.
      rewrite (take_S_r _ _ _ Hg), build_ways_app, Hbk in Hr. simpl in Hr.
      unfold bind in Hr.
      destruct (build_way (p_origin p) shared g bk) as [[[] bk1]|] eqn:Hbw; [|done].
      simpl in Hr. injection Hr as <-.
      destruct (build_way_step _ _ _ _ _ _ Hbw) as (nodes & _ & _ & Sw).
      eexists bk1, (blocks ++ [_]).
      split. { rewrite (take_S_r _ _ _ Hg), build_ways_app, Hbk. simpl. unfold bind.
               by rewrite Hbw. }
      split.
      + rewrite seq_S. apply Forall2_app; [exact Hf|]. constructor; [|constructor].
        simpl. unfold emitted. rewrite (run_to_ways d p shared b0 k Hp Hj), Hbk. simpl.
        rewrite Hg. simpl. rewrite Hbw. simpl.
        rewrite (step_out _ _ _ Sw). by rewrite drop_app_length.
      + rewrite concat_app. simpl. rewrite app_nil_r, (step_out _ _ _ Sw), Ho.
        by rewrite <- app_assoc. }
  destruct (Hk (length (p_ways p)) ltac:(lia)) as (bk & blocks & Hbk & Hf & Ho).
  rewrite firstn_all in Hbk. unfold lanelets in Hl. rewrite Hl in Hbk. injection Hbk as <-.
  by exists blocks.
Qed.

End Once.

End Materialization.

Section SharedOnce.

#[local] Opaque HALF_WIDTHS DEFAULT_SPEED VEHICLE_ROADS.
#[local] Arguments rel_tags : simpl never.
#[local] Arguments solid_tags : simpl never.

Section Pieces.

Context {num : Type} `{FloatOps num}.

Implicit Types (d : osm_doc num) (hw : highway_way) (shared : shared_map) (b : builder num)
  (o : list (element num)).

(** The output of a run, piece by piece: the echoed bounds, the nodes of
    phase 4, three for every registry entry, and what the iterations of
    phase 5 emit, way by way. *)
Lemma run_layout d o :
  convert d = Some o ->
  exists p shared jn blocks,
    prepare d = Some p /\ shared_of d = Some shared /\
    o = option_list (EBounds <$> doc_bounds d) ++ jn ++ concat blocks /\
    only_nodes jn /\ length jn = (3 * size shared)%nat /\
    registry_of (p_origin p) (p_nodes p) (p_endpoints p) shared jn /\
    registry_runs shared (-1 - Z.of_nat (length jn)) /\
    Forall2 (fun k blk => emitted d k = Some blk) (seq 0 (length (p_ways p))) blocks.
Proof.
  intros Hc. pose proof Hc as Hc'.
  apply convert_Some in Hc' as (p & shared & b0 & b & Hp & Hj & Hl & ->).
  destruct (prepare_Some d p Hp) as (_ & _ & _ & _ & Hnd & _ & _).
  destruct (junctions_exact p (init_builder (doc_bounds d)) shared b0 Hnd eq_refl Hj)
    as (jn & Hjn & Nj & Hlen & Hreg & Hruns).
  destruct (junctions_registry p (init_builder (doc_bounds d)) shared b0 Hnd eq_refl Hj)
    as (jn' & Sj & Nj' & _).
  assert (jn' = jn) as ->.
  { pose proof (step_out _ _ _ Sj) as E. rewrite Hjn in E. by apply app_inv_head in E. }
  destruct (run_blocks d p shared b0 b Hp Hj Hl) as (blocks & Hf & Hb).
  destruct (run_facts d (out b) Hc) as (p' & shared' & _ & Hp' & Hs & _).
  assert (p' = p) as -> by congruence.
  assert (Es : shared_of d = Some shared).
  { destruct (run_to_Some d p shared b0 b 0 Hp Hj Hl) as (b0' & _ & _ & Hr0 & _).
    unfold shared_of. by rewrite Hr0. }
  exists p, shared, jn, blocks. split; [done|]. split; [done|].
  split. { rewrite Hb, Hjn, init_builder_out. by rewrite <- app_assoc. }
  split; [done|]. split; [done|]. split; [done|].
  split; [|done].
  pose proof (step_nid _ _ _ Sj) as En. rewrite (only_nodes_length jn Nj) in En.
  simpl in En. by rewrite <- En.
Qed.

(** The nodes that the iteration of a way creates. *)
Lemma block_nodes d k hw shared els :
  way_at d k = Some hw -> shared_of d = Some shared -> emitted d k = Some els ->
  length (node_ids els) =
    ((if hw_oneway hw then 2 else 3) * (length (hw_refs hw) - shared_ends shared hw))%nat /\
  bounds_elems els = [].
Proof.
  intros Hk Hs He.
  destruct (emitted_block d k hw Hk)
    as (o & p & shared' & bk & nodes & pre & post & _ & _ & Hs' & Nn & Hids & Hem & _ & Hlen).
  assert (shared' = shared) as -> by congruence.
  rewrite Hem in He. injection He as <-. split.
  - rewrite node_ids_app, lanelet_elems_nodes, app_nil_r, Hids, length_fmap, length_seq.
    by rewrite fresh_per_side_ends.
  - rewrite bounds_elems_app, (only_nodes_bounds nodes Nn). unfold lanelet_elems.
    by destruct (hw_oneway hw).
Qed.

Lemma blocks_lookup d (n : nat) (blocks : list (list (element num))) k els :
  Forall2 (fun k blk => emitted d k = Some blk) (seq 0 n) blocks ->
  (k < n)%nat -> emitted d k = Some els -> blocks !! k = Some els.
Proof.
  intros Hf Hk He.
  destruct (Forall2_lookup_l _ _ _ k k Hf) as (blk & Hb & Hblk).
  { by apply lookup_seq_lt. }
  simpl in Hblk. congruence.
Qed.

(** C1 (junction sharing).  Two different converted ways that have the
    source node [r] at an endpoint: the registry holds one triple for [r],
    and the boundary ways emitted for both ways carry the ids of that
    triple at that endpoint on every side.  The triple is materialized
    once: the output is the echoed bounds, the junction nodes [jn] and
    then what the ways emit; [jn] has exactly three nodes for every
    registry entry, the three consecutive ids of the triple are ids of
    [jn], no other registry entry has one of them, and each belongs to
    exactly one node element of the whole output.  And it is reused, not
    recomputed: [blocks] lists what the iterations of the converted ways
    emit, one block per way, and each of them, these two among them,
    creates nodes only for the positions that do not resolve to a
    registry entry, two or three per position. *)
Theorem junction_sharing d k1 k2 hw1 hw2 p1 p2 r :
  k1 <> k2 -> way_at d k1 = Some hw1 -> way_at d k2 = Some hw2 ->
  is_endpoint hw1 p1 -> is_endpoint hw2 p2 ->
  hw_refs hw1 !! p1 = Some r -> hw_refs hw2 !! p2 = Some r ->
  exists o shared t els1 els2 jn blocks,
    convert d = Some o /\ shared_of d = Some shared /\ shared !! r = Some t /\
    emitted d k1 = Some els1 /\ emitted d k2 = Some els2 /\
    uses_at els1 (length (hw_refs hw1)) p1 t /\
    uses_at els2 (length (hw_refs hw2)) p2 t /\
    materialized o (t_left t) = 1%nat /\
    materialized o (t_centre t) = 1%nat /\
    materialized o (t_right t) = 1%nat /\
    o = option_list (EBounds <$> doc_bounds d) ++ jn ++ concat blocks /\
    only_nodes jn /\ length jn = (3 * size shared)%nat /\
    t_centre t = t_left t - 1 /\ t_right t = t_left t - 2 /\
    (forall s, triple_get t s ∈ node_ids jn) /\
    (forall r' t', r' <> r -> shared !! r' = Some t' -> apart t t') /\
    blocks !! k1 = Some els1 /\ blocks !! k2 = Some els2 /\
    (forall k, is_Some (way_at d k) <-> (k < length blocks)%nat) /\
    (forall k hw els, way_at d k = Some hw -> blocks !! k = Some els ->
       emitted d k = Some els /\
       length (node_ids els) =
         ((if hw_oneway hw then 2 else 3) *
          (length (hw_refs hw) - shared_ends shared hw))%nat) /\
    hit_at shared (hw_refs hw1) p1 = Some t /\ hit_at shared (hw_refs hw2) p2 = Some t.
Proof.
  intros Hne H1 H2 E1 E2 R1 R2.
  destruct (convert_is_Some d (way_at_origin d k1 hw1 H1)) as [o Ho].
  destruct (degree_two_ways d k1 k2 hw1 hw2 p1 p2 r Hne H1 H2 E1 E2 R1 R2) as (deg & Hd & Hge).
  destruct (junction_use d o k1 hw1 p1 r deg Ho H1 E1 R1 Hd Hge)
    as (shared & t & els1 & Hsh & Ht & Hem1 & U1 & Il & Ic & Ir).
  destruct (junction_use d o k2 hw2 p2 r deg Ho H2 E2 R2 Hd Hge)
    as (shared' & t' & els2 & Hsh' & Ht' & Hem2 & U2 & _).
  assert (shared' = shared) as -> by congruence.
  assert (t' = t) as -> by congruence.
  destruct (run_layout d o Ho)
    as (p & shared' & jn & blocks & Hp & Hs & Hlay & Nj & Hlen & Hreg & [Hall Hapart] & Hf).
  assert (shared' = shared) as -> by congruence.
  destruct (Hall r t Ht) as [Et _].
  destruct (way_at_Some d p k1 hw1 Hp H1) as (g1 & Hg1 & _).
  destruct (way_at_Some d p k2 hw2 Hp H2) as (g2 & Hg2 & _).
  exists o, shared, t, els1, els2, jn, blocks.
  do 7 (split; [done|]).
  split; [by apply (materialized_once d)|].
  split; [by apply (materialized_once d)|].
  split; [by apply (materialized_once d)|].
  do 3 (split; [done|]).
  split; [by rewrite Et|]. split; [by rewrite Et|].
  split. { intros s. by apply (registry_entry _ _ _ _ _ _ _ Hreg Ht). }
  split. { intros r' u Hr' Hu. apply (Hapart r r' t u); [congruence | done | done]. }
  split. { apply (blocks_lookup d _ _ _ _ Hf); [by apply lookup_lt_Some in Hg1 | done]. }
  split. { apply (blocks_lookup d _ _ _ _ Hf); [by apply lookup_lt_Some in Hg2 | done]. }
  split.
  { intros k. rewrite <- (Forall2_length _ _ _ Hf), length_seq.
    unfold way_at, highway_ways. rewrite Hp. simpl. rewrite list_lookup_fmap.
    rewrite <- lookup_lt_is_Some. by rewrite fmap_is_Some. }
  split.
  { intros k hw els Hk Hb.
    destruct (Forall2_lookup_r _ _ _ k els Hf Hb) as (k' & Hk' & He).
    apply lookup_seq in Hk' as [-> _]. simpl in He.
    split; [done|]. by apply (block_nodes d k hw shared els). }
  split.
  - unfold hit_at. rewrite R1. simpl. unfold shared_hit.
    by rewrite bool_decide_eq_true_2.
  - unfold hit_at. rewrite R2. simpl. unfold shared_hit.
    by rewrite bool_decide_eq_true_2.
Qed.

(** The layout of the output.  The [bounds] element of the input is echoed
    as the first element and the output has no other [bounds] element;
    then come the junction nodes, exactly three for every entry of the
    registry, among them the nodes of every entry; then, way by way in
    the order of the converted ways, the elements that the iteration of
    each way emits. *)
Theorem output_layout d o :
  convert d = Some o ->
  exists shared hws jn blocks,
    shared_of d = Some shared /\ highway_ways d = Some hws /\
    bounds_elems o = option_list (doc_bounds d) /\
    o = option_list (EBounds <$> doc_bounds d) ++ jn ++ concat blocks /\
    only_nodes jn /\ length jn = (3 * size shared)%nat /\
    (forall r t s, shared !! r = Some t -> triple_get t s ∈ node_ids jn) /\
    Forall2 (fun k blk => emitted d k = Some blk) (seq 0 (length hws)) blocks /\
    Forall (fun blk => bounds_elems blk = []) blocks.
Proof.
  intros Ho.
  destruct (run_layout d o Ho)
    as (p & shared & jn & blocks & Hp & Hs & Hlay & Nj & Hlen & Hreg & _ & Hf).
  assert (Hh : highway_ways d = Some (g_way <$> p_ways p)).
  { unfold highway_ways. by rewrite Hp. }
  assert (Hb : Forall (fun blk => bounds_elems blk = []) blocks).
  { apply Forall_forall. intros blk Hin. apply list_elem_of_lookup_1 in Hin as [k Hk].
    destruct (Forall2_lookup_r _ _ _ k blk Hf Hk) as (k' & Hk' & He).
    apply lookup_seq in Hk' as [-> Hlt]. simpl in *.
    destruct (lookup_lt_is_Some_2 (p_ways p) k Hlt) as [g Hg].
    assert (Hw : way_at d k = Some (g_way g)).
    { unfold way_at. rewrite Hh. simpl. by rewrite list_lookup_fmap, Hg. }
    by apply (block_nodes d k (g_way g) shared blk). }
  exists shared, (g_way <$> p_ways p), jn, blocks.
  split; [done|]. split; [done|].
  split.
  { rewrite Hlay, !bounds_elems_app, (only_nodes_bounds jn Nj).
    assert (Hc : bounds_elems (concat blocks) = []).
    { clear -Hb. induction Hb as [|blk bs Hblk _ IH]; [done|].
      simpl. by rewrite bounds_elems_app, Hblk, IH. }
    rewrite Hc. by destruct (doc_bounds d). }
  split; [done|]. split; [done|]. split; [done|].
  split. { intros r t s Ht. by apply (registry_entry _ _ _ _ _ _ _ Hreg Ht). }
  split; [by rewrite length_fmap | done].
Qed.

End Pieces.

Lemma junction_sharing_witness :
  let d := @scenario_B R RealOps in
  0%nat <> 1%nat /\ way_at d 0 = Some way_B1 /\ way_at d 1 = Some way_B2 /\
  is_endpoint way_B1 1 /\ is_endpoint way_B2 1 /\
  hw_refs way_B1 !! 1%nat = Some "C" /\ hw_refs way_B2 !! 1%nat = Some "C" /\
  exists o shared t els1 els2 (jn : list (element R)),
    convert d = Some o /\ shared_of d = Some shared /\ shared !! "C" = Some t /\
    emitted d 0 = Some els1 /\ emitted d 1 = Some els2 /\
    uses_at els1 2 1 t /\ uses_at els2 2 1 t /\
    materialized o (t_left t) = 1%nat /\ length jn = (3 * size shared)%nat.
Proof.
  intros d.
  assert (H1 : way_at d 0 = Some way_B1) by (vm_compute; reflexivity).
  assert (H2 : way_at d 1 = Some way_B2) by (vm_compute; reflexivity).
  assert (E1 : is_endpoint way_B1 1) by (right; reflexivity).
  assert (E2 : is_endpoint way_B2 1) by (right; reflexivity).
  split; [lia|]. split; [exact H1|]. split; [exact H2|]. split; [exact E1|].
  split; [exact E2|]. split; [reflexivity|]. split; [reflexivity|].
  destruct (junction_sharing d 0 1 way_B1 way_B2 1 1 "C" ltac:(lia) H1 H2 E1 E2 eq_refl eq_refl)
    as (o & shared & t & els1 & els2 & jn & blocks & Ho & Hs & Ht & He1 & He2 & U1 & U2 &
        Ml & _ & _ & _ & _ & Hlen & _).
  exists o, shared, t, els1, els2, jn.
  split; [exact Ho|]. split; [exact Hs|]. split; [exact Ht|]. split; [exact He1|].
  split; [exact He2|]. split; [exact U1|]. split; [exact U2|]. split; [exact Ml | exact Hlen].
Defined.

Lemma output_layout_witness :
  let d := @scenario_A R RealOps in
  exists o, convert d = Some o /\ bounds_elems o = [scenario_bounds].
Proof.
  intros d.
  destruct (convert_is_Some d ltac:(by eexists)) as [o Ho].
  exists o. split; [exact Ho|].
  destruct (output_layout d o Ho) as (shared & hws & jn & blocks & _ & _ & Hb & _).
  exact Hb.
Defined.

End SharedOnce.

Section Rounding.


End Rounding.
